(** * RAGPulse: trace replay engine and metrics sink

    A shallow embedding of the two replay examples of the repository,

    - [example/single_local_instance]  (in-process vLLM backend):
      [real_time_runner.py], [metrics.py];
    - [example/single_online_instance] (remote HTTP backend):
      [online_server.py], [metrics.py], [preprocess_data.py].

    Conventions of the embedding.

    - A Python [float] is read as an exact rational ([Q]); rounding is not
      modelled.  Equality of computed floats is therefore stated up to
      [Qeq] where a quotient has to be simplified, and what is proved of a
      computed float is the formula that produces it, never a bound that
      rounding could break.
    - Of the file system, the directories that exist are modelled:
      [open(path, "w")] raises [FileNotFoundError] when the directory of
      the file does not exist.  Permissions and the capacity of the disk
      are not modelled.
    - Python [None] / JSON [null] is a constructor of its own ([PyNone],
      [JNull]); a dictionary with string keys is a [gmap string _]; a
      dictionary that is serialised keeps its insertion order and is an
      association list.
    - The two threads of a run are interleaved by an explicit schedule: a
      list of actions, each naming the thread that moves and carrying what
      the environment answers at that step (the wall-clock reading, the
      reply of the inference backend).
    - An uncaught Python exception ends the thread that raised it. *)

From Stdlib Require Import QArith ZArith Lia Lqa.
From stdpp Require Import gmap strings list fin_maps pretty sorting.

Local Open Scope Q_scope.

(** ** Python values shared by both examples *)

(** A metric value: a float or [None]. *)
Inductive pyval :=
| PyNone
| PyFloat (x : Q).

(** [sum(xs)]: left fold of [+] from the integer [0]. *)
Definition py_sum (xs : list Q) : Q := fold_left Qplus xs 0.

(** [len(xs)] as the divisor of a true division. *)
Definition py_len {A} (xs : list A) : Q := inject_Z (Z.of_nat (length xs)).

(** What a Python call yields: a value or an uncaught exception. *)
Inductive exn :=
| AttributeError
| TypeError
| ZeroDivisionError
| FileNotFoundError
| BackendError.

Inductive result (A : Type) :=
| Ok (a : A)
| Raise (e : exn).
Arguments Ok {A} a.
Arguments Raise {A} e.

(** JSON documents, as [json.dump] receives them. *)
#[local] Unset Elimination Schemes.
Inductive json :=
| JNull
| JNum (x : Q)
| JStr (s : string)
| JArr (xs : list json)
| JObj (kvs : list (string * json)).
#[local] Set Elimination Schemes.

(** A trace record: the two entries of the dictionary the replay reads,
    [int(trace["timestamp"])] and [trace["input_text"]]. *)
Record trace := {
  timestamp : Z;
  input_text : string
}.

Definition json_of_pyval (v : pyval) : json :=
  match v with
  | PyNone => JNull
  | PyFloat x => JNum x
  end.

(** The keys of a JSON object, in order. *)
Definition json_keys (j : json) : list string :=
  match j with
  | JObj kvs => map fst kvs
  | _ => []
  end.

Definition json_get (k : string) (j : json) : option json :=
  match j with
  | JObj kvs => snd <$> find (fun kv => String.eqb (fst kv) k) kvs
  | _ => None
  end.

(** Library functions the code calls and the repository does not define. *)
Class Library := {
  json_dump : json -> string;               (* json.dump(_, f, indent=4) *)
  os_path_join : string -> string -> string (* os.path.join *)
}.

(** The part of the outside world the metrics sink writes to. *)
Record world := {
  files : gmap string string;   (* path |-> content *)
  dirs : gset string;           (* the directories that exist *)
  console : list string         (* lines logged or printed *)
}.

Definition write_file (path content : string) (w : world) : world :=
  {| files := <[path := content]> (files w); dirs := dirs w;
     console := console w |}.

Definition emit (line : string) (w : world) : world :=
  {| files := files w; dirs := dirs w; console := console w ++ [line] |}.

(** [os.makedirs(d, exist_ok=True)] *)
Definition makedirs (d : string) (w : world) : world :=
  {| files := files w; dirs := {[d]} ∪ dirs w; console := console w |}.

(** ** [single_local_instance/metrics.py] *)

Module LocalMetrics.

(** [sum(xs) / len(xs) if xs else 0.0]; the quotient is the exact one,
    which binary64 rounds. *)
Definition avg_or_zero (xs : list Q) : pyval :=
  match xs with
  | [] => PyFloat 0
  | _ :: _ => PyFloat (py_sum xs / py_len xs)
  end.

Definition aggregate_metrics (ttfts tpots : list Q) : pyval * pyval :=
  let avg_ttft := avg_or_zero ttfts in
  let avg_tpot := avg_or_zero tpots in
  (avg_ttft, avg_tpot).

End LocalMetrics.

(** ** [single_online_instance/metrics.py] *)

Module OnlineMetrics.

Record RAGPulseMetrics := {
  TTFTs : list Q;
  TPOTs : list Q;
  metric_dir : string;
  (* [self.metric_name] is assigned only in the branch
     [if metric_name is None]; otherwise the attribute does not exist. *)
  metric_name : option string;
  logger : bool;                (* is a logger attached *)
  args : json
}.

Definition DEFAULT_METRIC_NAMES : list string :=
  ["TTFT"; "TPOT"; "Average_TTFT"; "Average_TPOT"]%string.

(** [__init__]: the object it builds; [default_dir] is
    [<dir of the module>/metrics] and [today] the formatted construction
    time.  What [__init__] does to the file system is [init_world]. *)
Definition init (default_dir today : string)
    (dir name : option string) (lg : bool) (a : json) : RAGPulseMetrics :=
  {| TTFTs := [];
     TPOTs := [];
     metric_dir := default default_dir dir;
     metric_name :=
       match name with
       | None => Some ("rag_pulse_metrics_" ++ today ++ ".json")%string
       | Some _ => None
       end;
     logger := lg;
     args := a |}.

(** [__init__], lines 23 to 26: the default directory is created, a
    directory passed by the caller is taken as it is. *)
Definition init_world (default_dir : string) (dir : option string)
    (w : world) : world :=
  match dir with
  | None => makedirs default_dir w
  | Some _ => w
  end.

Definition append_TTFT (x : Q) (self : RAGPulseMetrics) : RAGPulseMetrics :=
  {| TTFTs := TTFTs self ++ [x]; TPOTs := TPOTs self;
     metric_dir := metric_dir self; metric_name := metric_name self;
     logger := logger self; args := args self |}.

Definition append_TPOT (x : Q) (self : RAGPulseMetrics) : RAGPulseMetrics :=
  {| TTFTs := TTFTs self; TPOTs := TPOTs self ++ [x];
     metric_dir := metric_dir self; metric_name := metric_name self;
     logger := logger self; args := args self |}.

(** The body of the loop of [add_metrics] for one metric name. *)
Definition add_metric (metrics : gmap string pyval)
    (self : RAGPulseMetrics) (name : string) : RAGPulseMetrics :=
  match metrics !! name with
  | None => self                                   (* name not in metrics *)
  | Some v =>
      if String.eqb name "TTFT" then
        match v with
        | PyFloat x => append_TTFT x self
        | PyNone => self
        end
      else if String.eqb name "TPOT" then
        match v with
        | PyFloat x => append_TPOT x self
        | PyNone => self
        end
      else self
  end.

Definition add_metrics (metrics : gmap string pyval)
    (self : RAGPulseMetrics) : RAGPulseMetrics :=
  fold_left (add_metric metrics) DEFAULT_METRIC_NAMES self.

(** [sum(xs)/len(xs) if len(xs)>0 else None]; the quotient is the exact
    one, which binary64 rounds. *)
Definition avg_or_none (xs : list Q) : pyval :=
  if (0 <? length xs)%nat then PyFloat (py_sum xs / py_len xs) else PyNone.

Definition metrics_summary (self : RAGPulseMetrics) : json :=
  JObj [ ("TTFTs", JArr (map JNum (TTFTs self)));
         ("TPOTs", JArr (map JNum (TPOTs self)));
         ("Average_TTFT", json_of_pyval (avg_or_none (TTFTs self)));
         ("Average_TPOT", json_of_pyval (avg_or_none (TPOTs self)));
         ("Args", args self) ]%string.

Section Persist.
Context `{Library}.

(** [save_metrics]: the sink is returned next to the world so that a
    change of the sink would show.  Line 51 reads [self.metric_name],
    which raises [AttributeError] when [__init__] did not assign it.
    Line 59 opens the file for writing: the name [__init__] builds holds
    no separator, so the file lies in [metric_dir], and [open] raises
    [FileNotFoundError] when that directory does not exist. *)
Definition save_metrics (self : RAGPulseMetrics) (w : world)
  : result (RAGPulseMetrics * world) :=
  match metric_name self with
  | None => Raise AttributeError
  | Some name =>
      let metric_path := os_path_join (metric_dir self) name in
      if decide (metric_dir self ∈ dirs w) then
        let w :=
          write_file metric_path (json_dump (metrics_summary self)) w in
        Ok (self, emit ("Saved metrics summary to " ++ metric_path ++ ".") w)
      else Raise FileNotFoundError
  end.
End Persist.

End OnlineMetrics.

(** ** [single_local_instance/real_time_runner.py] *)

Module Local.

(** Sentinel sent through the pipe at the end of the request stream. *)
Definition IS_END : Z := (-1)%Z.

(** The fields of vLLM's [RequestOutput] the runner reads:
    [outputs[0].metrics.arrival_time], [.metrics.first_token_time] and
    [outputs[0].outputs[0].token_ids]. *)
Record request_output := {
  arrival_time : Q;
  first_token_time : Q;
  token_ids : list Z
}.

(** What the environment answers to [llm.generate] followed by
    [time.time()]. An exception raised while the sample is computed
    (lines 73 to 81) leaves the same state as [GenerateRaises]. *)
Inductive generate_reply :=
| Generated (out : request_output) (ed_time : Q)
| GenerateRaises.

(** Where the consumer thread stands in [_simulate_real_time_response]. *)
Inductive consumer_pc :=
| AtTop                                        (* line 71 *)
| InGenerate (receive_time : Q) (text : string)  (* lines 72-73 *)
| AtPoll                                       (* line 87 *)
| AtExitTest                                   (* line 91 *)
| Returned                                     (* line 94 *)
| Crashed (e : exn).                           (* uncaught exception *)

Record state := {
  (* producer, [_simulate_real_time_request] *)
  idx : nat;
  producer_returned : bool;
  (* shared between the threads *)
  real_time_requests : list (Q * string);
  conn : list Z;                 (* sent through the pipe, not yet received *)
  (* consumer *)
  pc : consumer_pc;
  TTFTs : list Q;
  TPOTs : list Q;
  is_sending_end : bool;
  (* history of the run, read by no step *)
  sent : list (nat * (Q * string)); (* trace index and queue entry of each append *)
  popped : list (Q * string);       (* entries taken by [pop(0)] *)
  end_sent : nat                    (* number of [conn.send(IS_END)] *)
}.

Definition init : state :=
  {| idx := 0; producer_returned := false;
     real_time_requests := []; conn := [];
     pc := AtTop; TTFTs := []; TPOTs := []; is_sending_end := false;
     sent := []; popped := []; end_sent := 0 |}.

(** [int(traces[idx]["timestamp"]) // 10] *)
Definition due_time (tr : trace) : Q := inject_Z (timestamp tr / 10)%Z.

(** One iteration of the producer loop (lines 37 to 45), or the statement
    after it (line 46); [current_time] is what [time.time()] reads. *)
Definition producer_step (traces : list trace) (start_time current_time : Q)
    (s : state) : state :=
  if producer_returned s then s
  else match traces !! idx s with
  | Some tr =>
      if Qle_bool (due_time tr) (current_time - start_time) then
        let entry := (current_time, input_text tr) in
        {| idx := S (idx s); producer_returned := false;
           real_time_requests := real_time_requests s ++ [entry];
           conn := conn s;
           pc := pc s; TTFTs := TTFTs s; TPOTs := TPOTs s;
           is_sending_end := is_sending_end s;
           sent := sent s ++ [(idx s, entry)]; popped := popped s;
           end_sent := end_sent s |}
      else s                                              (* sleep *)
  | None =>
      {| idx := idx s; producer_returned := true;
         real_time_requests := real_time_requests s;
         conn := conn s ++ [IS_END];
         pc := pc s; TTFTs := TTFTs s; TPOTs := TPOTs s;
         is_sending_end := is_sending_end s;
         sent := sent s; popped := popped s;
         end_sent := S (end_sent s) |}
  end.

(** The consumer's own fields are rewritten by [with_consumer]; the
    queue and the pipe by the step that touches them. *)
Definition with_consumer (p : consumer_pc) (tt tp : list Q) (fin : bool)
    (s : state) : state :=
  {| idx := idx s; producer_returned := producer_returned s;
     real_time_requests := real_time_requests s; conn := conn s;
     pc := p; TTFTs := tt; TPOTs := tp; is_sending_end := fin;
     sent := sent s; popped := popped s; end_sent := end_sent s |}.

Definition goto (p : consumer_pc) (s : state) : state :=
  with_consumer p (TTFTs s) (TPOTs s) (is_sending_end s) s.

(** Lines 77 to 81. *)
Definition sample (receive_time : Q) (out : request_output) (ed_time : Q)
  : Q * Q :=
  let ttft := first_token_time out - receive_time in
  let gen_tokens := token_ids out in
  let tpot :=
    match gen_tokens with
    | [] => 0
    | _ :: _ => (ed_time - arrival_time out) / py_len gen_tokens
    end in
  (ttft, tpot).

Definition consumer_step (reply : generate_reply) (s : state) : state :=
  match pc s with
  | AtTop =>
      match real_time_requests s with
      | (receive_time, text) :: rest =>
          {| idx := idx s; producer_returned := producer_returned s;
             real_time_requests := rest; conn := conn s;
             pc := InGenerate receive_time text;
             TTFTs := TTFTs s; TPOTs := TPOTs s;
             is_sending_end := is_sending_end s;
             sent := sent s;
             popped := popped s ++ [(receive_time, text)];
             end_sent := end_sent s |}
      | [] => goto AtPoll s
      end
  | InGenerate receive_time _ =>
      match reply with
      | GenerateRaises => goto (Crashed BackendError) s
      | Generated out ed_time =>
          let '(ttft, tpot) := sample receive_time out ed_time in
          with_consumer AtTop (TTFTs s ++ [ttft]) (TPOTs s ++ [tpot])
            (is_sending_end s) s
      end
  | AtPoll =>
      match conn s with
      | msg :: rest =>                         (* conn.poll() is true *)
          {| idx := idx s; producer_returned := producer_returned s;
             real_time_requests := real_time_requests s; conn := rest;
             pc := AtExitTest; TTFTs := TTFTs s; TPOTs := TPOTs s;
             is_sending_end :=
               if (msg =? IS_END)%Z then true else is_sending_end s;
             sent := sent s; popped := popped s; end_sent := end_sent s |}
      | [] => goto AtExitTest s
      end
  | AtExitTest =>
      match is_sending_end s, real_time_requests s with
      | true, [] => goto Returned s            (* break *)
      | _, _ => goto AtTop s                   (* sleep, next iteration *)
      end
  | Returned | Crashed _ => s
  end.

(** A schedule names, step by step, the thread that moves. *)
Inductive action :=
| Producer (current_time : Q)
| Consumer (reply : generate_reply).

Section Run.
Variable traces : list trace.
Variable start_time : Q.

Definition step (s : state) (a : action) : state :=
  match a with
  | Producer current_time => producer_step traces start_time current_time s
  | Consumer reply => consumer_step reply s
  end.

Definition run (schedule : list action) (s : state) : state :=
  fold_left step schedule s.

(** States of [run_real_time traces llm]. *)
Definition reachable (s : state) : Prop :=
  exists schedule, s = run schedule init.
End Run.

(** What [run_real_time] hands back once both futures are done. *)
Definition outcome (s : state) : option (result (list Q * list Q)) :=
  match pc s with
  | Returned =>
      if producer_returned s then Some (Ok (TTFTs s, TPOTs s)) else None
  | Crashed e => if producer_returned s then Some (Raise e) else None
  | _ => None
  end.

End Local.

(** ** [single_online_instance/online_server.py] *)

Module Online.

Import OnlineMetrics.

(** What travels through [request_queue]. *)
Inductive item :=
| Request (text : string) (receive_time : Q)
| OnlineServerEndSignal.

(** One turn of [for chunk in response_chunks]: a chunk, read at wall-clock
    [cur_time], with its [choices[0].delta.content]; or an exception raised
    by the iteration (dropped connection, chunk without choices). *)
Inductive chunk_event :=
| Chunk (cur_time : Q) (content : option string)
| StreamRaises.

(** What the endpoint answers to one [chat.completions.create] call.
    [arrival_time] is the instant the request reached the endpoint; the
    client cannot read it.  [ed_time] is [time.time()] after the loop. *)
Inductive reply :=
| CreateRaises
| Answered (arrival_time : Q) (events : list chunk_event) (ed_time : Q).

(** Truth value of [chunk.choices[0].delta.content]. *)
Definition truthy (content : option string) : bool :=
  match content with
  | None => false
  | Some s => negb (String.eqb s "")
  end.

(** The loop over the chunks (lines 80 to 87), from the values of [TTFT]
    and [chunk_count] before it. *)
Fixpoint consume_chunks (receive_time : Q) (events : list chunk_event)
    (TTFT : pyval) (chunk_count : nat) : result (pyval * nat) :=
  match events with
  | [] => Ok (TTFT, chunk_count)
  | StreamRaises :: _ => Raise BackendError
  | Chunk cur_time content :: rest =>
      let TTFT :=
        match TTFT with
        | PyNone => PyFloat (cur_time - receive_time)
        | PyFloat _ => TTFT
        end in
      let chunk_count :=
        if truthy content then S chunk_count else chunk_count in
      consume_chunks receive_time rest TTFT chunk_count
  end.

(** Line 89. *)
Definition tpot_of (receive_time ed_time : Q) (chunk_count : nat) : Q :=
  if (0 <? chunk_count)%nat
  then (ed_time - receive_time) / inject_Z (Z.of_nat chunk_count)
  else 0.

(** [response]: the sink after the call, or the exception that leaves it.
    Line 91 formats [TTFT] with [:.2f], which raises [TypeError] on
    [None]. *)
Definition response (streaming : bool) (text : string) (receive_time : Q)
    (r : reply) (metrics : RAGPulseMetrics) : result RAGPulseMetrics :=
  match r with
  | CreateRaises => Raise BackendError
  | Answered _ events ed_time =>
      if streaming then
        match consume_chunks receive_time events PyNone 0 with
        | Raise e => Raise e
        | Ok (TTFT, chunk_count) =>
            let TPOT := tpot_of receive_time ed_time chunk_count in
            match TTFT with
            | PyNone => Raise TypeError
            | PyFloat _ =>
                Ok (add_metrics
                      (<["TTFT" := TTFT]> (<["TPOT" := PyFloat TPOT]> ∅))
                      metrics)
            end
        end
      else Ok metrics
  end.

(** The calls the main thread makes on the server after [__init__]. *)
Inductive call :=
| Run (traces : list trace) (time_scale_factor : Z)
| Close
| Del.

Inductive worker_pc :=
| Waiting                                        (* in [request_queue.get()] *)
| Responding (text : string) (receive_time : Q)  (* in [self.response] *)
| Exited                                         (* after [break] *)
| Died (e : exn).                                (* uncaught exception *)

Inductive main_pc :=
| Idle
| Running (traces : list trace) (time_scale_factor : Z)
          (start_time : Q) (trace_idx : nat)
| Joining                        (* in [close], at [request_thread.join()] *)
| Failed (e : exn).

Record server := {
  streaming : bool;
  request_queue : list item;
  worker : worker_pc;
  metrics : RAGPulseMetrics;
  outside : world;
  (* main thread *)
  main : main_pc;
  program : list call;           (* calls still to be made *)
  (* history of the run, read by no step *)
  put : list item;               (* every [request_queue.put], oldest first *)
  got : list item;               (* every item [get] returned *)
  run_log : list (nat * item);   (* trace index and request of each put of
                                    the current or latest [run] *)
  responded : nat                (* calls of [response] that returned *)
}.

(** The state [__init__] leaves, with the calls the main thread goes on
    to make. *)
Definition init (streaming : bool) (metrics : RAGPulseMetrics)
    (w : world) (prog : list call) : server :=
  {| streaming := streaming; request_queue := []; worker := Waiting;
     metrics := metrics; outside := w; main := Idle; program := prog;
     put := []; got := []; run_log := []; responded := 0 |}.

Definition alive (p : worker_pc) : bool :=
  match p with
  | Waiting | Responding _ _ => true
  | Exited | Died _ => false
  end.

Definition with_main (m : main_pc) (s : server) : server :=
  {| streaming := streaming s; request_queue := request_queue s;
     worker := worker s; metrics := metrics s; outside := outside s;
     main := m; program := program s;
     put := put s; got := got s; run_log := run_log s;
     responded := responded s |}.

(** [self.request_queue.put(it)] by the main thread, which moves to [m]. *)
Definition enqueue (it : item) (m : main_pc) (prog : list call)
    (log : list (nat * item)) (s : server) : server :=
  {| streaming := streaming s; request_queue := request_queue s ++ [it];
     worker := worker s; metrics := metrics s; outside := outside s;
     main := m; program := prog;
     put := put s ++ [it]; got := got s; run_log := log;
     responded := responded s |}.

Definition dequeue (rest : list item) (it : item) (p : worker_pc)
    (s : server) : server :=
  {| streaming := streaming s; request_queue := rest;
     worker := p; metrics := metrics s; outside := outside s;
     main := main s; program := program s;
     put := put s; got := got s ++ [it]; run_log := run_log s;
     responded := responded s |}.

(** [int(traces[trace_idx]["timestamp"]) / time_scale_factor] *)
Definition scaled (tr : trace) (time_scale_factor : Z) : Q :=
  inject_Z (timestamp tr) / inject_Z time_scale_factor.

Section Steps.
Context `{Library}.

(** One step of the main thread; [now] is what [time.time()] reads. *)
Definition main_step (now : Q) (s : server) : server :=
  match main s with
  | Idle =>
      match program s with
      | [] => s
      | Run traces k :: rest =>
          {| streaming := streaming s; request_queue := request_queue s;
             worker := worker s; metrics := metrics s; outside := outside s;
             main := Running traces k now 0; program := rest;
             put := put s; got := got s; run_log := [];
             responded := responded s |}
      | Close :: rest | Del :: rest =>
          (* [self.request_thread] is assigned in [__init__] and never
             again: the test [is not None] always passes. *)
          enqueue OnlineServerEndSignal Joining rest (run_log s) s
      end
  | Running traces k start_time trace_idx =>
      match traces !! trace_idx with
      | None => with_main Idle s                             (* run returns *)
      | Some tr =>
          if (k =? 0)%Z then with_main (Failed ZeroDivisionError) s
          else if Qle_bool (scaled tr k) (now - start_time) then
            enqueue (Request (input_text tr) now)
              (Running traces k start_time (S trace_idx)) (program s)
              (run_log s ++ [(trace_idx, Request (input_text tr) now)]) s
          else s                                                  (* sleep *)
      end
  | Joining =>
      if alive (worker s) then s                       (* join blocks *)
      else
        match save_metrics (metrics s) (outside s) with
        | Ok (m, w) =>
            {| streaming := streaming s; request_queue := request_queue s;
               worker := worker s; metrics := m; outside := w;
               main := Idle; program := program s;
               put := put s; got := got s; run_log := run_log s;
               responded := responded s |}
        | Raise e => with_main (Failed e) s
        end
  | Failed _ => s
  end.

(** One step of [request_worker]; [r] is the endpoint's answer if the
    step is a call of [response]. *)
Definition worker_step (r : reply) (s : server) : server :=
  match worker s with
  | Waiting =>
      match request_queue s with
      | [] => s                                            (* get blocks *)
      | OnlineServerEndSignal :: rest =>
          dequeue rest OnlineServerEndSignal Exited s
      | Request text receive_time :: rest =>
          dequeue rest (Request text receive_time)
            (Responding text receive_time) s
      end
  | Responding text receive_time =>
      match response (streaming s) text receive_time r (metrics s) with
      | Ok m =>
          {| streaming := streaming s; request_queue := request_queue s;
             worker := Waiting; metrics := m; outside := outside s;
             main := main s; program := program s;
             put := put s; got := got s; run_log := run_log s;
             responded := S (responded s) |}
      | Raise e =>
          {| streaming := streaming s; request_queue := request_queue s;
             worker := Died e; metrics := metrics s; outside := outside s;
             main := main s; program := program s;
             put := put s; got := got s; run_log := run_log s;
             responded := responded s |}
      end
  | Exited | Died _ => s
  end.

Inductive action :=
| Main (now : Q)
| Worker (r : reply).

Definition step (s : server) (a : action) : server :=
  match a with
  | Main now => main_step now s
  | Worker r => worker_step r s
  end.

Definition run (schedule : list action) (s : server) : server :=
  fold_left step schedule s.

End Steps.

Definition is_signal (it : item) : bool :=
  match it with
  | OnlineServerEndSignal => true
  | Request _ _ => false
  end.

(** Number of end signals among the items put so far. *)
Definition signals_put (s : server) : nat :=
  length (filter (fun it => is_signal it = true) (put s)).

End Online.

(** ** [single_online_instance/preprocess_data.py] *)

Module Preprocess.

Section Random.
(** The generator behind [random.randint]: a state and a draw that is,
    as the library documents, within the closed interval asked for. *)
Variable rng : Type.
Variable randint : Z -> Z -> rng -> Z * rng.

(** [[random.randint(lo, hi) for _ in range(n)]] *)
Fixpoint draw (n : nat) (lo hi : Z) (g : rng) : list Z * rng :=
  match n with
  | O => ([], g)
  | S n' =>
      let '(x, g) := randint lo hi g in
      let '(xs, g) := draw n' lo hi g in
      (x :: xs, g)
  end.

(** [PreprocessData.simulate_token_lists] *)
Definition simulate_token_lists (token_length vocab_size : Z) (g : rng)
  : list Z * rng :=
  if ((token_length <=? 0) || (vocab_size <=? 0))%Z then ([], g)
  else draw (Z.to_nat token_length) 0 (vocab_size - 1)%Z g.

End Random.

(** A generator to run the definitions with: a linear congruential state
    reduced into the interval. *)
Definition lcg_randint (lo hi : Z) (g : Z) : Z * Z :=
  ((lo + g mod (hi - lo + 1))%Z, ((1103515245 * g + 12345) mod 2147483648)%Z).

End Preprocess.

(** ** Concrete collaborators, to run the definitions *)

Module Demo.

(** A compact rendering that stands in for [json.dump]. *)
Fixpoint show_json (j : json) : string :=
  match j with
  | JNull => "null"
  | JNum x => pretty (Qnum x) +:+ "/" +:+ pretty (Zpos (Qden x))
  | JStr s => s
  | JArr xs => "[" +:+ String.concat "," (map show_json xs) +:+ "]"
  | JObj kvs =>
      "{" +:+ String.concat ","
        (map (fun kv => let '(k, v) := kv in k +:+ ":" +:+ show_json v) kvs)
      +:+ "}"
  end%string.

#[local] Instance library : Library :=
  {| json_dump := show_json;
     os_path_join := fun d n => (d +:+ "/" +:+ n)%string |}.

Definition empty_world : world :=
  {| files := ∅; dirs := ∅; console := [] |}.

(** The world once [main.py] has constructed its sink: no file yet, the
    default directory made by [__init__]. *)
Definition world0 : world :=
  OnlineMetrics.init_world "metrics" None empty_world.

(** The sink [main.py] builds, after three recorded requests. *)
Definition sink : OnlineMetrics.RAGPulseMetrics :=
  {| OnlineMetrics.TTFTs := [1; 2; 3];
     OnlineMetrics.TPOTs := [1 # 2; 1 # 4; 1 # 4];
     OnlineMetrics.metric_dir := "metrics";
     OnlineMetrics.metric_name := Some "rag_pulse_metrics_2025-01-01-00-00.json"%string;
     OnlineMetrics.logger := true;
     OnlineMetrics.args := JObj [("time_scale_factor", JNum 10)]%string |}.

End Demo.

(** ** Notions of the specification *)

(** The arithmetic mean, as the specification words it: the total of the
    samples over their number. *)
Fixpoint total (xs : list Q) : Q :=
  match xs with
  | [] => 0
  | x :: rest => x + total rest
  end.

Definition arithmetic_mean (xs : list Q) : Q :=
  total xs / inject_Z (Z.of_nat (length xs)).

(** Equality of metric values up to the value of the float. *)
Definition pyval_eq (a b : pyval) : Prop :=
  match a, b with
  | PyNone, PyNone => True
  | PyFloat x, PyFloat y => x == y
  | _, _ => False
  end.

(** The samples an entry of the dictionary passed to [add_metrics]
    contributes: one for a float, none for [None] or a missing key. *)
Definition sample_of (entry : option pyval) : list Q :=
  match entry with
  | Some (PyFloat x) => [x]
  | Some PyNone | None => []
  end.

(** The keys of the persisted summary. *)
Definition summary_keys : list string :=
  ["TTFTs"; "TPOTs"; "Average_TTFT"; "Average_TPOT"; "Args"]%string.

(** The world after the metrics of [Demo.sink] have been saved once. *)
Definition saved_once : world :=
  match OnlineMetrics.save_metrics (H := Demo.library) Demo.sink Demo.world0 with
  | Ok (_, w) => w
  | Raise _ => Demo.empty_world
  end.

Definition saved_twice : world :=
  match OnlineMetrics.save_metrics (H := Demo.library) Demo.sink saved_once with
  | Ok (_, w) => w
  | Raise _ => Demo.empty_world
  end.

(** ** Invariant of a run of the in-process variant *)

Module LocalInv.
Import Local.

(** An append logged for trace [i] carries that trace's text and a clock
    reading at which the trace was due. *)
Definition sent_ok (traces : list trace) (start_time : Q)
    (e : nat * (Q * string)) : Prop :=
  exists tr,
    traces !! fst e = Some tr /\
    snd (snd e) = input_text tr /\
    due_time tr <= fst (snd e) - start_time.

(** Popped requests without a recorded sample: the one [generate] is
    running on, or the one it failed on. *)
Definition unrecorded (s : state) : nat :=
  match pc s with
  | InGenerate _ _ | Crashed _ => 1
  | _ => 0
  end.

Record inv (traces : list trace) (start_time : Q) (s : state) : Prop := {
  inv_idx : (idx s <= length traces)%nat;
  inv_sent_idx : map fst (sent s) = seq 0 (idx s);
  inv_sent_ok : Forall (sent_ok traces start_time) (sent s);
  inv_fifo : map snd (sent s) = popped s ++ real_time_requests s;
  inv_returned : producer_returned s = true -> idx s = length traces;
  inv_end_sent : end_sent s = if producer_returned s then 1%nat else 0%nat;
  inv_pipe :
    if producer_returned s
    then (conn s = [IS_END] /\ is_sending_end s = false) \/
         (conn s = [] /\ is_sending_end s = true)
    else conn s = [] /\ is_sending_end s = false;
  inv_samples : (length (TTFTs s) + unrecorded s = length (popped s))%nat;
  inv_tpots : length (TPOTs s) = length (TTFTs s);
  inv_exit : pc s = Returned ->
             is_sending_end s = true /\ real_time_requests s = []
}.

End LocalInv.

(** ** Invariant of a run of the remote-HTTP variant *)

Module OnlineInv.
Import OnlineMetrics Online.

Definition no_signal (l : list item) : Prop :=
  Forall (fun it => is_signal it = false) l.

(** The requests among some items. *)
Definition requests (l : list item) : list item :=
  filter (fun it => is_signal it = false) l.

(** A put logged for trace [i] of a [run] carries that trace's text and a
    clock reading not earlier than [start_time + timestamp / k]. *)
Definition put_ok (traces : list trace) (k : Z) (start_time : Q)
    (e : nat * item) : Prop :=
  exists tr now,
    traces !! fst e = Some tr /\
    snd e = Request (input_text tr) now /\
    k <> 0%Z /\
    start_time + scaled tr k <= now.

(** Requests taken from the queue whose [response] call has not returned:
    the one being answered, or the one the worker died on. *)
Definition unanswered (p : worker_pc) : nat :=
  match p with
  | Responding _ _ | Died _ => 1
  | Waiting | Exited => 0
  end.

Record inv (m0 : RAGPulseMetrics) (s : server) : Prop := {
  inv_fifo : put s = got s ++ request_queue s;
  inv_signal :
    alive (worker s) = true ->
    match main s with
    | Joining =>
        exists reqs,
          put s = reqs ++ [OnlineServerEndSignal] /\
          no_signal reqs /\ no_signal (got s)
    | _ => no_signal (put s)
    end;
  inv_run :
    forall traces k start_time i,
      main s = Running traces k start_time i ->
      map fst (run_log s) = seq 0 i /\
      Forall (put_ok traces k start_time) (run_log s) /\
      exists before, put s = before ++ map snd (run_log s);
  inv_responded :
    (responded s + unanswered (worker s) = length (requests (got s)))%nat;
  inv_exited :
    worker s = Exited ->
    exists reqs, got s = reqs ++ [OnlineServerEndSignal] /\ no_signal reqs;
  inv_samples :
    if streaming s
    then length (TTFTs (metrics s)) = (length (TTFTs m0) + responded s)%nat /\
         length (TPOTs (metrics s)) = (length (TPOTs m0) + responded s)%nat
    else TTFTs (metrics s) = TTFTs m0 /\ TPOTs (metrics s) = TPOTs m0
}.

End OnlineInv.

(** ** States of a run *)

(** The server states a schedule can lead to from [__init__]. *)
Definition online_reachable `{Library} (streaming : bool)
    (m0 : OnlineMetrics.RAGPulseMetrics) (w : world)
    (prog : list Online.call) (s : Online.server) : Prop :=
  exists schedule,
    s = Online.run schedule (Online.init streaming m0 w prog).

(** ** Runs used as examples *)

Module Scenario.
Import Online.

Definition two_traces : list trace :=
  [ {| timestamp := 0; input_text := "a" |};
    {| timestamp := 1000; input_text := "b" |} ]%Z.

(** An empty sink, as [main.py] constructs it. *)
Definition sink0 : OnlineMetrics.RAGPulseMetrics :=
  OnlineMetrics.init "metrics" "2025-01-01-00-00" None None true JNull.

(** An endpoint answer: four content chunks, the first [1/20] s and the
    last [1/5] s after the request was received at [t]. *)
Definition four_chunks (t : Q) : reply :=
  Answered t
    [ Chunk (t + (1 # 20)) (Some "w"); Chunk (t + (1 # 10)) (Some "x");
      Chunk (t + (3 # 20)) (Some "y"); Chunk (t + (1 # 5)) (Some "z") ]%string
    (t + (1 # 5)).

(** [main.py]: [server.run(traces, 10)], [server.close()], and the
    destruction of [server] when [main] returns. *)
Definition main_py : list call := [Run two_traces 10; Close; Del].

(** A schedule of [main_py] in which both requests are answered. *)
Definition main_py_schedule : list action :=
  [ Main 0;                      (* run starts, start_time = 0 *)
    Main 0;                      (* trace 0 is due and put *)
    Worker CreateRaises;         (* worker takes request a (reply unused) *)
    Main 50;                     (* trace 1 is not due: sleep *)
    Worker (four_chunks 0);      (* request a answered *)
    Main 100;                    (* trace 1 is due and put *)
    Main 100;                    (* run returns *)
    Main 100;                    (* close: end signal put *)
    Worker CreateRaises;         (* worker takes request b (reply unused) *)
    Worker (four_chunks 100);    (* request b answered *)
    Worker CreateRaises;         (* worker takes the end signal and exits *)
    Main 101 ].                  (* join returns, metrics saved *)

Definition after_close : server :=
  run (H := Demo.library) main_py_schedule
    (init true sink0 Demo.world0 main_py).

(** The destructor then calls [close] once more. *)
Definition after_del : server :=
  run (H := Demo.library) [Main 102; Main 102] after_close.

(** The in-process runner on the same traces. *)
Definition vllm_output (t : Q) : Local.request_output :=
  {| Local.arrival_time := t;
     Local.first_token_time := t + (1 # 20);
     Local.token_ids := [11; 12; 13; 14]%Z |}.

Definition local_schedule : list Local.action :=
  [ Local.Producer 0;                                   (* trace 0 appended *)
    Local.Consumer Local.GenerateRaises;                (* pop (reply unused) *)
    Local.Producer 50;                                  (* sleep *)
    Local.Consumer (Local.Generated (vllm_output 0) (1 # 5));
    Local.Producer 100;                                 (* trace 1 appended *)
    Local.Producer 100;                                 (* IS_END sent *)
    Local.Consumer Local.GenerateRaises;                (* pop (reply unused) *)
    Local.Consumer (Local.Generated (vllm_output 100) (100 + (1 # 5)));
    Local.Consumer Local.GenerateRaises;                (* queue empty *)
    Local.Consumer Local.GenerateRaises;                (* poll: IS_END *)
    Local.Consumer Local.GenerateRaises ].              (* exit test: break *)

Definition local_final : Local.state :=
  Local.run two_traces 0 local_schedule Local.init.

End Scenario.

(** A trace whose timestamp is not a multiple of ten. *)
Definition trace_19 : list trace :=
  [ {| timestamp := 19; input_text := "a" |} ]%Z.

(** The server of [Scenario.main_py] when [run] has put both traces and
    is about to test its loop condition for the last time. *)
Definition mid_run : Online.server :=
  Online.run (H := Demo.library) (take 6 Scenario.main_py_schedule)
    (Online.init true Scenario.sink0 Demo.world0 Scenario.main_py).

(** ** Runs in which the first backend call fails *)

Module Failure.
Import Scenario.

(** In-process: both traces are appended, [generate] raises on the first
    request; the backend would answer the second. *)
Definition local_schedule : list Local.action :=
  [ Local.Producer 0;                                   (* trace 0 appended *)
    Local.Producer 100;                                 (* trace 1 appended *)
    Local.Producer 100;                                 (* IS_END sent *)
    Local.Consumer Local.GenerateRaises;                (* pop (reply unused) *)
    Local.Consumer Local.GenerateRaises;                (* generate raises *)
    Local.Consumer (Local.Generated (vllm_output 100) (100 + (1 # 5)));
    Local.Consumer (Local.Generated (vllm_output 100) (100 + (1 # 5)));
    Local.Consumer (Local.Generated (vllm_output 100) (100 + (1 # 5))) ].

Definition local_final : Local.state :=
  Local.run two_traces 0 local_schedule Local.init.

(** Remote HTTP: [create] raises on the first request. *)
Definition online_schedule : list Online.action :=
  [ Online.Main 0;                        (* run starts *)
    Online.Main 0;                        (* trace 0 put *)
    Online.Main 100;                      (* trace 1 put *)
    Online.Worker Online.CreateRaises;    (* worker takes request a *)
    Online.Worker Online.CreateRaises;    (* create raises *)
    Online.Main 100;                      (* run returns *)
    Online.Main 100;                      (* close: end signal put *)
    Online.Worker (four_chunks 100);      (* the worker is gone *)
    Online.Worker (four_chunks 100);
    Online.Main 101 ].                    (* join returns, metrics saved *)

Definition online_final : Online.server :=
  Online.run (H := Demo.library) online_schedule
    (Online.init true sink0 Demo.world0 main_py).

(** The states in which the failing call is about to return. *)
Definition local_before : Local.state :=
  Local.run two_traces 0 (take 4 local_schedule) Local.init.

Definition online_before : Online.server :=
  Online.run (H := Demo.library) (take 4 online_schedule)
    (Online.init true sink0 Demo.world0 main_py).

End Failure.

(** ** Notions used for the streamed answer *)

(** The stream ends without an exception. *)
Definition completes (events : list Online.chunk_event) : Prop :=
  Forall (fun ev => ev <> Online.StreamRaises) events.

(** Number of chunks with a non-empty content. *)
Fixpoint content_chunks (events : list Online.chunk_event) : nat :=
  match events with
  | [] => 0
  | Online.Chunk _ content :: rest =>
      (if Online.truthy content then 1 else 0) + content_chunks rest
  | Online.StreamRaises :: rest => content_chunks rest
  end.

(** A request put at reading [0] that reaches the endpoint at [1], the
    worker having been busy; two content chunks, the last at [3]. *)
Definition delayed_reply : Online.reply :=
  Online.Answered 1
    [ Online.Chunk 2 (Some "x"); Online.Chunk 3 (Some "y") ]%string 3.

(** A worker about to answer that request. *)
Definition answering : Online.server :=
  {| Online.streaming := true;
     Online.request_queue := [];
     Online.worker := Online.Responding "q" 0;
     Online.metrics := Scenario.sink0;
     Online.outside := Demo.world0;
     Online.main := Online.Idle;
     Online.program := [];
     Online.put := [Online.Request "q" 0];
     Online.got := [Online.Request "q" 0];
     Online.run_log := [];
     Online.responded := 0 |}.

(** ** Further notions: the sink over a whole run *)

(** [add_metrics] called once per dictionary, in order. *)
Definition record_all (dicts : list (gmap string pyval))
    (self : OnlineMetrics.RAGPulseMetrics) : OnlineMetrics.RAGPulseMetrics :=
  fold_left (fun s d => OnlineMetrics.add_metrics d s) dicts self.

(** ** Further notions: replies and programs *)

(** A reply on which [response] returns: any answer when not streaming,
    a complete stream of at least one chunk when streaming. *)
Definition good_reply (streaming : bool) (r : Online.reply) : Prop :=
  match r with
  | Online.CreateRaises => False
  | Online.Answered _ events _ =>
      if streaming then completes events /\ events <> [] else True
  end.

(** The replies a schedule hands to the worker. *)
Definition worker_replies (schedule : list Online.action)
  : list Online.reply :=
  flat_map (fun a => match a with
                     | Online.Worker r => [r]
                     | Online.Main _ => []
                     end) schedule.

(** The replies a schedule hands to the in-process consumer. *)
Definition consumer_replies (schedule : list Local.action)
  : list Local.generate_reply :=
  flat_map (fun a => match a with
                     | Local.Consumer r => [r]
                     | Local.Producer _ => []
                     end) schedule.

Definition generated (r : Local.generate_reply) : Prop :=
  match r with
  | Local.Generated _ _ => True
  | Local.GenerateRaises => False
  end.

(** A program that never calls [close]. *)
Definition only_runs (prog : list Online.call) : Prop :=
  Forall (fun c => match c with
                   | Online.Run _ _ => True
                   | Online.Close | Online.Del => False
                   end) prog.

(** [Scenario.main_py] on a server constructed with [streaming=False]. *)
Definition plain_final : Online.server :=
  Online.run (H := Demo.library) Scenario.main_py_schedule
    (Online.init false Scenario.sink0 Demo.world0 Scenario.main_py).

(** A server whose main thread is about to call [run(traces, 0)]. *)
Definition before_zero_run : Online.server :=
  Online.init true Scenario.sink0 Demo.world0
    [Online.Run Scenario.two_traces 0; Online.Close].

(** [run] alone, never followed by [close]. *)
Definition run_only_final : Online.server :=
  Online.run (H := Demo.library) (take 7 Scenario.main_py_schedule)
    (Online.init true Scenario.sink0 Demo.world0
       [Online.Run Scenario.two_traces 10]).

(** Schedules in which every reply handed to the executor is a success. *)
Definition good_online_schedule : list Online.action :=
  [ Online.Main 0; Online.Main 0;
    Online.Worker (Scenario.four_chunks 0);
    Online.Worker (Scenario.four_chunks 0);
    Online.Main 100; Online.Main 100; Online.Main 100;
    Online.Worker (Scenario.four_chunks 100);
    Online.Worker (Scenario.four_chunks 100);
    Online.Worker (Scenario.four_chunks 100);
    Online.Main 101 ].

Definition good_local_schedule : list Local.action :=
  [ Local.Producer 0;
    Local.Consumer (Local.Generated (Scenario.vllm_output 0) (1 # 5));
    Local.Consumer (Local.Generated (Scenario.vllm_output 0) (1 # 5));
    Local.Producer 100; Local.Producer 100;
    Local.Consumer (Local.Generated (Scenario.vllm_output 100) (100 + (1 # 5)));
    Local.Consumer (Local.Generated (Scenario.vllm_output 100) (100 + (1 # 5))) ].

(** ** Further notions: a sequential schedule *)

Module Sequential.

(** The in-process run in which the producer, reading [now] each time,
    appends every trace and sends [IS_END] before the consumer starts;
    the consumer then takes the requests one by one, [generate] answering
    the i-th with the i-th reply, and makes its last three steps (queue
    empty, poll, exit test). *)
Definition local_schedule (n : nat) (now : Q)
    (replies : list (Local.request_output * Q)) : list Local.action :=
  repeat (Local.Producer now) (S n)
  ++ flat_map (fun r => [ Local.Consumer (Local.Generated (fst r) (snd r));
                          Local.Consumer (Local.Generated (fst r) (snd r)) ])
       replies
  ++ repeat (Local.Consumer Local.GenerateRaises) 3.

(** The samples of requests all received at [now]. *)
Definition local_samples (now : Q)
    (replies : list (Local.request_output * Q)) : list (Q * Q) :=
  map (fun r => Local.sample now (fst r) (snd r)) replies.

(** [main.py] of the remote variant, [run(traces, k)], [close()] and the
    destruction of the server, in the order: [run] starts at [t0] and
    puts every trace at reading [now]; [close] puts the end signal; the
    worker answers the requests one by one with [replies], takes the
    signal and exits; [join] returns and the metrics are saved; [__del__]
    then calls [close] again, which puts a signal, joins the finished
    thread and saves the metrics once more. *)
Definition online_schedule (n : nat) (t0 now : Q)
    (replies : list Online.reply) : list Online.action :=
  Online.Main t0 :: repeat (Online.Main now) (S (S n))
  ++ flat_map (fun r => [Online.Worker r; Online.Worker r]) replies
  ++ [Online.Worker Online.CreateRaises; Online.Main now]
  ++ [Online.Main now; Online.Main now].

(** The samples [response] records for a request received at [now]:
    the first chunk's reading minus [now], and the time to the end of the
    stream per chunk with content. *)
Definition reply_ttft (now : Q) (r : Online.reply) : Q :=
  match r with
  | Online.Answered _ (Online.Chunk cur_time _ :: _) _ => cur_time - now
  | _ => 0
  end.

Definition reply_tpot (now : Q) (r : Online.reply) : Q :=
  match r with
  | Online.Answered _ events ed_time =>
      Online.tpot_of now ed_time (content_chunks events)
  | Online.CreateRaises => 0
  end.

End Sequential.

(** ** [preprocess_data.py]: loading the hash ids and the prompts *)

Module Loader.

(** Exceptions of the loading code. *)
Inductive load_error :=
| KeyError (key : Z)        (* [hash_id_dict[hash_id]] on a missing id *)
| ValueError                (* [random.randint] on an empty range *)
| AssertionError            (* a line without exactly two values *)
| AttributeErrorNone.       (* [self.logger.warning] with [logger=None] *)

(** A trace as [_load_traces] reads it: the entries the code uses are
    ["timestamp"] and the values of ["hash_ids"]. *)
Record raw_trace := {
  raw_timestamp : Z;
  hash_ids : list (list Z)
}.

(** [traces[:n]] *)
Definition py_slice_to {A} (n : Z) (l : list A) : list A :=
  if (n <? 0)%Z then take (Z.to_nat (Z.of_nat (length l) + n)) l
  else take (Z.to_nat n) l.

(** [for hash_id in hash_id_list: input_token_list.extend(hash_id_dict[hash_id])] *)
Fixpoint extend_all (hash_id_dict : gmap Z (list Z)) (hash_id_list : list Z)
    (input_token_list : list Z) : load_error + list Z :=
  match hash_id_list with
  | [] => inr input_token_list
  | hash_id :: rest =>
      match hash_id_dict !! hash_id with
      | None => inl (KeyError hash_id)
      | Some tokens =>
          extend_all hash_id_dict rest (input_token_list ++ tokens)
      end
  end.

(** The outer loop of [simulate_token_lists_to_input_text]. *)
Fixpoint gather (hash_id_dict : gmap Z (list Z))
    (hash_id_lists : list (list Z)) (input_token_list : list Z)
  : load_error + list Z :=
  match hash_id_lists with
  | [] => inr input_token_list
  | hash_id_list :: rest =>
      match extend_all hash_id_dict hash_id_list input_token_list with
      | inl e => inl e
      | inr tokens => gather hash_id_dict rest tokens
      end
  end.

Section WithLibraries.
(** [tokenizer.decode], and the generator behind [random.randint]. *)
Variable decode : list Z -> string.
Variable rng : Type.
Variable randint : Z -> Z -> rng -> Z * rng.

(** [PreprocessData.simulate_token_lists_to_input_text] *)
Definition simulate_token_lists_to_input_text
    (hash_id_lists : list (list Z)) (hash_id_dict : gmap Z (list Z))
  : load_error + string :=
  match gather hash_id_dict hash_id_lists [] with
  | inl e => inl e
  | inr input_token_list => inr (decode input_token_list)
  end.

(** The lines of one hash-id file, each given by the values of its JSON
    object (lines that are not JSON objects of integers are outside the
    model). *)
Fixpoint load_lines (vocab_size : Z) (lines : list (list Z))
    (hash_id_dict : gmap Z (list Z)) (g : rng)
  : load_error + (gmap Z (list Z) * rng) :=
  match lines with
  | [] => inr (hash_id_dict, g)
  | hash_id_values :: rest =>
      match hash_id_values with
      | [hash_id; token_length] =>
          let '(tokens, g) :=
            Preprocess.simulate_token_lists rng randint
              token_length vocab_size g in
          load_lines vocab_size rest (<[hash_id := tokens]> hash_id_dict) g
      | _ => inl AssertionError
      end
  end.

(** [_load_hash_id_dict]: [files] lists, for each name of
    [hash_id_files], the lines of the file or [None] when
    [os.path.isfile] is false; [logger] tells whether a logger is
    attached. *)
Fixpoint load_files (logger : bool) (vocab_size : Z)
    (files : list (option (list (list Z))))
    (hash_id_dict : gmap Z (list Z)) (g : rng)
  : load_error + (gmap Z (list Z) * rng) :=
  match files with
  | [] => inr (hash_id_dict, g)
  | None :: rest =>
      if logger then load_files logger vocab_size rest hash_id_dict g
      else inl AttributeErrorNone
  | Some lines :: rest =>
      match load_lines vocab_size lines hash_id_dict g with
      | inl e => inl e
      | inr (hash_id_dict, g) =>
          load_files logger vocab_size rest hash_id_dict g
      end
  end.

Definition _load_hash_id_dict (logger : bool) (vocab_size : Z)
    (files : list (option (list (list Z)))) (g : rng)
  : load_error + (gmap Z (list Z) * rng) :=
  load_files logger vocab_size files ∅ g.

(** The loop of [preprocess] that sets [trace["input_text"]]. *)
Fixpoint fill_input_text (hash_id_dict : gmap Z (list Z))
    (traces : list raw_trace) : load_error + list trace :=
  match traces with
  | [] => inr []
  | tr :: rest =>
      match simulate_token_lists_to_input_text (hash_ids tr) hash_id_dict with
      | inl e => inl e
      | inr text =>
          match fill_input_text hash_id_dict rest with
          | inl e => inl e
          | inr out =>
              inr ({| timestamp := raw_timestamp tr; input_text := text |}
                   :: out)
          end
      end
  end.

(** [PreprocessData.preprocess], from the traces and the vocabulary size
    that [_load_traces] and [_load_vocab_size] read. *)
Definition preprocess (logger : bool) (use_trace_num : Z)
    (traces : list raw_trace) (vocab_size : Z)
    (files : list (option (list (list Z)))) (g : rng)
  : load_error + (list trace * rng) :=
  match _load_hash_id_dict logger vocab_size files g with
  | inl e => inl e
  | inr (hash_id_dict, g) =>
      match fill_input_text hash_id_dict traces with
      | inl e => inl e
      | inr traces => inr (py_slice_to use_trace_num traces, g)
      end
  end.

(** [random.randint(lo, hi)] raises [ValueError] on an empty range. *)
Definition py_randint (lo hi : Z) (g : rng) : load_error + (Z * rng) :=
  if (hi <? lo)%Z then inl ValueError else inr (randint lo hi g).

(** [single_local_instance/preprocess_data.py], [simulate_token_lists]:
    the comprehension without the guard of the class method. *)
Fixpoint local_draw (n : nat) (lo hi : Z) (g : rng)
  : load_error + (list Z * rng) :=
  match n with
  | O => inr ([], g)
  | S n' =>
      match py_randint lo hi g with
      | inl e => inl e
      | inr (x, g) =>
          match local_draw n' lo hi g with
          | inl e => inl e
          | inr (xs, g) => inr (x :: xs, g)
          end
      end
  end.

Definition local_simulate_token_lists (token_length vocab_size : Z) (g : rng)
  : load_error + (list Z * rng) :=
  local_draw (Z.to_nat token_length) 0 (vocab_size - 1)%Z g.

End WithLibraries.

(** The hash ids a list of files defines, and their lines. *)
Definition all_lines (files : list (option (list (list Z))))
  : list (list Z) :=
  flat_map (fun f => default [] f) files.

Definition two_values (line : list Z) : Prop :=
  exists hash_id token_length, line = [hash_id; token_length].

End Loader.

(** ** [single_local_instance/main.py]: the traces handed to the runner *)

Module LocalMain.

(** [sorted(traces, key=...)] is stable, and a list has one stable sorted
    arrangement; it is computed here by inserting each element, from the
    last to the first, in front of the first element whose key is not
    smaller. *)
Fixpoint insert_by {A} (key : A -> Z) (x : A) (l : list A) : list A :=
  match l with
  | [] => [x]
  | y :: rest =>
      if (key x <=? key y)%Z then x :: y :: rest
      else y :: insert_by key x rest
  end.

Definition py_sorted {A} (key : A -> Z) (l : list A) : list A :=
  fold_right (insert_by key) [] l.

(** [sorted(traces, key=lambda x: int(x["timestamp"]))[:5]] *)
Definition select_traces (traces : list Loader.raw_trace)
  : list Loader.raw_trace :=
  take 5 (py_sorted Loader.raw_timestamp traces).

End LocalMain.

(** ** [single_online_instance/logger.py]: the handlers of the logger *)

Module Logger.

(** A handler object, known by its identity. *)
Definition handler := nat.

(** [Logger.removeHandler(h)]: [self.handlers.remove(h)] when [h] is in
    the list, which drops its first occurrence. *)
Fixpoint removeHandler (h : handler) (handlers : list handler)
  : list handler :=
  match handlers with
  | [] => []
  | x :: rest => if decide (x = h) then rest else x :: removeHandler h rest
  end.

(** [Logger.addHandler(h)]: appended unless already in the list. *)
Definition addHandler (h : handler) (handlers : list handler)
  : list handler :=
  if decide (h ∈ handlers) then handlers else handlers ++ [h].

(** [RAGPulseLogger.close]: [for handler in self.logger.handlers] walks
    the list by position while the body removes from that same list.
    [i] is the position of the iterator; the result is the list left on
    the logger and the handlers closed, in order. Every turn shortens the
    list, so its length bounds the number of turns. *)
Fixpoint close_loop (turns i : nat) (handlers closed : list handler)
  : list handler * list handler :=
  match turns with
  | O => (handlers, closed)
  | S turns' =>
      match handlers !! i with
      | None => (handlers, closed)
      | Some h =>
          close_loop turns' (S i) (removeHandler h handlers) (closed ++ [h])
      end
  end.

Definition close (handlers : list handler) : list handler * list handler :=
  close_loop (length handlers) 0 handlers [].

(** [_configure_handlers]: the loop runs over the copy
    [self.logger.handlers[:]], then the console and the file handler,
    both new objects, are added. *)
Definition _configure_handlers (console_handler file_handler : handler)
    (handlers : list handler) : list handler * list handler :=
  let remaining :=
    fold_left (fun l h => removeHandler h l) handlers handlers in
  (addHandler file_handler (addHandler console_handler remaining), handlers).

(** The elements at even and at odd positions, counted from zero. *)
Fixpoint evens {A} (l : list A) : list A :=
  match l with
  | [] => []
  | x :: rest =>
      x :: match rest with
           | [] => []
           | _ :: rest' => evens rest'
           end
  end.

Definition odds {A} (l : list A) : list A :=
  match l with
  | [] => []
  | _ :: rest => evens rest
  end.

End Logger.

(** * Properties *)

(** ** Averages *)

Lemma fold_left_Qplus_acc (xs : list Q) (a : Q) :
  fold_left Qplus xs a == a + total xs.
Proof.
  revert a. induction xs as [|x xs IH]; intros a; simpl.
  - ring.
  - rewrite IH. ring.
Qed.

Lemma py_sum_total (xs : list Q) : py_sum xs == total xs.
Proof. unfold py_sum. rewrite fold_left_Qplus_acc. ring. Qed.

Lemma py_mean_arithmetic (xs : list Q) :
  py_sum xs / py_len xs == arithmetic_mean xs.
Proof.
  unfold arithmetic_mean, py_len. now rewrite py_sum_total.
Qed.

Lemma avg_or_none_nonempty (xs : list Q) :
  xs <> [] ->
  OnlineMetrics.avg_or_none xs = PyFloat (py_sum xs / py_len xs).
Proof.
  intros Hne. unfold OnlineMetrics.avg_or_none.
  destruct xs as [|x xs]; [congruence | reflexivity].
Qed.

(** C3, as stated, fails on the in-process variant: for empty sample lists
    [aggregate_metrics] returns the float [0.0] for both averages, not
    [None]. *)
Lemma aggregate_metrics_empty_is_zero :
  LocalMetrics.aggregate_metrics [] [] = (PyFloat 0, PyFloat 0) /\
  fst (LocalMetrics.aggregate_metrics [] []) <> PyNone /\
  snd (LocalMetrics.aggregate_metrics [] []) <> PyNone.
Proof. repeat split; discriminate. Qed.

(** C3, amended: on an empty sample list the summary of the remote-HTTP
    variant holds [null] for the average, and the aggregation of the
    in-process variant returns [0.0] for it; neither divides. *)
Theorem empty_average_fallbacks
    (self : OnlineMetrics.RAGPulseMetrics) (ttfts tpots : list Q) :
  (OnlineMetrics.TTFTs self = [] ->
   json_get "Average_TTFT" (OnlineMetrics.metrics_summary self) = Some JNull) /\
  (OnlineMetrics.TPOTs self = [] ->
   json_get "Average_TPOT" (OnlineMetrics.metrics_summary self) = Some JNull) /\
  fst (LocalMetrics.aggregate_metrics [] tpots) = PyFloat 0 /\
  snd (LocalMetrics.aggregate_metrics ttfts []) = PyFloat 0.
Proof.
  repeat split.
  - intros E. unfold OnlineMetrics.metrics_summary. rewrite E. reflexivity.
  - intros E. unfold OnlineMetrics.metrics_summary. rewrite E. reflexivity.
Qed.

Lemma empty_average_fallbacks_witness :
  json_get "Average_TTFT"
    (OnlineMetrics.metrics_summary
       (OnlineMetrics.init "metrics" "2025-01-01-00-00" None None true JNull))
  = Some JNull /\
  json_get "Average_TPOT"
    (OnlineMetrics.metrics_summary
       (OnlineMetrics.init "metrics" "2025-01-01-00-00" None None true JNull))
  = Some JNull.
Proof.
  pose proof (empty_average_fallbacks
    (OnlineMetrics.init "metrics" "2025-01-01-00-00" None None true JNull)
    [] []) as (Ht & Hp & _).
  split; [apply Ht | apply Hp]; reflexivity.
Defined.

(** ** The metrics sink: [add_metrics] *)

Lemma add_metrics_unfold (metrics : gmap string pyval)
    (self : OnlineMetrics.RAGPulseMetrics) :
  OnlineMetrics.add_metrics metrics self =
  {| OnlineMetrics.TTFTs :=
       OnlineMetrics.TTFTs self ++ sample_of (metrics !! "TTFT"%string);
     OnlineMetrics.TPOTs :=
       OnlineMetrics.TPOTs self ++ sample_of (metrics !! "TPOT"%string);
     OnlineMetrics.metric_dir := OnlineMetrics.metric_dir self;
     OnlineMetrics.metric_name := OnlineMetrics.metric_name self;
     OnlineMetrics.logger := OnlineMetrics.logger self;
     OnlineMetrics.args := OnlineMetrics.args self |}.
Proof.
  unfold OnlineMetrics.add_metrics, OnlineMetrics.DEFAULT_METRIC_NAMES.
  cbn [fold_left]. unfold OnlineMetrics.add_metric.
  destruct self as [tt tp d n l a].
  destruct (metrics !! "TTFT"%string) as [[|x]|];
    destruct (metrics !! "TPOT"%string) as [[|y]|];
    destruct (metrics !! "Average_TTFT"%string) as [?|];
    destruct (metrics !! "Average_TPOT"%string) as [?|];
    cbn; rewrite ?app_nil_r; reflexivity.
Qed.

(** C10: [add_metrics] reads only the entries ["TTFT"] and ["TPOT"] of its
    dictionary. An entry under any other key changes nothing, a [None]
    value is skipped, and a float under ["TTFT"] (["TPOT"]) is appended,
    once, after the samples already in [TTFTs] ([TPOTs]); no other field
    of the sink changes. *)
Theorem add_metrics_frame (metrics : gmap string pyval)
    (self : OnlineMetrics.RAGPulseMetrics) :
  (forall (k : string) (v : pyval),
      k <> "TTFT"%string -> k <> "TPOT"%string ->
      OnlineMetrics.add_metrics (<[k := v]> metrics) self
      = OnlineMetrics.add_metrics metrics self) /\
  (metrics !! "TTFT"%string = None -> metrics !! "TPOT"%string = None ->
   OnlineMetrics.add_metrics metrics self = self) /\
  (metrics !! "TTFT"%string = Some PyNone \/ metrics !! "TTFT"%string = None ->
   OnlineMetrics.TTFTs (OnlineMetrics.add_metrics metrics self)
   = OnlineMetrics.TTFTs self) /\
  (metrics !! "TPOT"%string = Some PyNone \/ metrics !! "TPOT"%string = None ->
   OnlineMetrics.TPOTs (OnlineMetrics.add_metrics metrics self)
   = OnlineMetrics.TPOTs self) /\
  (forall x, metrics !! "TTFT"%string = Some (PyFloat x) ->
   OnlineMetrics.TTFTs (OnlineMetrics.add_metrics metrics self)
   = OnlineMetrics.TTFTs self ++ [x]) /\
  (forall x, metrics !! "TPOT"%string = Some (PyFloat x) ->
   OnlineMetrics.TPOTs (OnlineMetrics.add_metrics metrics self)
   = OnlineMetrics.TPOTs self ++ [x]) /\
  OnlineMetrics.metric_dir (OnlineMetrics.add_metrics metrics self)
  = OnlineMetrics.metric_dir self /\
  OnlineMetrics.metric_name (OnlineMetrics.add_metrics metrics self)
  = OnlineMetrics.metric_name self /\
  OnlineMetrics.logger (OnlineMetrics.add_metrics metrics self)
  = OnlineMetrics.logger self /\
  OnlineMetrics.args (OnlineMetrics.add_metrics metrics self)
  = OnlineMetrics.args self.
Proof.
  repeat split; try (rewrite add_metrics_unfold; reflexivity).
  - intros k v Ht Hp. rewrite !add_metrics_unfold.
    rewrite !lookup_insert_ne by done. reflexivity.
  - intros Ht Hp. rewrite add_metrics_unfold, Ht, Hp. cbn.
    rewrite !app_nil_r. destruct self; reflexivity.
  - intros [E|E]; rewrite add_metrics_unfold, E; cbn; apply app_nil_r.
  - intros [E|E]; rewrite add_metrics_unfold, E; cbn; apply app_nil_r.
  - intros x E. rewrite add_metrics_unfold, E. reflexivity.
  - intros x E. rewrite add_metrics_unfold, E. reflexivity.
Qed.

Lemma add_metrics_frame_witness :
  OnlineMetrics.add_metrics
    (<["Average_TTFT"%string := PyFloat 7]>
       (<["TTFT"%string := PyFloat 5]> (<["TPOT"%string := PyNone]> ∅)))
    Demo.sink
  = OnlineMetrics.add_metrics
      (<["TTFT"%string := PyFloat 5]> (<["TPOT"%string := PyNone]> ∅))
      Demo.sink
  /\ OnlineMetrics.TTFTs
       (OnlineMetrics.add_metrics
          (<["TTFT"%string := PyFloat 5]> (<["TPOT"%string := PyNone]> ∅))
          Demo.sink)
     = [1; 2; 3; 5]
  /\ OnlineMetrics.TPOTs
       (OnlineMetrics.add_metrics
          (<["TTFT"%string := PyFloat 5]> (<["TPOT"%string := PyNone]> ∅))
          Demo.sink)
     = [1 # 2; 1 # 4; 1 # 4].
Proof.
  pose proof (add_metrics_frame
    (<["TTFT"%string := PyFloat 5]> (<["TPOT"%string := PyNone]> ∅))
    Demo.sink) as (Hk & _ & _ & Hp & Ht & _).
  split; [| split].
  - apply Hk; discriminate.
  - apply (Ht 5). reflexivity.
  - apply Hp. left. reflexivity.
Defined.

(** ** The metrics sink: [save_metrics] *)

Lemma save_metrics_ok `{Library} (self : OnlineMetrics.RAGPulseMetrics)
    (w : world) (name : string) :
  OnlineMetrics.metric_name self = Some name ->
  OnlineMetrics.metric_dir self ∈ dirs w ->
  OnlineMetrics.save_metrics self w =
  Ok (self,
      emit ("Saved metrics summary to "
            +:+ os_path_join (OnlineMetrics.metric_dir self) name +:+ ".")
        (write_file (os_path_join (OnlineMetrics.metric_dir self) name)
           (json_dump (OnlineMetrics.metrics_summary self)) w)).
Proof.
  intros E Hd. unfold OnlineMetrics.save_metrics. rewrite E.
  now rewrite decide_True by exact Hd.
Qed.

Lemma save_metrics_inv `{Library} (self s1 : OnlineMetrics.RAGPulseMetrics)
    (w w1 : world) :
  OnlineMetrics.save_metrics self w = Ok (s1, w1) ->
  exists name,
    OnlineMetrics.metric_name self = Some name /\
    s1 = self /\
    files w1 =
      <[os_path_join (OnlineMetrics.metric_dir self) name :=
          json_dump (OnlineMetrics.metrics_summary self)]> (files w) /\
    OnlineMetrics.metric_dir self ∈ dirs w /\
    dirs w1 = dirs w.
Proof.
  unfold OnlineMetrics.save_metrics.
  destruct (OnlineMetrics.metric_name self) as [name|]; [|discriminate].
  destruct (decide _) as [Hd|]; [|discriminate].
  intros [= <- <-]. exists name. repeat split. exact Hd.
Qed.

(** C7: whenever [save_metrics] returns, having persisted the sink, the
    file it wrote holds the dump of an object whose keys are, in this
    order, [TTFTs], [TPOTs], [Average_TTFT], [Average_TPOT] and [Args];
    the two lists and the arguments are the sink's, and the average of a
    non-empty list is its arithmetic mean ([2.0] for the TTFT samples
    [1.0, 2.0, 3.0]). *)
Theorem save_metrics_summary `{Library}
    (self s1 : OnlineMetrics.RAGPulseMetrics) (w w1 : world) :
  OnlineMetrics.save_metrics self w = Ok (s1, w1) ->
  (exists name,
      OnlineMetrics.metric_name self = Some name /\
      files w1 !! os_path_join (OnlineMetrics.metric_dir self) name
      = Some (json_dump (OnlineMetrics.metrics_summary self))) /\
  json_keys (OnlineMetrics.metrics_summary self) = summary_keys /\
  json_get "TTFTs" (OnlineMetrics.metrics_summary self)
  = Some (JArr (map JNum (OnlineMetrics.TTFTs self))) /\
  json_get "TPOTs" (OnlineMetrics.metrics_summary self)
  = Some (JArr (map JNum (OnlineMetrics.TPOTs self))) /\
  json_get "Args" (OnlineMetrics.metrics_summary self)
  = Some (OnlineMetrics.args self) /\
  (OnlineMetrics.TTFTs self <> [] ->
   exists avg,
     json_get "Average_TTFT" (OnlineMetrics.metrics_summary self)
     = Some (JNum avg) /\
     avg == arithmetic_mean (OnlineMetrics.TTFTs self)) /\
  (OnlineMetrics.TPOTs self <> [] ->
   exists avg,
     json_get "Average_TPOT" (OnlineMetrics.metrics_summary self)
     = Some (JNum avg) /\
     avg == arithmetic_mean (OnlineMetrics.TPOTs self)) /\
  (OnlineMetrics.TTFTs self = [1; 2; 3] ->
   exists avg,
     json_get "Average_TTFT" (OnlineMetrics.metrics_summary self)
     = Some (JNum avg) /\
     avg == 2).
Proof.
  intros E.
  destruct (save_metrics_inv _ _ _ _ E) as (name & En & _ & Ef & _).
  repeat split.
  - exists name. split; [exact En|]. rewrite Ef. apply lookup_insert_eq.
  - intros Hne. eexists. split.
    + unfold OnlineMetrics.metrics_summary.
      rewrite (avg_or_none_nonempty _ Hne). reflexivity.
    + apply py_mean_arithmetic.
  - intros Hne. eexists. split.
    + unfold OnlineMetrics.metrics_summary.
      rewrite (avg_or_none_nonempty _ Hne). reflexivity.
    + apply py_mean_arithmetic.
  - intros E3. eexists. split.
    + unfold OnlineMetrics.metrics_summary. rewrite E3. reflexivity.
    + reflexivity.
Qed.

Lemma save_metrics_summary_witness :
  (exists name,
      OnlineMetrics.metric_name Demo.sink = Some name /\
      files saved_once
        !! Demo.library.(os_path_join) (OnlineMetrics.metric_dir Demo.sink) name
      = Some (Demo.show_json (OnlineMetrics.metrics_summary Demo.sink))) /\
  json_keys (OnlineMetrics.metrics_summary Demo.sink) = summary_keys /\
  exists avg,
    json_get "Average_TTFT" (OnlineMetrics.metrics_summary Demo.sink)
    = Some (JNum avg) /\
    avg == 2.
Proof.
  assert (Hs : OnlineMetrics.save_metrics (H := Demo.library)
                 Demo.sink Demo.world0 = Ok (Demo.sink, saved_once))
    by (vm_compute; reflexivity).
  pose proof (@save_metrics_summary Demo.library Demo.sink Demo.sink
                Demo.world0 saved_once Hs)
    as (Hf & Hk & _ & _ & _ & _ & _ & H3).
  split; [exact Hf|].
  split; [exact Hk | apply H3; reflexivity].
Defined.

(** C8: [save_metrics] returns the sink as it found it, and what it
    writes is the dump of a summary that depends on the sample lists and
    the arguments alone. Saving again, with nothing recorded in between,
    writes the same content to the same path and leaves the files as the
    first save left them. *)
Theorem save_metrics_idempotent `{Library}
    (self s1 s2 : OnlineMetrics.RAGPulseMetrics) (w w1 w2 : world) :
  OnlineMetrics.save_metrics self w = Ok (s1, w1) ->
  OnlineMetrics.save_metrics s1 w1 = Ok (s2, w2) ->
  s1 = self /\ s2 = self /\
  files w2 = files w1 /\
  (exists path,
      files w1 !! path = Some (json_dump (OnlineMetrics.metrics_summary self)) /\
      files w2 !! path = Some (json_dump (OnlineMetrics.metrics_summary self))) /\
  (forall other,
      OnlineMetrics.TTFTs other = OnlineMetrics.TTFTs self ->
      OnlineMetrics.TPOTs other = OnlineMetrics.TPOTs self ->
      OnlineMetrics.args other = OnlineMetrics.args self ->
      json_dump (OnlineMetrics.metrics_summary other)
      = json_dump (OnlineMetrics.metrics_summary self)).
Proof.
  intros H1 H2.
  destruct (save_metrics_inv _ _ _ _ H1) as (name & En & -> & F1 & _).
  destruct (save_metrics_inv _ _ _ _ H2) as (name' & En' & -> & F2 & _).
  assert (name' = name) as -> by congruence.
  assert (F21 : files w2 = files w1).
  { rewrite F2, F1. apply insert_insert_eq. }
  repeat split; try assumption.
  - exists (os_path_join (OnlineMetrics.metric_dir self) name).
    rewrite F21, F1. split; apply lookup_insert_eq.
  - intros other Et Ep Ea. unfold OnlineMetrics.metrics_summary.
    rewrite Et, Ep, Ea. reflexivity.
Qed.

Lemma save_metrics_idempotent_witness :
  files saved_twice = files saved_once /\
  files saved_once !! "metrics/rag_pulse_metrics_2025-01-01-00-00.json"%string
  = Some (Demo.show_json (OnlineMetrics.metrics_summary Demo.sink)).
Proof.
  assert (H1 : OnlineMetrics.save_metrics (H := Demo.library)
                 Demo.sink Demo.world0 = Ok (Demo.sink, saved_once))
    by (vm_compute; reflexivity).
  assert (H2 : OnlineMetrics.save_metrics (H := Demo.library)
                 Demo.sink saved_once = Ok (Demo.sink, saved_twice))
    by (vm_compute; reflexivity).
  pose proof (@save_metrics_idempotent Demo.library
                Demo.sink Demo.sink Demo.sink
                Demo.world0 saved_once saved_twice H1 H2)
    as (_ & _ & Hf & _).
  split; [exact Hf | vm_compute; reflexivity].
Defined.

(** ** [simulate_token_lists] *)

Section DrawFacts.
Variable rng : Type.
Variable randint : Z -> Z -> rng -> Z * rng.
Hypothesis randint_range :
  forall lo hi g, (lo <= hi)%Z -> (lo <= fst (randint lo hi g) <= hi)%Z.

Lemma draw_length (n : nat) (lo hi : Z) (g : rng) :
  length (fst (Preprocess.draw rng randint n lo hi g)) = n.
Proof.
  revert g. induction n as [|n IH]; intros g; cbn; [reflexivity|].
  destruct (randint lo hi g) as [x g1].
  specialize (IH g1).
  destruct (Preprocess.draw rng randint n lo hi g1) as [xs g2].
  cbn in *. now rewrite IH.
Qed.

Lemma draw_range (n : nat) (lo hi : Z) (g : rng) :
  (lo <= hi)%Z ->
  Forall (fun x => (lo <= x <= hi)%Z)
    (fst (Preprocess.draw rng randint n lo hi g)).
Proof.
  intros Hle. revert g. induction n as [|n IH]; intros g; cbn.
  - constructor.
  - pose proof (randint_range lo hi g Hle) as Hx.
    destruct (randint lo hi g) as [x g1].
    specialize (IH g1).
    destruct (Preprocess.draw rng randint n lo hi g1) as [xs g2].
    cbn in *. constructor; assumption.
Qed.
End DrawFacts.

Lemma lcg_randint_range (lo hi g : Z) :
  (lo <= hi)%Z -> (lo <= fst (Preprocess.lcg_randint lo hi g) <= hi)%Z.
Proof.
  intros Hle. unfold Preprocess.lcg_randint. cbn [fst].
  pose proof (Z.mod_pos_bound g (hi - lo + 1)) as Hb. lia.
Qed.

(** C9: with a generator whose [randint lo hi] stays within [lo..hi],
    [simulate_token_lists] returns the empty list (and draws nothing) when
    [token_length <= 0] or [vocab_size <= 0], and otherwise a list of
    exactly [token_length] ids, each between [0] and [vocab_size - 1]. *)
Theorem simulate_token_lists_spec
    (rng : Type) (randint : Z -> Z -> rng -> Z * rng)
    (token_length vocab_size : Z) (g : rng) :
  (forall lo hi g', (lo <= hi)%Z -> (lo <= fst (randint lo hi g') <= hi)%Z) ->
  ((token_length <= 0 \/ vocab_size <= 0)%Z ->
   Preprocess.simulate_token_lists rng randint token_length vocab_size g
   = ([], g)) /\
  ((0 < token_length)%Z -> (0 < vocab_size)%Z ->
   length (fst (Preprocess.simulate_token_lists rng randint
                  token_length vocab_size g))
   = Z.to_nat token_length /\
   Forall (fun id => (0 <= id <= vocab_size - 1)%Z)
     (fst (Preprocess.simulate_token_lists rng randint
             token_length vocab_size g))).
Proof.
  intros Hrange. unfold Preprocess.simulate_token_lists. split.
  - intros Hle.
    destruct (token_length <=? 0)%Z eqn:Et; [reflexivity|].
    destruct (vocab_size <=? 0)%Z eqn:Ev; [reflexivity|]. lia.
  - intros Ht Hv.
    destruct (token_length <=? 0)%Z eqn:Et; [lia|].
    destruct (vocab_size <=? 0)%Z eqn:Ev; [lia|]. cbn [orb].
    split.
    + apply draw_length.
    + apply draw_range; [assumption | lia].
Qed.

Lemma simulate_token_lists_spec_witness :
  Preprocess.simulate_token_lists Z Preprocess.lcg_randint 0%Z 50%Z 42%Z = ([], 42%Z)
  /\ length (fst (Preprocess.simulate_token_lists Z Preprocess.lcg_randint
                    4%Z 50%Z 42%Z)) = 4%nat
  /\ Forall (fun id => (0 <= id <= 50 - 1)%Z)
       (fst (Preprocess.simulate_token_lists Z Preprocess.lcg_randint 4%Z 50%Z 42%Z)).
Proof.
  split.
  - apply (simulate_token_lists_spec Z Preprocess.lcg_randint 0%Z 50%Z 42%Z
             lcg_randint_range). left. lia.
  - apply (simulate_token_lists_spec Z Preprocess.lcg_randint 4%Z 50%Z 42%Z
             lcg_randint_range); lia.
Defined.

Example simulate_token_lists_run :
  fst (Preprocess.simulate_token_lists Z Preprocess.lcg_randint 4%Z 50%Z 42%Z)
  = [42; 27; 14; 3]%Z.
Proof. vm_compute. reflexivity. Qed.

(** ** The in-process replay: invariant of every schedule *)

Section LocalRun.
Import Local LocalInv.
Variable traces : list trace.
Variable start_time : Q.

Lemma local_inv_init : inv traces start_time init.
Proof.
  constructor; cbn; try reflexivity; try lia; auto.
  discriminate.
Qed.

Lemma local_inv_producer (current_time : Q) (s : state) :
  inv traces start_time s ->
  inv traces start_time (producer_step traces start_time current_time s).
Proof.
  intros I. unfold producer_step.
  destruct (producer_returned s) eqn:Ep; [exact I|].
  destruct (traces !! idx s) as [tr|] eqn:Et.
  - destruct (Qle_bool (due_time tr) (current_time - start_time)) eqn:Ed;
      [|exact I].
    destruct I as [I1 I2 I3 I4 I5 I6 I7 I8 I9 I10]. rewrite Ep in *.
    constructor; cbn; rewrite ?Ep; try assumption.
    + apply lookup_lt_Some in Et. lia.
    + rewrite map_app, I2. exact (eq_sym (seq_S (idx s) 0)).
    + apply Forall_app. split; [assumption|].
      constructor; [|constructor].
      exists tr. cbn. repeat split; [assumption|].
      now apply Qle_bool_iff.
    + rewrite map_app, I4. cbn. now rewrite app_assoc.
    + discriminate.
    + intros Hr. destruct (I10 Hr) as [Hf _].
      destruct I7 as [_ I7]. congruence.
  - destruct I as [I1 I2 I3 I4 I5 I6 I7 I8 I9 I10]. rewrite Ep in *.
    destruct I7 as [Ic If].
    constructor; cbn; try assumption.
    + intros _. apply lookup_ge_None in Et. lia.
    + now rewrite I6.
    + left. rewrite Ic. split; [reflexivity | assumption].
Qed.

Lemma local_inv_consumer (reply : generate_reply) (s : state) :
  inv traces start_time s ->
  inv traces start_time (consumer_step reply s).
Proof.
  intros I. unfold consumer_step.
  destruct (pc s) as [|receive_time text| | | |e] eqn:Epc; try exact I;
    destruct I as [I1 I2 I3 I4 I5 I6 I7 I8 I9 I10];
    unfold unrecorded in I8; rewrite Epc in I8; cbn in I8.
  - (* AtTop *)
    destruct (real_time_requests s) as [|[rt txt] rest] eqn:Eq;
      constructor; unfold unrecorded; cbn; rewrite ?length_app, ?Eq; cbn;
      try assumption; try discriminate; try lia.
    rewrite I4. now rewrite <- app_assoc.
  - (* InGenerate *)
    destruct reply as [out ed_time|];
      [destruct (sample receive_time out ed_time) as [ttft tpot]|];
      constructor; unfold unrecorded; cbn; rewrite ?length_app; cbn;
      try assumption; try discriminate; try lia.
  - (* AtPoll *)
    destruct (conn s) as [|msg rest] eqn:Ec;
      constructor; unfold unrecorded; cbn; rewrite ?Ec;
      try assumption; try discriminate; try lia.
    destruct (producer_returned s).
    + destruct I7 as [[Hc Hf]|[Hc Hf]]; [|discriminate].
      injection Hc as -> ->. right. split; reflexivity.
    + destruct I7 as [Hc _]. discriminate.
  - (* AtExitTest *)
    destruct (is_sending_end s) eqn:Ef;
      [destruct (real_time_requests s) eqn:Eq|];
      constructor; unfold unrecorded; cbn; rewrite ?Ef, ?Eq;
      try assumption; try discriminate; try lia; auto.
Qed.

Lemma local_inv_step (a : action) (s : state) :
  inv traces start_time s -> inv traces start_time (step traces start_time s a).
Proof.
  destruct a; cbn; [apply local_inv_producer | apply local_inv_consumer].
Qed.

Lemma local_inv_run (schedule : list action) (s : state) :
  inv traces start_time s ->
  inv traces start_time (run traces start_time schedule s).
Proof.
  revert s. induction schedule as [|a schedule IH]; intros s I; cbn.
  - exact I.
  - apply IH. now apply local_inv_step.
Qed.

Lemma local_inv_reachable (s : state) :
  reachable traces start_time s -> inv traces start_time s.
Proof. intros [schedule ->]. apply local_inv_run, local_inv_init. Qed.

End LocalRun.

(** ** The remote-HTTP replay: invariant of every schedule *)

Lemma no_signal_app (l1 l2 : list Online.item) :
  OnlineInv.no_signal (l1 ++ l2) <->
  OnlineInv.no_signal l1 /\ OnlineInv.no_signal l2.
Proof. unfold OnlineInv.no_signal. apply Forall_app. Qed.

Lemma no_signal_split (l1 l2 r1 r2 : list Online.item) :
  OnlineInv.no_signal l1 -> OnlineInv.no_signal l2 ->
  l1 ++ Online.OnlineServerEndSignal :: r1
  = l2 ++ Online.OnlineServerEndSignal :: r2 ->
  l1 = l2 /\ r1 = r2.
Proof.
  revert l2. induction l1 as [|x l1 IH]; intros [|y l2] N1 N2 E; cbn in E.
  - injection E as ->. split; reflexivity.
  - injection E as <- _. inversion N2 as [|? ? Hy _]. discriminate.
  - injection E as -> _. inversion N1 as [|? ? Hx _]. discriminate.
  - injection E as -> E. inversion N1; inversion N2; subst.
    destruct (IH l2) as [-> ->]; auto.
Qed.

Lemma requests_no_signal (l : list Online.item) :
  OnlineInv.no_signal l -> OnlineInv.requests l = l.
Proof.
  unfold OnlineInv.requests. induction 1 as [|x l Hx _ IH]; [reflexivity|].
  rewrite filter_cons_True by assumption. now rewrite IH.
Qed.

Lemma requests_snoc_request (l : list Online.item) (text : string) (t : Q) :
  OnlineInv.requests (l ++ [Online.Request text t])
  = OnlineInv.requests l ++ [Online.Request text t].
Proof. unfold OnlineInv.requests. now rewrite filter_app. Qed.

Lemma requests_snoc_signal (l : list Online.item) :
  OnlineInv.requests (l ++ [Online.OnlineServerEndSignal])
  = OnlineInv.requests l.
Proof.
  unfold OnlineInv.requests. rewrite filter_app.
  change (filter _ [Online.OnlineServerEndSignal]) with (@nil Online.item).
  apply app_nil_r.
Qed.

Lemma response_samples (text : string) (receive_time : Q) (r : Online.reply)
    (m m' : OnlineMetrics.RAGPulseMetrics) :
  Online.response true text receive_time r m = Ok m' ->
  exists ttft tpot,
    m' = OnlineMetrics.append_TPOT tpot (OnlineMetrics.append_TTFT ttft m).
Proof.
  unfold Online.response. destruct r as [|arrival events ed_time]; [discriminate|].
  destruct (Online.consume_chunks receive_time events PyNone 0)
    as [[[|ttft] count]|]; try discriminate.
  intros [= <-]. exists ttft, (Online.tpot_of receive_time ed_time count).
  rewrite add_metrics_unfold. reflexivity.
Qed.

Lemma response_not_streaming (text : string) (receive_time : Q)
    (r : Online.reply) (m m' : OnlineMetrics.RAGPulseMetrics) :
  Online.response false text receive_time r m = Ok m' -> m' = m.
Proof.
  unfold Online.response. destruct r; [discriminate|]. now intros [= <-].
Qed.

Section OnlineRun.
Import OnlineMetrics Online OnlineInv.
Context `{Library}.
Variable m0 : RAGPulseMetrics.

Lemma online_inv_init (st : bool) (w : world) (prog : list call) :
  inv m0 (init st m0 w prog).
Proof.
  constructor; cbn; try reflexivity; try discriminate.
  - intros _. constructor.
  - destruct st; split; lia || reflexivity.
Qed.

Lemma scaled_due (tr : trace) (k : Z) (start_time now : Q) :
  Qle_bool (scaled tr k) (now - start_time) = true ->
  start_time + scaled tr k <= now.
Proof. intros Hd. apply Qle_bool_iff in Hd. lra. Qed.

Lemma online_inv_main (now : Q) (s : server) :
  inv m0 s -> inv m0 (main_step now s).
Proof.
  intros I. unfold main_step.
  destruct (main s) as [|traces k start_time i| |e] eqn:Em; try exact I.
  - (* Idle *)
    destruct (program s) as [|[traces k| |] rest] eqn:Ep; try exact I;
      destruct I as [I1 I2 I3 I4 I5 I6]; rewrite Em in I2;
      constructor; cbn; try assumption; try discriminate.
    + intros ? ? ? ? [= <- <- <- <-]. repeat split; [constructor|].
      exists (put s). cbn. now rewrite app_nil_r.
    + now rewrite I1, app_assoc.
    + intros Ha. exists (put s). repeat split; [now apply I2|].
      specialize (I2 Ha). rewrite I1 in I2. now apply no_signal_app in I2.
    + now rewrite I1, app_assoc.
    + intros Ha. exists (put s). repeat split; [now apply I2|].
      specialize (I2 Ha). rewrite I1 in I2. now apply no_signal_app in I2.
  - (* Running *)
    destruct (traces !! i) as [tr|] eqn:Et.
    + destruct (k =? 0)%Z eqn:Ek.
      * destruct I as [I1 I2 I3 I4 I5 I6]; rewrite Em in I2;
          constructor; cbn; try assumption; discriminate.
      * destruct (Qle_bool (scaled tr k) (now - start_time)) eqn:Ed;
          [|exact I].
        destruct I as [I1 I2 I3 I4 I5 I6]; rewrite Em in I2.
        destruct (I3 _ _ _ _ Em) as (L1 & L2 & before & L3).
        constructor; cbn; try assumption.
        -- now rewrite I1, app_assoc.
        -- intros Ha. apply no_signal_app. split; [now apply I2|].
           constructor; [reflexivity | constructor].
        -- intros ? ? ? ? [= <- <- <- <-]. repeat split.
           ++ rewrite map_app, L1. exact (eq_sym (seq_S i 0)).
           ++ apply Forall_app. split; [assumption|].
              constructor; [|constructor].
              exists tr, now. cbn. repeat split; [assumption| |].
              ** intros ->. discriminate.
              ** now apply scaled_due.
           ++ exists before. rewrite map_app, L3. cbn. now rewrite app_assoc.
    + destruct I as [I1 I2 I3 I4 I5 I6]; rewrite Em in I2;
        constructor; cbn; try assumption; discriminate.
  - (* Joining *)
    destruct (alive (worker s)) eqn:Ea; [exact I|].
    destruct (save_metrics (metrics s) (outside s)) as [[m w]|e] eqn:Es.
    + apply save_metrics_inv in Es. destruct Es as (_ & _ & -> & _).
      destruct I as [I1 I2 I3 I4 I5 I6];
        constructor; cbn; try assumption; try discriminate.
      intros Ha. congruence.
    + destruct I as [I1 I2 I3 I4 I5 I6];
        constructor; cbn; try assumption; try discriminate.
      intros Ha. congruence.
Qed.

Lemma online_inv_worker (r : reply) (s : server) :
  inv m0 s -> inv m0 (worker_step r s).
Proof.
  intros I. unfold worker_step.
  destruct (worker s) as [|text receive_time| |e] eqn:Ew; try exact I.
  - (* Waiting *)
    destruct (request_queue s) as [|[text receive_time|] rest] eqn:Eq;
      [exact I| |];
      destruct I as [I1 I2 I3 I4 I5 I6]; rewrite Ew in *; cbn in I4;
      rewrite Eq in I1.
    + constructor; cbn; try assumption; try discriminate.
      * now rewrite I1, <- app_assoc.
      * intros Ha. specialize (I2 eq_refl).
        destruct (main s); try assumption.
        destruct I2 as (reqs & E1 & N1 & N2). exists reqs.
        repeat split; try assumption.
        apply no_signal_app. split; [assumption|].
        constructor; [reflexivity | constructor].
      * rewrite requests_snoc_request, length_app. cbn. lia.
    + specialize (I2 eq_refl).
      assert (Hx : got s ++ [OnlineServerEndSignal] = put s /\ rest = []).
      { destruct (main s); try
          (rewrite I1 in I2; apply no_signal_app in I2; destruct I2 as [_ I2];
           inversion I2; discriminate).
        destruct I2 as (reqs & E1 & N1 & N2).
        rewrite I1 in E1.
        destruct (no_signal_split _ _ _ _ N2 N1 E1) as [_ Er]. subst rest.
        split; [now rewrite I1 | reflexivity]. }
      destruct Hx as [Hg ->].
      constructor; cbn; try assumption; try discriminate.
      * now rewrite app_nil_r.
      * rewrite requests_snoc_signal. lia.
      * intros _. exists (got s). split; [reflexivity|].
        destruct (main s); try
          (rewrite I1 in I2; apply no_signal_app in I2; tauto).
        destruct I2 as (reqs & E1 & N1 & N2). assumption.
  - (* Responding *)
    destruct (response (streaming s) text receive_time r (metrics s))
      as [m|e] eqn:Er;
      destruct I as [I1 I2 I3 I4 I5 I6]; rewrite Ew in *; cbn in I4;
      constructor; cbn; unfold requests in *;
      try assumption; try discriminate; try lia.
    destruct (streaming s).
    + apply response_samples in Er. destruct Er as (ttft & tpot & ->).
      cbn. rewrite !length_app. cbn. lia.
    + apply response_not_streaming in Er. now subst m.
Qed.

Lemma online_inv_step (a : action) (s : server) :
  inv m0 s -> inv m0 (step s a).
Proof. destruct a; cbn; [apply online_inv_main | apply online_inv_worker]. Qed.

Lemma online_inv_run (schedule : list action) (s : server) :
  inv m0 s -> inv m0 (run schedule s).
Proof.
  revert s. induction schedule as [|a schedule IH]; intros s I; cbn.
  - exact I.
  - apply IH. now apply online_inv_step.
Qed.

End OnlineRun.

(** ** The scenarios run as intended *)

Example local_final_run :
  Local.pc Scenario.local_final = Local.Returned /\
  Local.end_sent Scenario.local_final = 1%nat /\
  Forall (fun ttft => ttft == 1 # 20) (Local.TTFTs Scenario.local_final) /\
  Forall (fun tpot => tpot == 1 # 20) (Local.TPOTs Scenario.local_final) /\
  pyval_eq
    (fst (LocalMetrics.aggregate_metrics
            (Local.TTFTs Scenario.local_final)
            (Local.TPOTs Scenario.local_final)))
    (PyFloat (1 # 20)).
Proof.
  split; [vm_compute; reflexivity|].
  split; [vm_compute; reflexivity|].
  split; [|split].
  - vm_compute. repeat constructor.
  - vm_compute. repeat constructor.
  - vm_compute. reflexivity.
Qed.

Example after_close_run :
  Online.worker Scenario.after_close = Online.Exited /\
  Online.main Scenario.after_close = Online.Idle /\
  Online.request_queue Scenario.after_close = [] /\
  Online.program Scenario.after_close = [Online.Del] /\
  Online.responded Scenario.after_close = 2%nat /\
  Forall (fun tpot => tpot == 1 # 20)
    (OnlineMetrics.TPOTs (Online.metrics Scenario.after_close)).
Proof.
  repeat split; try (vm_compute; reflexivity).
  vm_compute. repeat constructor.
Qed.

(** ** Termination of the executor *)

Lemma local_returned_drained (traces : list trace) (start_time : Q)
    (s : Local.state) :
  LocalInv.inv traces start_time s ->
  Local.pc s = Local.Returned ->
  Local.is_sending_end s = true /\
  Local.real_time_requests s = [] /\
  Local.producer_returned s = true /\
  Local.popped s = map snd (Local.sent s) /\
  length (Local.sent s) = length traces /\
  length (Local.TTFTs s) = length traces /\
  length (Local.TPOTs s) = length traces.
Proof.
  intros [I1 I2 I3 I4 I5 I6 I7 I8 I9 I10] Hpc.
  destruct (I10 Hpc) as [Hf Hq].
  assert (Hr : Local.producer_returned s = true).
  { destruct (Local.producer_returned s); [reflexivity|].
    destruct I7 as [_ I7]. congruence. }
  assert (Hs : length (Local.sent s) = length traces).
  { rewrite <- (length_map fst), I2, length_seq. now apply I5. }
  assert (Hp : Local.popped s = map snd (Local.sent s)).
  { rewrite I4, Hq. now rewrite app_nil_r. }
  assert (Ht : length (Local.TTFTs s) = length traces).
  { unfold LocalInv.unrecorded in I8. rewrite Hpc in I8.
    rewrite Hp, length_map in I8. lia. }
  repeat split; try assumption. congruence.
Qed.

Lemma online_exit_step `{Library} (m0 : OnlineMetrics.RAGPulseMetrics)
    (r : Online.reply) (s : Online.server) :
  OnlineInv.inv m0 s ->
  Online.worker s = Online.Waiting ->
  Online.worker (Online.worker_step r s) = Online.Exited ->
  Online.request_queue s = [Online.OnlineServerEndSignal] /\
  Online.request_queue (Online.worker_step r s) = [] /\
  Online.got (Online.worker_step r s) = Online.put s /\
  Online.responded (Online.worker_step r s)
  = length (OnlineInv.requests (Online.put s)).
Proof.
  intros [I1 I2 I3 I4 I5 I6] Hw. unfold Online.worker_step. rewrite Hw in *.
  destruct (Online.request_queue s) as [|[text t|] rest] eqn:Eq; cbn;
    try (rewrite Hw; discriminate); try discriminate.
  intros _. specialize (I2 eq_refl).
  assert (Hrest : rest = [] /\ OnlineInv.no_signal (Online.got s)).
  { destruct (Online.main s); try
      (rewrite I1 in I2; apply no_signal_app in I2; destruct I2 as [_ I2];
       inversion I2; discriminate).
    destruct I2 as (reqs & E1 & N1 & N2). rewrite I1 in E1.
    destruct (no_signal_split _ _ _ _ N2 N1 E1) as [_ Er]. now split. }
  destruct Hrest as [-> Hn].
  repeat split.
  - now rewrite I1.
  - cbn in I4. rewrite I1, requests_snoc_signal. lia.
Qed.

Lemma online_exited_state (m0 : OnlineMetrics.RAGPulseMetrics)
    (s : Online.server) :
  OnlineInv.inv m0 s ->
  Online.worker s = Online.Exited ->
  exists reqs,
    Online.got s = reqs ++ [Online.OnlineServerEndSignal] /\
    OnlineInv.no_signal reqs /\
    Online.responded s = length reqs.
Proof.
  intros [I1 I2 I3 I4 I5 I6] Hw.
  destruct (I5 Hw) as (reqs & Eg & Hn). exists reqs.
  repeat split; try assumption.
  rewrite Hw, Eg, requests_snoc_signal, (requests_no_signal _ Hn) in I4.
  cbn in I4. lia.
Qed.

(** C6, as stated for every run, fails when a backend call raises: the
    executor then terminates on the exception, with the end signal not
    observed and a request left in the queue. In the remote-HTTP variant
    [close()] has returned by then, the worker being dead. *)
Lemma executor_dies_before_drain :
  (Local.reachable Scenario.two_traces 0 Failure.local_final /\
   Local.pc Failure.local_final = Local.Crashed BackendError /\
   Local.is_sending_end Failure.local_final = false /\
   Local.conn Failure.local_final = [Local.IS_END] /\
   Local.popped Failure.local_final = [(0, "a"%string)] /\
   Local.real_time_requests Failure.local_final = [(100, "b"%string)]) /\
  (online_reachable (H := Demo.library) true Scenario.sink0 Demo.world0
     Scenario.main_py Failure.online_final /\
   Online.worker Failure.online_final = Online.Died BackendError /\
   Online.main Failure.online_final = Online.Idle /\
   Online.program Failure.online_final = [Online.Del] /\
   Online.got Failure.online_final = [Online.Request "a" 0] /\
   Online.request_queue Failure.online_final
   = [Online.Request "b" 100; Online.OnlineServerEndSignal]).
Proof.
  split.
  - split; [exists Failure.local_schedule; reflexivity|].
    vm_compute. repeat split.
  - split; [exists Failure.online_schedule; reflexivity|].
    vm_compute. repeat split.
Qed.

(** C6, amended: an executor that leaves its loop through the [break]
    does so only with the end signal observed and the queue empty, and by
    then every request that was enqueued has been dequeued and answered.
    (An executor ended by an uncaught exception terminates without either
    condition.)  In-process variant: in every state of a run in
    which the consumer has returned, [is_sending_end] is set, the queue is
    empty, each trace was appended and popped, and each has its sample.
    Remote-HTTP variant: the step on which the worker exits takes the end
    signal as the only item of the queue, every item put was taken, and
    every request among them was answered; in every state after the exit
    the items taken are requests followed by the signal. *)
Theorem executor_exits_after_drain :
  (forall (traces : list trace) (start_time : Q) (s : Local.state),
      Local.reachable traces start_time s ->
      Local.pc s = Local.Returned ->
      Local.is_sending_end s = true /\
      Local.real_time_requests s = [] /\
      Local.producer_returned s = true /\
      Local.popped s = map snd (Local.sent s) /\
      length (Local.sent s) = length traces /\
      length (Local.TTFTs s) = length traces /\
      length (Local.TPOTs s) = length traces) /\
  (forall (L : Library) (streaming : bool)
          (m0 : OnlineMetrics.RAGPulseMetrics) (w : world)
          (prog : list Online.call) (s : Online.server),
      online_reachable streaming m0 w prog s ->
      (forall r : Online.reply,
          Online.worker s = Online.Waiting ->
          Online.worker (Online.worker_step r s) = Online.Exited ->
          Online.request_queue s = [Online.OnlineServerEndSignal] /\
          Online.request_queue (Online.worker_step r s) = [] /\
          Online.got (Online.worker_step r s) = Online.put s /\
          Online.responded (Online.worker_step r s)
          = length (OnlineInv.requests (Online.put s))) /\
      (Online.worker s = Online.Exited ->
       exists reqs,
         Online.got s = reqs ++ [Online.OnlineServerEndSignal] /\
         OnlineInv.no_signal reqs /\
         Online.responded s = length reqs)).
Proof.
  split.
  - intros traces start_time s Hr.
    apply (local_returned_drained traces start_time).
    now apply local_inv_reachable.
  - intros L streaming m0 w prog s [schedule ->].
    pose proof (online_inv_run m0 schedule _
                  (online_inv_init m0 streaming w prog)) as I.
    split.
    + intros r. now apply online_exit_step with (m0 := m0).
    + now apply online_exited_state with (m0 := m0).
Qed.

Lemma executor_exits_after_drain_witness :
  (Local.is_sending_end Scenario.local_final = true /\
   Local.real_time_requests Scenario.local_final = [] /\
   length (Local.TTFTs Scenario.local_final) = length Scenario.two_traces) /\
  (exists reqs,
      Online.got Scenario.after_close
      = reqs ++ [Online.OnlineServerEndSignal] /\
      Online.responded Scenario.after_close = length reqs).
Proof.
  assert (Hl : Local.pc Scenario.local_final = Local.Returned)
    by (vm_compute; reflexivity).
  assert (Ho : Online.worker Scenario.after_close = Online.Exited)
    by (vm_compute; reflexivity).
  assert (Rl : Local.reachable Scenario.two_traces 0 Scenario.local_final)
    by (exists Scenario.local_schedule; reflexivity).
  assert (Ro : online_reachable (H := Demo.library) true Scenario.sink0
                 Demo.world0 Scenario.main_py Scenario.after_close)
    by (exists Scenario.main_py_schedule; reflexivity).
  split.
  - destruct (proj1 executor_exits_after_drain _ _ _ Rl Hl)
      as (Hf & Hq & _ & _ & _ & Ht & _).
    exact (conj Hf (conj Hq Ht)).
  - destruct (proj2 executor_exits_after_drain _ _ _ _ _ _ Ro) as [_ Hx].
    destruct (Hx Ho) as (reqs & Eg & _ & Er).
    exists reqs. exact (conj Eg Er).
Defined.

(** ** Order and time of arrival *)

(** C5, as stated, fails on the in-process variant: the producer compares
    the elapsed time with [timestamp // 10], so the record with timestamp
    [19] is appended at reading [1], before [t0 + 19 / 10]. *)
Lemma local_appends_before_scaled_time :
  Local.sent (Local.run trace_19 0 [Local.Producer 1] Local.init)
  = [(0%nat, (1, "a"%string))] /\
  ~ (0 + inject_Z 19 / 10 <= 1).
Proof.
  split.
  - vm_compute. reflexivity.
  - unfold Qle. cbn. lia.
Qed.

(** C5, amended: for every trace sequence, sorted or not, the records are
    enqueued in index order and the queue hands them on in that order.
    The remote-HTTP variant, with a scale factor [k <> 0], puts record [i]
    at a clock reading not earlier than [t0 + timestamp_i / k], [t0] being
    the reading at the start of [run]. The in-process variant has the
    factor [10] built in and rounds the scaled timestamp down: it appends
    record [i] at a reading not earlier than [t0 + floor(timestamp_i / 10)]. *)
Theorem arrival_order_and_time :
  (forall (traces : list trace) (start_time : Q) (s : Local.state),
      Local.reachable traces start_time s ->
      map fst (Local.sent s) = seq 0 (Local.idx s) /\
      map snd (Local.sent s) = Local.popped s ++ Local.real_time_requests s /\
      Forall (fun e : nat * (Q * string) =>
                exists tr,
                  traces !! fst e = Some tr /\
                  snd (snd e) = input_text tr /\
                  start_time + inject_Z (timestamp tr / 10)%Z <= fst (snd e))
        (Local.sent s)) /\
  (forall (L : Library) (streaming : bool)
          (m0 : OnlineMetrics.RAGPulseMetrics) (w : world)
          (prog : list Online.call) (s : Online.server),
      online_reachable streaming m0 w prog s ->
      Online.put s = Online.got s ++ Online.request_queue s /\
      forall (traces : list trace) (k : Z) (start_time : Q) (i : nat),
        Online.main s = Online.Running traces k start_time i ->
        map fst (Online.run_log s) = seq 0 i /\
        (exists before,
            Online.put s = before ++ map snd (Online.run_log s)) /\
        Forall (fun e : nat * Online.item =>
                  exists tr now,
                    traces !! fst e = Some tr /\
                    snd e = Online.Request (input_text tr) now /\
                    k <> 0%Z /\
                    start_time + inject_Z (timestamp tr) / inject_Z k <= now)
          (Online.run_log s)).
Proof.
  split.
  - intros traces start_time s Hr.
    destruct (local_inv_reachable traces start_time s Hr)
      as [_ I2 I3 I4 _ _ _ _ _ _].
    repeat split; try assumption.
    eapply Forall_impl; [exact I3|].
    intros e (tr & E1 & E2 & E3). exists tr. repeat split; try assumption.
    unfold Local.due_time in E3. lra.
  - intros L streaming m0 w prog s [schedule ->].
    destruct (online_inv_run m0 schedule _
                (online_inv_init m0 streaming w prog)) as [I1 _ I3 _ _ _].
    split; [assumption|].
    intros traces k start_time i Em.
    destruct (I3 _ _ _ _ Em) as (L1 & L2 & L3).
    repeat split; assumption.
Qed.

Lemma arrival_order_and_time_witness :
  map fst (Local.sent Scenario.local_final)
  = seq 0 (Local.idx Scenario.local_final) /\
  map fst (Online.run_log mid_run) = seq 0 2.
Proof.
  assert (Rl : Local.reachable Scenario.two_traces 0 Scenario.local_final)
    by (exists Scenario.local_schedule; reflexivity).
  assert (Ro : online_reachable (H := Demo.library) true Scenario.sink0
                 Demo.world0 Scenario.main_py mid_run)
    by (exists (take 6 Scenario.main_py_schedule); reflexivity).
  assert (Em : Online.main mid_run
               = Online.Running Scenario.two_traces 10 0 2)
    by (vm_compute; reflexivity).
  split.
  - destruct (proj1 arrival_order_and_time _ _ _ Rl) as (Hi & _).
    exact Hi.
  - destruct (proj2 arrival_order_and_time _ _ _ _ _ _ Ro) as [_ Hrun].
    destruct (Hrun _ _ _ _ Em) as (Hi & _).
    exact Hi.
Defined.

Example mid_run_log :
  Online.run_log mid_run
  = [ (0%nat, Online.Request "a" 0); (1%nat, Online.Request "b" 100) ].
Proof. vm_compute. reflexivity. Qed.

(** ** The end-of-stream signal *)

Lemma local_end_sent_once (traces : list trace) (start_time : Q)
    (s : Local.state) :
  Local.reachable traces start_time s ->
  (Local.end_sent s <= 1)%nat /\
  (Local.producer_returned s = true ->
   Local.end_sent s = 1%nat /\ length (Local.sent s) = length traces).
Proof.
  intros Hr.
  destruct (local_inv_reachable traces start_time s Hr)
    as [_ I2 _ _ I5 I6 _ _ _ _].
  split.
  - rewrite I6. destruct (Local.producer_returned s); lia.
  - intros Ep. rewrite Ep in I6. split; [assumption|].
    rewrite <- (length_map fst), I2, length_seq. now apply I5.
Qed.

Lemma signals_put_snoc (l : list Online.item) :
  length (filter (fun it => Online.is_signal it = true)
            (l ++ [Online.OnlineServerEndSignal]))
  = S (length (filter (fun it => Online.is_signal it = true) l)).
Proof.
  rewrite filter_app, length_app.
  change (filter _ [Online.OnlineServerEndSignal])
    with [Online.OnlineServerEndSignal].
  cbn. lia.
Qed.

(** Whatever the state of the worker thread, a call of [close] (or the
    destructor) by an idle main thread puts one more end signal. *)
Lemma close_always_puts `{Library} (now : Q) (s : Online.server)
    (c : Online.call) (rest : list Online.call) :
  Online.main s = Online.Idle ->
  Online.program s = c :: rest ->
  c = Online.Close \/ c = Online.Del ->
  Online.signals_put (Online.main_step now s)
  = S (Online.signals_put s).
Proof.
  intros Em Ep Hc. unfold Online.main_step, Online.signals_put.
  rewrite Em, Ep. destruct Hc as [-> | ->]; cbn; apply signals_put_snoc.
Qed.

(** C4 fails on the remote-HTTP variant: [main.py] calls [server.close()]
    and the destructor of [server] calls [close] again; the test
    [self.request_thread is not None] does not stop it, the attribute
    being never reset. After [close] one end signal has been put; after
    the destructor two, the second left in the queue of a worker that has
    exited. *)
Theorem close_then_del_puts_two_signals :
  Online.signals_put Scenario.after_close = 1%nat /\
  Online.worker Scenario.after_close = Online.Exited /\
  Online.signals_put Scenario.after_del = 2%nat /\
  Online.request_queue Scenario.after_del = [Online.OnlineServerEndSignal] /\
  Online.worker Scenario.after_del = Online.Exited /\
  Online.main Scenario.after_del = Online.Idle /\
  Online.program Scenario.after_del = [].
Proof. vm_compute. repeat split. Qed.

(** ** A failing backend call *)

Lemma local_crashed_step (traces : list trace) (start_time : Q)
    (a : Local.action) (s : Local.state) (e : exn) :
  Local.pc s = Local.Crashed e ->
  Local.pc (Local.step traces start_time s a) = Local.Crashed e /\
  Local.TTFTs (Local.step traces start_time s a) = Local.TTFTs s /\
  Local.TPOTs (Local.step traces start_time s a) = Local.TPOTs s /\
  Local.popped (Local.step traces start_time s a) = Local.popped s /\
  exists later,
    Local.real_time_requests (Local.step traces start_time s a)
    = Local.real_time_requests s ++ later.
Proof.
  intros Hpc. destruct a as [current_time|reply]; cbn.
  - unfold Local.producer_step.
    destruct (Local.producer_returned s);
      [|destruct (traces !! Local.idx s) as [tr|];
        [destruct (Qle_bool _ _)|]]; cbn;
      repeat split; try assumption;
      first [ now eexists | exists []; now rewrite app_nil_r ].
  - unfold Local.consumer_step. rewrite Hpc.
    repeat split; try assumption. exists []. now rewrite app_nil_r.
Qed.

Lemma local_crashed_run (traces : list trace) (start_time : Q)
    (schedule : list Local.action) (s : Local.state) (e : exn) :
  Local.pc s = Local.Crashed e ->
  Local.pc (Local.run traces start_time schedule s) = Local.Crashed e /\
  Local.TTFTs (Local.run traces start_time schedule s) = Local.TTFTs s /\
  Local.TPOTs (Local.run traces start_time schedule s) = Local.TPOTs s /\
  Local.popped (Local.run traces start_time schedule s) = Local.popped s /\
  exists later,
    Local.real_time_requests (Local.run traces start_time schedule s)
    = Local.real_time_requests s ++ later.
Proof.
  revert s. induction schedule as [|a schedule IH]; intros s Hpc.
  - cbn. repeat split; try assumption. exists []. now rewrite app_nil_r.
  - change (Local.run traces start_time (a :: schedule) s)
      with (Local.run traces start_time schedule
              (Local.step traces start_time s a)).
    destruct (local_crashed_step traces start_time a s e Hpc)
      as (H1 & H2 & H3 & H4 & later & H5).
    destruct (IH _ H1) as (K1 & K2 & K3 & K4 & later' & K5).
    split; [assumption|]. split; [congruence|]. split; [congruence|].
    split; [congruence|].
    exists (later ++ later'). rewrite K5, H5. now rewrite app_assoc.
Qed.

Lemma online_died_step `{Library} (a : Online.action) (s : Online.server)
    (e : exn) :
  Online.worker s = Online.Died e ->
  Online.worker (Online.step s a) = Online.Died e /\
  Online.metrics (Online.step s a) = Online.metrics s /\
  Online.got (Online.step s a) = Online.got s /\
  Online.responded (Online.step s a) = Online.responded s /\
  exists later,
    Online.request_queue (Online.step s a) = Online.request_queue s ++ later.
Proof.
  intros Hw. destruct a as [now|r]; cbn.
  - unfold Online.main_step.
    destruct (Online.main s) as [|traces k start_time i| |e'].
    + destruct (Online.program s) as [|[traces k| |] rest]; cbn;
        repeat split; try assumption;
        first [ now eexists | exists []; now rewrite app_nil_r ].
    + destruct (traces !! i) as [tr|];
        [destruct (k =? 0)%Z; [|destruct (Qle_bool _ _)]|]; cbn;
        repeat split; try assumption;
        first [ now eexists | exists []; now rewrite app_nil_r ].
    + rewrite Hw. cbn.
      destruct (OnlineMetrics.save_metrics _ _) as [[m w]|e'] eqn:Es; cbn.
      * apply save_metrics_inv in Es. destruct Es as (_ & _ & -> & _).
        repeat split; try assumption. exists []. now rewrite app_nil_r.
      * repeat split; try assumption. exists []. now rewrite app_nil_r.
    + repeat split; try assumption. exists []. now rewrite app_nil_r.
  - unfold Online.worker_step. rewrite Hw.
    repeat split; try assumption. exists []. now rewrite app_nil_r.
Qed.

Lemma online_died_run `{Library} (schedule : list Online.action)
    (s : Online.server) (e : exn) :
  Online.worker s = Online.Died e ->
  Online.worker (Online.run schedule s) = Online.Died e /\
  Online.metrics (Online.run schedule s) = Online.metrics s /\
  Online.got (Online.run schedule s) = Online.got s /\
  Online.responded (Online.run schedule s) = Online.responded s /\
  exists later,
    Online.request_queue (Online.run schedule s)
    = Online.request_queue s ++ later.
Proof.
  revert s. induction schedule as [|a schedule IH]; intros s Hw.
  - cbn. repeat split; try assumption. exists []. now rewrite app_nil_r.
  - change (Online.run (a :: schedule) s)
      with (Online.run schedule (Online.step s a)).
    destruct (online_died_step a s e Hw) as (H1 & H2 & H3 & H4 & later & H5).
    destruct (IH _ H1) as (K1 & K2 & K3 & K4 & later' & K5).
    split; [assumption|]. split; [congruence|]. split; [congruence|].
    split; [congruence|].
    exists (later ++ later'). rewrite K5, H5. now rewrite app_assoc.
Qed.

Lemma online_streaming_step `{Library} (a : Online.action)
    (s : Online.server) :
  Online.streaming (Online.step s a) = Online.streaming s.
Proof.
  destruct a as [now|r]; cbn.
  - unfold Online.main_step.
    destruct (Online.main s) as [|traces k start_time i| |e'].
    + destruct (Online.program s) as [|[traces k| |] rest]; reflexivity.
    + destruct (traces !! i) as [tr|];
        [destruct (k =? 0)%Z; [|destruct (Qle_bool _ _)]|]; reflexivity.
    + destruct (Online.alive _); [reflexivity|].
      destruct (OnlineMetrics.save_metrics _ _) as [[m w]|e']; reflexivity.
    + reflexivity.
  - unfold Online.worker_step.
    destruct (Online.worker s) as [|text t| |e']; try reflexivity.
    + destruct (Online.request_queue s) as [|[text t|] rest]; reflexivity.
    + destruct (Online.response _ _ _ _ _); reflexivity.
Qed.

Lemma online_streaming_run `{Library} (schedule : list Online.action)
    (s : Online.server) :
  Online.streaming (Online.run schedule s) = Online.streaming s.
Proof.
  revert s. induction schedule as [|a schedule IH]; intros s.
  - reflexivity.
  - change (Online.run (a :: schedule) s)
      with (Online.run schedule (Online.step s a)).
    now rewrite IH, online_streaming_step.
Qed.

(** C2, as stated, fails on both variants: neither loop catches an
    exception. With two requests enqueued and the first backend call
    raising, the executor ends on the exception and the second request
    stays in the queue, although the backend would have answered it. *)
Lemma failed_call_ends_the_executor :
  (Local.pc Failure.local_final = Local.Crashed BackendError /\
   Local.real_time_requests Failure.local_final = [(100, "b"%string)] /\
   Local.TTFTs Failure.local_final = [] /\
   Local.outcome Failure.local_final = Some (Raise BackendError)) /\
  (Online.worker Failure.online_final = Online.Died BackendError /\
   Online.request_queue Failure.online_final
   = [Online.Request "b" 100; Online.OnlineServerEndSignal] /\
   OnlineMetrics.TPOTs (Online.metrics Failure.online_final) = [] /\
   Online.main Failure.online_final = Online.Idle).
Proof. vm_compute. repeat split. Qed.

(** C2, amended: a backend call that raises is not caught. The executor
    ends on the exception: no sample is recorded for the failed request,
    and whatever happens afterwards no further request is taken from the
    queue and no sample is added. In every state of a run the samples
    are those of the requests before the first failure: in-process, one
    TTFT and one TPOT per request taken from the queue, the one in
    [generate] or failed apart; remote HTTP with streaming on, one TTFT
    and one TPOT per call of [response] that returned, and every request
    taken has such a call, the one being answered or failed apart; with
    streaming off, [response] records nothing and the lists stay as they
    were. *)
Theorem backend_failure_ends_executor :
  (forall (traces : list trace) (start_time : Q) (s : Local.state)
          (receive_time : Q) (text : string) (schedule : list Local.action),
      Local.pc s = Local.InGenerate receive_time text ->
      let s' := Local.run traces start_time
                  (Local.Consumer Local.GenerateRaises :: schedule) s in
      Local.pc s' = Local.Crashed BackendError /\
      Local.TTFTs s' = Local.TTFTs s /\
      Local.TPOTs s' = Local.TPOTs s /\
      Local.popped s' = Local.popped s /\
      exists later,
        Local.real_time_requests s' = Local.real_time_requests s ++ later) /\
  (forall (L : Library) (s : Online.server) (text : string)
          (receive_time : Q) (r : Online.reply) (e : exn)
          (schedule : list Online.action),
      Online.worker s = Online.Responding text receive_time ->
      Online.response (Online.streaming s) text receive_time r
        (Online.metrics s) = Raise e ->
      let s' := Online.run (Online.Worker r :: schedule) s in
      Online.worker s' = Online.Died e /\
      Online.metrics s' = Online.metrics s /\
      Online.got s' = Online.got s /\
      Online.responded s' = Online.responded s /\
      exists later,
        Online.request_queue s' = Online.request_queue s ++ later) /\
  (forall (traces : list trace) (start_time : Q) (s : Local.state),
      Local.reachable traces start_time s ->
      (length (Local.TTFTs s) + LocalInv.unrecorded s
       = length (Local.popped s))%nat /\
      length (Local.TPOTs s) = length (Local.TTFTs s)) /\
  (forall (L : Library) (streaming : bool)
          (m0 : OnlineMetrics.RAGPulseMetrics) (w : world)
          (prog : list Online.call) (s : Online.server),
      online_reachable streaming m0 w prog s ->
      (if streaming
       then length (OnlineMetrics.TTFTs (Online.metrics s))
            = (length (OnlineMetrics.TTFTs m0) + Online.responded s)%nat /\
            length (OnlineMetrics.TPOTs (Online.metrics s))
            = (length (OnlineMetrics.TPOTs m0) + Online.responded s)%nat
       else OnlineMetrics.TTFTs (Online.metrics s) = OnlineMetrics.TTFTs m0 /\
            OnlineMetrics.TPOTs (Online.metrics s) = OnlineMetrics.TPOTs m0) /\
      (Online.responded s + OnlineInv.unanswered (Online.worker s)
       = length (OnlineInv.requests (Online.got s)))%nat).
Proof.
  repeat apply conj.
  - intros traces start_time s receive_time text schedule Hpc s'.
    subst s'.
    change (Local.run traces start_time
              (Local.Consumer Local.GenerateRaises :: schedule) s)
      with (Local.run traces start_time schedule
              (Local.consumer_step Local.GenerateRaises s)).
    assert (Hc : Local.consumer_step Local.GenerateRaises s
                 = Local.goto (Local.Crashed BackendError) s).
    { unfold Local.consumer_step. now rewrite Hpc. }
    rewrite Hc.
    apply (local_crashed_run traces start_time schedule
             (Local.goto (Local.Crashed BackendError) s) BackendError).
    reflexivity.
  - intros L s text receive_time r e schedule Hw Hr s'. subst s'.
    change (Online.run (Online.Worker r :: schedule) s)
      with (Online.run schedule (Online.worker_step r s)).
    assert (Hd : Online.worker (Online.worker_step r s) = Online.Died e /\
                 Online.metrics (Online.worker_step r s) = Online.metrics s /\
                 Online.got (Online.worker_step r s) = Online.got s /\
                 Online.responded (Online.worker_step r s)
                 = Online.responded s /\
                 Online.request_queue (Online.worker_step r s)
                 = Online.request_queue s).
    { unfold Online.worker_step. rewrite Hw, Hr. repeat split. }
    destruct Hd as (D1 & D2 & D3 & D4 & D5).
    destruct (online_died_run schedule _ e D1)
      as (K1 & K2 & K3 & K4 & later & K5).
    split; [assumption|]. split; [congruence|]. split; [congruence|].
    split; [congruence|]. exists later. now rewrite K5, D5.
  - intros traces start_time s Hr.
    destruct (local_inv_reachable traces start_time s Hr)
      as [_ _ _ _ _ _ _ I8 I9 _].
    split; assumption.
  - intros L streaming m0 w prog s [schedule ->].
    destruct (online_inv_run m0 schedule _
                (online_inv_init m0 streaming w prog)) as [_ _ _ I4 _ I6].
    rewrite online_streaming_run in I6. cbn [Online.init Online.streaming] in I6.
    split; assumption.
Qed.

Lemma backend_failure_ends_executor_witness :
  Local.TTFTs
    (Local.run Scenario.two_traces 0
       (Local.Consumer Local.GenerateRaises :: drop 5 Failure.local_schedule)
       Failure.local_before)
  = Local.TTFTs Failure.local_before /\
  Online.got
    (Online.run (H := Demo.library)
       (Online.Worker Online.CreateRaises :: drop 5 Failure.online_schedule)
       Failure.online_before)
  = Online.got Failure.online_before.
Proof.
  assert (Hl : Local.pc Failure.local_before = Local.InGenerate 0 "a")
    by (vm_compute; reflexivity).
  assert (Hw : Online.worker Failure.online_before = Online.Responding "a" 0)
    by (vm_compute; reflexivity).
  assert (Hr : Online.response (Online.streaming Failure.online_before) "a" 0
                 Online.CreateRaises (Online.metrics Failure.online_before)
               = Raise BackendError)
    by reflexivity.
  split.
  - pose proof (proj1 backend_failure_ends_executor Scenario.two_traces 0
                  Failure.local_before 0 "a"%string
                  (drop 5 Failure.local_schedule) Hl) as Hx.
    cbv zeta in Hx. destruct Hx as (_ & Ht & _). exact Ht.
  - pose proof (proj1 (proj2 backend_failure_ends_executor) Demo.library
                  Failure.online_before "a"%string 0 Online.CreateRaises
                  BackendError (drop 5 Failure.online_schedule) Hw Hr) as Hx.
    cbv zeta in Hx. destruct Hx as (_ & _ & Hg & _). exact Hg.
Defined.

(** ** The recorded TPOT *)

Lemma consume_chunks_from_float (receive_time : Q)
    (events : list Online.chunk_event) (x : Q) (count : nat) :
  completes events ->
  Online.consume_chunks receive_time events (PyFloat x) count
  = Ok (PyFloat x, (count + content_chunks events)%nat).
Proof.
  intros Hc. revert count.
  induction Hc as [|ev events Hev _ IH]; intros count; cbn.
  - f_equal. f_equal. lia.
  - destruct ev as [cur_time content|]; [|congruence].
    rewrite IH. f_equal. f_equal.
    destruct (Online.truthy content); lia.
Qed.

Lemma consume_chunks_from_none (receive_time : Q)
    (events : list Online.chunk_event) :
  completes events -> events <> [] ->
  exists ttft,
    Online.consume_chunks receive_time events PyNone 0
    = Ok (PyFloat ttft, content_chunks events).
Proof.
  intros Hc Hne. destruct events as [|ev events]; [congruence|].
  inversion Hc as [|? ? Hev Hc']; subst.
  destruct ev as [cur_time content|]; [|congruence].
  exists (cur_time - receive_time). cbn.
  rewrite consume_chunks_from_float by assumption.
  destruct (Online.truthy content); reflexivity.
Qed.

(** C1, as stated, fails on the remote-HTTP variant: the numerator runs
    from [receive_time], the reading taken when the request was put in
    the queue, not from the arrival of the request at the backend. A
    request put at [0] that reaches the endpoint at [1] and completes at
    [3] with two chunks is recorded with TPOT [3/2], not [(3 - 1)/2]. *)
Lemma online_tpot_runs_from_receive_time :
  OnlineMetrics.TPOTs (Online.metrics
     (Online.worker_step delayed_reply answering))
  = [(3 - 0) / inject_Z 2] /\
  ~ ((3 - 0) / inject_Z 2 == (3 - 1) / inject_Z 2).
Proof.
  split.
  - reflexivity.
  - unfold Qeq. cbn. lia.
Qed.

(** C1, amended: for a request answered by a streaming backend the TPOT
    appended to the samples is, in the in-process variant, the time from
    the arrival of the request at the backend to the return of [generate]
    divided by the number of output tokens; in the remote-HTTP variant,
    for a stream that delivers at least one chunk, the time from the
    request's [receive_time] (taken when it was put in the queue) to the
    end of the stream divided by the number of chunks with content. In
    both it is [0.0] when that number is zero. *)
Theorem tpot_recorded :
  (forall (s : Local.state) (receive_time : Q) (text : string)
          (out : Local.request_output) (ed_time : Q),
      Local.pc s = Local.InGenerate receive_time text ->
      exists tpot,
        Local.TPOTs (Local.consumer_step (Local.Generated out ed_time) s)
        = Local.TPOTs s ++ [tpot] /\
        ((0 < length (Local.token_ids out))%nat ->
         tpot = (ed_time - Local.arrival_time out)
                / inject_Z (Z.of_nat (length (Local.token_ids out)))) /\
        (length (Local.token_ids out) = 0%nat -> tpot = 0)) /\
  (forall (L : Library) (s : Online.server) (text : string)
          (receive_time arrival_time ed_time : Q)
          (events : list Online.chunk_event),
      Online.worker s = Online.Responding text receive_time ->
      Online.streaming s = true ->
      completes events -> events <> [] ->
      exists tpot,
        OnlineMetrics.TPOTs (Online.metrics
          (Online.worker_step
             (Online.Answered arrival_time events ed_time) s))
        = OnlineMetrics.TPOTs (Online.metrics s) ++ [tpot] /\
        ((0 < content_chunks events)%nat ->
         tpot = (ed_time - receive_time)
                / inject_Z (Z.of_nat (content_chunks events))) /\
        (content_chunks events = 0%nat -> tpot = 0)).
Proof.
  split.
  - intros s receive_time text out ed_time Hpc.
    unfold Local.consumer_step. rewrite Hpc. unfold Local.sample.
    destruct (Local.token_ids out) as [|tok toks] eqn:Et.
    + exists 0. cbn. repeat split. intros Hlt. lia.
    + eexists. cbn. split; [reflexivity|]. split; [|discriminate].
      intros _. reflexivity.
  - intros L s text receive_time arrival_time ed_time events Hw Hs Hc Hne.
    unfold Online.worker_step. rewrite Hw. unfold Online.response.
    rewrite Hs.
    destruct (consume_chunks_from_none receive_time events Hc Hne)
      as [ttft ->].
    exists (Online.tpot_of receive_time ed_time (content_chunks events)).
    cbv beta iota. rewrite add_metrics_unfold. cbn. split; [reflexivity|].
    unfold Online.tpot_of.
    destruct (content_chunks events) as [|n]; cbn.
    + split; [lia | reflexivity].
    + split; [reflexivity | discriminate].
Qed.

Lemma tpot_recorded_witness :
  (exists tpot,
      Local.TPOTs
        (Local.consumer_step
           (Local.Generated (Scenario.vllm_output 0) (1 # 5))
           Failure.local_before)
      = Local.TPOTs Failure.local_before ++ [tpot]) /\
  (exists tpot,
      OnlineMetrics.TPOTs (Online.metrics
        (Online.worker_step delayed_reply answering))
      = OnlineMetrics.TPOTs (Online.metrics answering) ++ [tpot]).
Proof.
  assert (Hl : Local.pc Failure.local_before = Local.InGenerate 0 "a")
    by (vm_compute; reflexivity).
  split.
  - destruct (proj1 tpot_recorded Failure.local_before 0 "a"%string
                (Scenario.vllm_output 0) (1 # 5) Hl) as (tpot & Ht & _).
    exists tpot. exact Ht.
  - destruct (proj2 tpot_recorded Demo.library answering "q"%string 0 1 3
                [ Online.Chunk 2 (Some "x"); Online.Chunk 3 (Some "y") ]%string
                eq_refl eq_refl) as (tpot & Ht & _).
    + repeat constructor; discriminate.
    + discriminate.
    + exists tpot. exact Ht.
Defined.


(** * Further properties of the code *)

(** ** The sink over a whole run *)

Lemma record_all_unfold (dicts : list (gmap string pyval))
    (self : OnlineMetrics.RAGPulseMetrics) :
  record_all dicts self =
  {| OnlineMetrics.TTFTs :=
       OnlineMetrics.TTFTs self
       ++ flat_map (fun d => sample_of (d !! "TTFT"%string)) dicts;
     OnlineMetrics.TPOTs :=
       OnlineMetrics.TPOTs self
       ++ flat_map (fun d => sample_of (d !! "TPOT"%string)) dicts;
     OnlineMetrics.metric_dir := OnlineMetrics.metric_dir self;
     OnlineMetrics.metric_name := OnlineMetrics.metric_name self;
     OnlineMetrics.logger := OnlineMetrics.logger self;
     OnlineMetrics.args := OnlineMetrics.args self |}.
Proof.
  unfold record_all. revert self.
  induction dicts as [|d dicts IH]; intros self; cbn [fold_left flat_map].
  - rewrite !app_nil_r. destruct self; reflexivity.
  - rewrite IH, add_metrics_unfold. cbn. now rewrite <- !app_assoc.
Qed.

(** X1: samples accumulate in call order. After any sequence of
    [add_metrics] calls the TTFT (TPOT) list is the list before them
    followed by the float [TTFT] ([TPOT]) entries of the dictionaries, in
    the order of the calls; nothing recorded earlier is dropped, moved or
    rewritten. *)
Theorem add_metrics_accumulates (dicts : list (gmap string pyval))
    (self : OnlineMetrics.RAGPulseMetrics) :
  OnlineMetrics.TTFTs (record_all dicts self)
  = OnlineMetrics.TTFTs self
    ++ flat_map (fun d => sample_of (d !! "TTFT"%string)) dicts /\
  OnlineMetrics.TPOTs (record_all dicts self)
  = OnlineMetrics.TPOTs self
    ++ flat_map (fun d => sample_of (d !! "TPOT"%string)) dicts /\
  (length (OnlineMetrics.TTFTs (record_all dicts self))
   <= length (OnlineMetrics.TTFTs self) + length dicts)%nat.
Proof.
  rewrite record_all_unfold. cbn. repeat split.
  rewrite length_app. apply Nat.add_le_mono_l.
  induction dicts as [|d dicts IH]; cbn; [lia|].
  rewrite length_app.
  destruct (d !! "TTFT"%string) as [[|x]|]; cbn; lia.
Qed.

(** X2: two ways of constructing a sink that cannot be saved.
    [__init__] assigns [self.metric_name] only when the argument is
    [None]: with a name given, [save_metrics] raises [AttributeError],
    whatever has been recorded and whatever the file system holds.
    [__init__] creates the default directory only: with a directory given
    that does not exist, and no name, [save_metrics] raises
    [FileNotFoundError], whatever has been recorded. *)
Theorem explicit_metric_name_unsavable `{Library}
    (default_dir today : string) (dir : option string) (name d : string)
    (lg : bool) (a : json) (dicts : list (gmap string pyval)) (w : world) :
  d ∉ dirs w ->
  OnlineMetrics.save_metrics
    (record_all dicts
       (OnlineMetrics.init default_dir today dir (Some name) lg a))
    (OnlineMetrics.init_world default_dir dir w)
  = Raise AttributeError /\
  OnlineMetrics.save_metrics
    (record_all dicts
       (OnlineMetrics.init default_dir today (Some d) None lg a))
    (OnlineMetrics.init_world default_dir (Some d) w)
  = Raise FileNotFoundError.
Proof.
  intros Hd. split.
  - unfold OnlineMetrics.save_metrics. now rewrite record_all_unfold.
  - unfold OnlineMetrics.save_metrics. rewrite record_all_unfold. cbn.
    now rewrite decide_False by exact Hd.
Qed.

Lemma explicit_metric_name_unsavable_witness :
  OnlineMetrics.save_metrics (H := Demo.library)
    (record_all []
       (OnlineMetrics.init "metrics" "2025-01-01-00-00" None
          (Some "run.json"%string) true JNull))
    (OnlineMetrics.init_world "metrics" None Demo.empty_world)
  = Raise AttributeError /\
  OnlineMetrics.save_metrics (H := Demo.library)
    (record_all []
       (OnlineMetrics.init "metrics" "2025-01-01-00-00" (Some "out"%string)
          None true JNull))
    (OnlineMetrics.init_world "metrics" (Some "out"%string) Demo.empty_world)
  = Raise FileNotFoundError.
Proof.
  apply (@explicit_metric_name_unsavable Demo.library).
  vm_compute. set_solver.
Defined.


(** ** What [response] returns *)

Lemma consume_chunks_incomplete (receive_time : Q)
    (events : list Online.chunk_event) (TTFT : pyval) (count : nat) :
  ~ completes events ->
  Online.consume_chunks receive_time events TTFT count = Raise BackendError.
Proof.
  revert TTFT count. induction events as [|ev events IH]; intros TTFT count Hn.
  - exfalso. apply Hn. constructor.
  - destruct ev as [cur_time content|]; [|reflexivity]. cbn. apply IH.
    intros Hc. apply Hn. constructor; [discriminate | exact Hc].
Qed.

Lemma completes_dec (events : list Online.chunk_event) :
  completes events \/ ~ completes events.
Proof.
  induction events as [|ev events [IH|IH]].
  - left. constructor.
  - destruct ev as [cur_time content|].
    + left. constructor; [discriminate | exact IH].
    + right. intros Hc. inversion Hc; congruence.
  - right. intros Hc. inversion Hc; contradiction.
Qed.

(** X4: a streamed call succeeds exactly when the stream ends without an
    exception and delivered at least one chunk. An empty stream makes
    [response] raise [TypeError] (the log line formats [TTFT = None] with
    [:.2f]); an exception inside the stream propagates. In both failing
    cases nothing is recorded, not even the partial chunk count. *)
Theorem streamed_response_returns_iff (text : string)
    (receive_time arrival_time ed_time : Q)
    (events : list Online.chunk_event) (m : OnlineMetrics.RAGPulseMetrics) :
  ((exists m',
       Online.response true text receive_time
         (Online.Answered arrival_time events ed_time) m = Ok m')
   <-> completes events /\ events <> []) /\
  (events = [] ->
   Online.response true text receive_time
     (Online.Answered arrival_time events ed_time) m = Raise TypeError) /\
  (~ completes events ->
   Online.response true text receive_time
     (Online.Answered arrival_time events ed_time) m = Raise BackendError).
Proof.
  assert (Hempty : events = [] ->
    Online.response true text receive_time
      (Online.Answered arrival_time events ed_time) m = Raise TypeError).
  { intros ->. reflexivity. }
  assert (Hraise : ~ completes events ->
    Online.response true text receive_time
      (Online.Answered arrival_time events ed_time) m = Raise BackendError).
  { intros Hn. unfold Online.response.
    now rewrite (consume_chunks_incomplete _ _ _ _ Hn). }
  repeat split; try assumption.
  - destruct (completes_dec events) as [Hc|Hn]; [exact Hc|].
    destruct H as [m' Hm]. rewrite (Hraise Hn) in Hm. discriminate.
  - intros ->. destruct H as [m' Hm]. rewrite (Hempty eq_refl) in Hm.
    discriminate.
  - intros [Hc Hne]. unfold Online.response.
    destruct (consume_chunks_from_none receive_time events Hc Hne)
      as [ttft ->].
    eexists. reflexivity.
Qed.

Lemma streamed_response_returns_iff_witness :
  Online.response true "q" 0 (Online.Answered 0 [] 1) Scenario.sink0
  = Raise TypeError /\
  Online.response true "q" 0
    (Online.Answered 0 [Online.Chunk 1 (Some "x"); Online.StreamRaises]%string 2)
    Scenario.sink0
  = Raise BackendError.
Proof.
  split.
  - apply (streamed_response_returns_iff "q" 0 0 1 [] Scenario.sink0).
    reflexivity.
  - apply (streamed_response_returns_iff "q" 0 0 2
             [Online.Chunk 1 (Some "x"); Online.StreamRaises]%string
             Scenario.sink0).
    intros Hc. inversion Hc as [|? ? _ Hc']. inversion Hc'. congruence.
Defined.

(** X5: the recorded TTFT is the arrival of the first chunk minus the
    request's [receive_time], whether or not that chunk carries content
    and whatever follows it: the worker appends exactly that value. *)
Theorem ttft_from_first_chunk (s : Online.server) (text : string)
    (receive_time arrival_time ed_time cur_time : Q)
    (content : option string) (rest : list Online.chunk_event) :
  Online.worker s = Online.Responding text receive_time ->
  Online.streaming s = true ->
  completes rest ->
  OnlineMetrics.TTFTs (Online.metrics
    (Online.worker_step
       (Online.Answered arrival_time
          (Online.Chunk cur_time content :: rest) ed_time) s))
  = OnlineMetrics.TTFTs (Online.metrics s) ++ [cur_time - receive_time].
Proof.
  intros Hw Hs Hc. unfold Online.worker_step. rewrite Hw.
  unfold Online.response. rewrite Hs. cbn [Online.consume_chunks].
  rewrite consume_chunks_from_float by assumption.
  cbv beta iota. rewrite add_metrics_unfold. reflexivity.
Qed.

Lemma ttft_from_first_chunk_witness :
  OnlineMetrics.TTFTs (Online.metrics
    (Online.worker_step
       (Online.Answered 1
          [Online.Chunk 2 None; Online.Chunk 3 (Some "y")]%string 3)
       answering))
  = OnlineMetrics.TTFTs (Online.metrics answering) ++ [2 - 0].
Proof.
  apply (ttft_from_first_chunk answering "q" 0 1 3 2 None
           [Online.Chunk 3 (Some "y")]%string eq_refl eq_refl).
  repeat constructor. discriminate.
Defined.

(** ** What no schedule does *)

(** X6: without streaming no sample is ever recorded: in every state of
    a run of a non-streaming server the sink holds the sample lists it
    was constructed with, so every summary [close] saves is that of the
    initial sink. *)
Theorem non_streaming_records_nothing `{Library}
    (m0 : OnlineMetrics.RAGPulseMetrics) (w : world)
    (prog : list Online.call) (s : Online.server) :
  online_reachable false m0 w prog s ->
  OnlineMetrics.TTFTs (Online.metrics s) = OnlineMetrics.TTFTs m0 /\
  OnlineMetrics.TPOTs (Online.metrics s) = OnlineMetrics.TPOTs m0.
Proof.
  intros [schedule ->].
  destruct (online_inv_run m0 schedule _
              (online_inv_init m0 false w prog)) as [_ _ _ _ _ I6].
  rewrite online_streaming_run in I6. exact I6.
Qed.

Lemma non_streaming_records_nothing_witness :
  OnlineMetrics.TPOTs (Online.metrics plain_final)
  = OnlineMetrics.TPOTs Scenario.sink0.
Proof.
  assert (Ro : online_reachable (H := Demo.library) false Scenario.sink0
                 Demo.world0 Scenario.main_py plain_final)
    by (exists Scenario.main_py_schedule; reflexivity).
  destruct (non_streaming_records_nothing _ _ _ _ Ro) as [_ Hp].
  exact Hp.
Defined.

Lemma online_step_keeps_alive `{Library} (streaming : bool)
    (a : Online.action) (s : Online.server) :
  Online.streaming s = streaming ->
  Forall (good_reply streaming) (worker_replies [a]) ->
  (forall e, Online.worker s <> Online.Died e) ->
  forall e, Online.worker (Online.step s a) <> Online.Died e.
Proof.
  intros Hs Hg Hw e. destruct a as [now|r]; cbn.
  - unfold Online.main_step.
    destruct (Online.main s) as [|traces k start_time i| |e'].
    + destruct (Online.program s) as [|[traces k| |] rest]; cbn; apply Hw.
    + destruct (traces !! i) as [tr|];
        [destruct (k =? 0)%Z; [|destruct (Qle_bool _ _)]|]; cbn; apply Hw.
    + destruct (Online.alive _); [apply Hw|].
      destruct (OnlineMetrics.save_metrics _ _) as [[m w]|e']; cbn; apply Hw.
    + apply Hw.
  - cbn in Hg. apply Forall_inv in Hg. rename Hg into Hr.
    unfold Online.worker_step.
    destruct (Online.worker s) as [|text t| |e'] eqn:Ew.
    + destruct (Online.request_queue s) as [|[text t|] rest]; cbn;
        rewrite ?Ew; discriminate.
    + destruct r as [|arrival events ed_time]; [contradiction|].
      cbn in Hr. rewrite Hs. destruct streaming.
      * destruct Hr as [Hc Hne]. unfold Online.response.
        destruct (consume_chunks_from_none t events Hc Hne) as [ttft ->].
        cbn. discriminate.
      * cbn. discriminate.
    + rewrite Ew. discriminate.
    + exfalso. now apply (Hw e').
Qed.

Lemma local_step_keeps_alive (traces : list trace) (start_time : Q)
    (a : Local.action) (s : Local.state) :
  Forall generated (consumer_replies [a]) ->
  (forall e, Local.pc s <> Local.Crashed e) ->
  forall e, Local.pc (Local.step traces start_time s a) <> Local.Crashed e.
Proof.
  intros Hg Hpc e. destruct a as [current_time|r]; cbn.
  - unfold Local.producer_step.
    destruct (Local.producer_returned s);
      [|destruct (traces !! Local.idx s) as [tr|];
        [destruct (Qle_bool _ _)|]]; cbn; apply Hpc.
  - cbn in Hg. apply Forall_inv in Hg. rename Hg into Hr.
    unfold Local.consumer_step.
    destruct (Local.pc s) as [|receive_time text| | | |e'] eqn:Epc.
    + destruct (Local.real_time_requests s) as [|[rt txt] rest]; cbn;
        discriminate.
    + destruct r as [out ed_time|]; [|contradiction].
      destruct (Local.sample receive_time out ed_time). cbn. discriminate.
    + destruct (Local.conn s); cbn; discriminate.
    + destruct (Local.is_sending_end s);
        [destruct (Local.real_time_requests s)|]; cbn; discriminate.
    + rewrite Epc. discriminate.
    + exfalso. now apply (Hpc e').
Qed.

Lemma local_run_keeps_alive (traces : list trace) (start_time : Q)
    (schedule : list Local.action) (s : Local.state) :
  Forall generated (consumer_replies schedule) ->
  (forall e, Local.pc s <> Local.Crashed e) ->
  forall e, Local.pc (Local.run traces start_time schedule s)
            <> Local.Crashed e.
Proof.
  revert s. induction schedule as [|a schedule IH]; intros s Hg Hs;
    [exact Hs|].
  change (Local.run traces start_time (a :: schedule) s)
    with (Local.run traces start_time schedule
            (Local.step traces start_time s a)).
  cbn in Hg. apply Forall_app in Hg. destruct Hg as [Ha Hrest].
  apply IH; [exact Hrest|].
  apply local_step_keeps_alive; [|exact Hs].
  cbn. now rewrite app_nil_r.
Qed.

Lemma online_run_keeps_alive `{Library} (streaming : bool)
    (schedule : list Online.action) (s : Online.server) :
  Forall (good_reply streaming) (worker_replies schedule) ->
  Online.streaming s = streaming ->
  (forall e, Online.worker s <> Online.Died e) ->
  forall e, Online.worker (Online.run schedule s) <> Online.Died e.
Proof.
  revert s. induction schedule as [|a schedule IH]; intros s Hg Hst Hs;
    [exact Hs|].
  change (Online.run (a :: schedule) s)
    with (Online.run schedule (Online.step s a)).
  cbn in Hg. apply Forall_app in Hg. destruct Hg as [Ha Hrest].
  apply IH; [exact Hrest| |].
  - now rewrite online_streaming_step.
  - apply (online_step_keeps_alive streaming); [exact Hst| |exact Hs].
    cbn. now rewrite app_nil_r.
Qed.

(** X7: the executor ends on an exception only if the backend fails. In
    every schedule whose backend replies are all successful ([generate]
    returns; the endpoint answers, with a complete stream of at least one
    chunk when streaming) the in-process consumer never crashes and the
    remote worker never dies, however the threads interleave. *)
Theorem executor_survives_good_replies :
  (forall (traces : list trace) (start_time : Q)
          (schedule : list Local.action) (e : exn),
      Forall generated (consumer_replies schedule) ->
      Local.pc (Local.run traces start_time schedule Local.init)
      <> Local.Crashed e) /\
  (forall (L : Library) (streaming : bool)
          (m0 : OnlineMetrics.RAGPulseMetrics) (w : world)
          (prog : list Online.call) (schedule : list Online.action) (e : exn),
      Forall (good_reply streaming) (worker_replies schedule) ->
      Online.worker (Online.run schedule (Online.init streaming m0 w prog))
      <> Online.Died e).
Proof.
  split.
  - intros traces start_time schedule e Hg.
    apply local_run_keeps_alive; [exact Hg|]. intros e'. discriminate.
  - intros L streaming m0 w prog schedule e Hg.
    apply (online_run_keeps_alive streaming); [exact Hg|reflexivity|].
    intros e'. discriminate.
Qed.

Lemma four_chunks_good (t : Q) : good_reply true (Scenario.four_chunks t).
Proof. cbn. split; [repeat constructor; discriminate | discriminate]. Qed.

Lemma executor_survives_good_replies_witness :
  Local.pc (Local.run Scenario.two_traces 0 good_local_schedule Local.init)
  <> Local.Crashed BackendError /\
  Online.worker
    (Online.run (H := Demo.library) good_online_schedule
       (Online.init true Scenario.sink0 Demo.world0 Scenario.main_py))
  <> Online.Died BackendError.
Proof.
  split.
  - apply (proj1 executor_survives_good_replies).
    repeat constructor.
  - apply (proj2 executor_survives_good_replies Demo.library true).
    repeat (constructor; [apply four_chunks_good|]). constructor.
Defined.

(** ** A run without [close], a run with factor zero *)

Lemma no_signal_count (l : list Online.item) :
  OnlineInv.no_signal l ->
  filter (fun it => Online.is_signal it = true) l = [].
Proof.
  induction 1 as [|it l Hit _ IH]; [reflexivity|].
  rewrite filter_cons_False by congruence. exact IH.
Qed.

Lemma only_runs_step `{Library} (a : Online.action) (s : Online.server) :
  only_runs (Online.program s) /\
  Online.main s <> Online.Joining /\
  OnlineInv.no_signal (Online.put s) ->
  only_runs (Online.program (Online.step s a)) /\
  Online.main (Online.step s a) <> Online.Joining /\
  OnlineInv.no_signal (Online.put (Online.step s a)).
Proof.
  intros (Hp & Hm & Hn). destruct a as [now|r]; cbn.
  - unfold Online.main_step.
    destruct (Online.main s) as [|traces k start_time i| |e'] eqn:Em.
    + destruct (Online.program s) as [|[traces k| |] rest] eqn:Ep; cbn.
      * rewrite Em, Ep. repeat split; [constructor|discriminate|exact Hn].
      * inversion Hp; subst. repeat split; [assumption|discriminate|exact Hn].
      * inversion Hp; subst. contradiction.
      * inversion Hp; subst. contradiction.
    + destruct (traces !! i) as [tr|];
        [destruct (k =? 0)%Z; [|destruct (Qle_bool _ _)]|]; cbn;
        rewrite ?Em; repeat split; try assumption; try discriminate.
      apply no_signal_app. split; [exact Hn|].
      constructor; [reflexivity|constructor].
    + congruence.
    + rewrite Em. repeat split; [assumption|discriminate|assumption].
  - unfold Online.worker_step.
    destruct (Online.worker s) as [|text t| |e'].
    + destruct (Online.request_queue s) as [|[text t|] rest]; cbn;
        repeat split; assumption.
    + destruct (Online.response _ _ _ _ _); cbn; repeat split; assumption.
    + repeat split; assumption.
    + repeat split; assumption.
Qed.

(** X8: the worker thread exits only through [close]. If the calls made
    on the server are [run]s alone, then in no state of any schedule has
    an end signal been put, and the worker has not exited: it stays
    blocked in [get] once the queue is drained. *)
Theorem worker_never_exits_without_close `{Library} (streaming : bool)
    (m0 : OnlineMetrics.RAGPulseMetrics) (w : world)
    (prog : list Online.call) (s : Online.server) :
  only_runs prog ->
  online_reachable streaming m0 w prog s ->
  Online.worker s <> Online.Exited /\
  Online.signals_put s = 0%nat /\
  OnlineInv.no_signal (Online.request_queue s).
Proof.
  intros Hp [schedule ->].
  pose proof (online_inv_run m0 schedule _
                (online_inv_init m0 streaming w prog)) as [I1 _ _ _ I5 _].
  assert (Hq : forall s0,
             only_runs (Online.program s0) /\
             Online.main s0 <> Online.Joining /\
             OnlineInv.no_signal (Online.put s0) ->
             OnlineInv.no_signal (Online.put (Online.run schedule s0))).
  { clear. induction schedule as [|a schedule IH]; intros s0 Hs0.
    - apply Hs0.
    - change (Online.run (a :: schedule) s0)
        with (Online.run schedule (Online.step s0 a)).
      apply IH. now apply only_runs_step. }
  specialize (Hq (Online.init streaming m0 w prog)).
  assert (Hn : OnlineInv.no_signal
                 (Online.put (Online.run schedule
                                (Online.init streaming m0 w prog)))).
  { apply Hq. repeat split; [exact Hp|discriminate|constructor]. }
  repeat split.
  - intros Hw. destruct (I5 Hw) as (reqs & Eg & _).
    rewrite I1, Eg in Hn. apply no_signal_app in Hn. destruct Hn as [Hn _].
    apply no_signal_app in Hn. destruct Hn as [_ Hn].
    inversion Hn as [|? ? Hx _]. discriminate.
  - unfold Online.signals_put. now rewrite (no_signal_count _ Hn).
  - rewrite I1 in Hn. now apply no_signal_app in Hn.
Qed.

Lemma worker_never_exits_without_close_witness :
  Online.worker run_only_final <> Online.Exited /\
  Online.signals_put run_only_final = 0%nat.
Proof.
  assert (Ro : online_reachable (H := Demo.library) true Scenario.sink0
                 Demo.world0 [Online.Run Scenario.two_traces 10]
                 run_only_final)
    by (exists (take 7 Scenario.main_py_schedule); reflexivity).
  assert (Hp : only_runs [Online.Run Scenario.two_traces 10])
    by (repeat constructor).
  destruct (worker_never_exits_without_close _ _ _ _ _ Hp Ro) as (Hw & Hs & _).
  exact (conj Hw Hs).
Defined.

Lemma online_failed_run `{Library} (schedule : list Online.action)
    (s : Online.server) (e : exn) :
  Online.main s = Online.Failed e ->
  Online.main (Online.run schedule s) = Online.Failed e /\
  Online.put (Online.run schedule s) = Online.put s /\
  Online.program (Online.run schedule s) = Online.program s.
Proof.
  revert s. induction schedule as [|a schedule IH]; intros s Hm.
  - repeat split. exact Hm.
  - change (Online.run (a :: schedule) s)
      with (Online.run schedule (Online.step s a)).
    assert (Hstep : Online.main (Online.step s a) = Online.Failed e /\
                    Online.put (Online.step s a) = Online.put s /\
                    Online.program (Online.step s a) = Online.program s).
    { destruct a as [now|r]; cbn.
      - unfold Online.main_step. rewrite Hm. repeat split. exact Hm.
      - unfold Online.worker_step.
        destruct (Online.worker s) as [|text t| |e'].
        + destruct (Online.request_queue s) as [|[text t|] rest]; cbn;
            repeat split; exact Hm.
        + destruct (Online.response _ _ _ _ _); cbn; repeat split; exact Hm.
        + repeat split. exact Hm.
        + repeat split. exact Hm. }
    destruct Hstep as (H1 & H2 & H3).
    destruct (IH _ H1) as (K1 & K2 & K3).
    repeat split; congruence.
Qed.

(** X9: a scale factor of zero is not rejected up front. [run(traces, 0)]
    raises [ZeroDivisionError] at the first loop test when there is a
    trace, before anything is put in the queue, and the exception leaves
    [run]: the calls written after it (the [close] of [main.py]) are not
    reached. On an empty trace list the same call returns without an
    error. *)
Theorem zero_scale_factor `{Library} (s : Online.server)
    (traces : list trace) (rest : list Online.call) (t1 t2 : Q) :
  Online.main s = Online.Idle ->
  Online.program s = Online.Run traces 0 :: rest ->
  (traces <> [] ->
   forall schedule : list Online.action,
     Online.main (Online.run (Online.Main t1 :: Online.Main t2 :: schedule) s)
     = Online.Failed ZeroDivisionError /\
     Online.put (Online.run (Online.Main t1 :: Online.Main t2 :: schedule) s)
     = Online.put s /\
     Online.program
       (Online.run (Online.Main t1 :: Online.Main t2 :: schedule) s)
     = rest) /\
  (traces = [] ->
   Online.main (Online.run [Online.Main t1; Online.Main t2] s) = Online.Idle /\
   Online.put (Online.run [Online.Main t1; Online.Main t2] s) = Online.put s /\
   Online.program (Online.run [Online.Main t1; Online.Main t2] s) = rest).
Proof.
  intros Hm Hp. split.
  - intros Hne schedule.
    change (Online.run (Online.Main t1 :: Online.Main t2 :: schedule) s)
      with (Online.run schedule
              (Online.main_step t2 (Online.main_step t1 s))).
    destruct traces as [|tr traces]; [congruence|].
    assert (H2 : Online.main (Online.main_step t2 (Online.main_step t1 s))
                 = Online.Failed ZeroDivisionError /\
                 Online.put (Online.main_step t2 (Online.main_step t1 s))
                 = Online.put s /\
                 Online.program (Online.main_step t2 (Online.main_step t1 s))
                 = rest).
    { assert (E1 : Online.main_step t1 s
                   = Online.main_step t1 s) by reflexivity.
      unfold Online.main_step at 2 in E1. rewrite Hm, Hp in E1.
      rewrite E1. unfold Online.main_step. cbn [Online.main].
      change ((tr :: traces) !! 0%nat) with (Some tr).
      cbn. repeat split. }
    destruct H2 as (H1 & H2 & H3).
    destruct (online_failed_run schedule _ _ H1) as (K1 & K2 & K3).
    repeat split; congruence.
  - intros ->.
    change (Online.run [Online.Main t1; Online.Main t2] s)
      with (Online.main_step t2 (Online.main_step t1 s)).
    assert (E1 : Online.main_step t1 s = Online.main_step t1 s)
      by reflexivity.
    unfold Online.main_step at 2 in E1. rewrite Hm, Hp in E1.
    rewrite E1. unfold Online.main_step. cbn [Online.main].
    change (@nil trace !! 0%nat) with (@None trace).
    cbn. repeat split.
Qed.

Lemma zero_scale_factor_witness :
  Online.main
    (Online.run (H := Demo.library)
       (Online.Main 0 :: Online.Main 0 :: drop 2 Scenario.main_py_schedule)
       before_zero_run)
  = Online.Failed ZeroDivisionError.
Proof.
  destruct (@zero_scale_factor Demo.library before_zero_run
              Scenario.two_traces [Online.Close] 0 0 eq_refl eq_refl)
    as [Hfail _].
  apply Hfail. discriminate.
Defined.

(** ** A whole run, one thread after the other *)

Lemma local_run_app (traces : list trace) (start_time : Q)
    (l1 l2 : list Local.action) (s : Local.state) :
  Local.run traces start_time (l1 ++ l2) s
  = Local.run traces start_time l2 (Local.run traces start_time l1 s).
Proof. unfold Local.run. now rewrite fold_left_app. Qed.

Lemma local_producer_burst (traces : list trace) (start_time now : Q) :
  Forall (fun tr => Local.due_time tr <= now - start_time) traces ->
  forall (k : nat) (s : Local.state),
    Local.producer_returned s = false ->
    (Local.idx s + k = length traces)%nat ->
    let s' := Local.run traces start_time (repeat (Local.Producer now) k) s in
    Local.idx s' = length traces /\
    Local.producer_returned s' = false /\
    Local.real_time_requests s'
    = Local.real_time_requests s
      ++ map (fun tr => (now, input_text tr)) (drop (Local.idx s) traces) /\
    Local.conn s' = Local.conn s /\
    Local.pc s' = Local.pc s /\
    Local.TTFTs s' = Local.TTFTs s /\
    Local.TPOTs s' = Local.TPOTs s /\
    Local.is_sending_end s' = Local.is_sending_end s.
Proof.
  intros Hdue k. induction k as [|k IH]; intros s Hr Hk s'; subst s'.
  - cbn. rewrite drop_ge by lia. cbn. rewrite app_nil_r.
    repeat split; try assumption. lia.
  - cbn [repeat].
    change (Local.run traces start_time
              (Local.Producer now :: repeat (Local.Producer now) k) s)
      with (Local.run traces start_time (repeat (Local.Producer now) k)
              (Local.producer_step traces start_time now s)).
    destruct (traces !! Local.idx s) as [tr|] eqn:Et;
      [|apply lookup_ge_None in Et; lia].
    assert (Hd : Qle_bool (Local.due_time tr) (now - start_time) = true).
    { apply Qle_bool_iff.
      exact (Forall_lookup_1 _ _ _ _ Hdue Et). }
    assert (Es : Local.producer_step traces start_time now s
                 = Local.producer_step traces start_time now s)
      by reflexivity.
    unfold Local.producer_step at 2 in Es. rewrite Hr, Et, Hd in Es.
    rewrite Es. clear Es.
    match goal with |- context [Local.run _ _ _ ?s1] =>
      destruct (IH s1 eq_refl) as (K1 & K2 & K3 & K4 & K5 & K6 & K7 & K8)
    end.
    { cbn. lia. }
    cbn in K3, K4, K5, K6, K7, K8.
    repeat split; try assumption.
    rewrite K3, (drop_S _ _ _ Et). cbn. now rewrite <- app_assoc.
Qed.

Lemma local_answer_one (out : Local.request_output) (ed_time : Q)
    (s : Local.state) (receive_time : Q) (text : string)
    (rest : list (Q * string)) :
  Local.pc s = Local.AtTop ->
  Local.real_time_requests s = (receive_time, text) :: rest ->
  let s' := Local.consumer_step (Local.Generated out ed_time)
              (Local.consumer_step (Local.Generated out ed_time) s) in
  Local.pc s' = Local.AtTop /\
  Local.real_time_requests s' = rest /\
  Local.TTFTs s'
  = Local.TTFTs s ++ [fst (Local.sample receive_time out ed_time)] /\
  Local.TPOTs s'
  = Local.TPOTs s ++ [snd (Local.sample receive_time out ed_time)] /\
  Local.conn s' = Local.conn s /\
  Local.producer_returned s' = Local.producer_returned s /\
  Local.is_sending_end s' = Local.is_sending_end s.
Proof.
  intros Hpc Hq. destruct s. cbn in Hpc, Hq. subst.
  unfold Local.consumer_step. cbn.
  destruct (Local.sample receive_time out ed_time). cbn. repeat split.
Qed.

Lemma local_consumer_drain (traces : list trace) (start_time now : Q) :
  forall (replies : list (Local.request_output * Q)) (texts : list string)
         (s : Local.state),
    length texts = length replies ->
    Local.pc s = Local.AtTop ->
    Local.real_time_requests s = map (fun txt => (now, txt)) texts ->
    let s' :=
      Local.run traces start_time
        (flat_map
           (fun r => [ Local.Consumer (Local.Generated (fst r) (snd r));
                       Local.Consumer (Local.Generated (fst r) (snd r)) ])
           replies) s in
    Local.pc s' = Local.AtTop /\
    Local.real_time_requests s' = [] /\
    Local.TTFTs s'
    = Local.TTFTs s ++ map fst (Sequential.local_samples now replies) /\
    Local.TPOTs s'
    = Local.TPOTs s ++ map snd (Sequential.local_samples now replies) /\
    Local.conn s' = Local.conn s /\
    Local.producer_returned s' = Local.producer_returned s /\
    Local.is_sending_end s' = Local.is_sending_end s.
Proof.
  induction replies as [|[out ed_time] replies IH];
    intros texts s Hlen Hpc Hq s'; subst s'.
  - destruct texts; [|discriminate]. cbn in *. rewrite !app_nil_r.
    repeat split; assumption.
  - destruct texts as [|txt texts]; [discriminate|].
    cbn [flat_map app fst snd].
    match goal with |- context [Local.run _ _ (_ :: _ :: ?rest) s] =>
      change (Local.run traces start_time
                (Local.Consumer (Local.Generated out ed_time)
                 :: Local.Consumer (Local.Generated out ed_time) :: rest) s)
        with (Local.run traces start_time rest
                (Local.consumer_step (Local.Generated out ed_time)
                   (Local.consumer_step (Local.Generated out ed_time) s)))
    end.
    destruct (local_answer_one out ed_time s now txt
                (map (fun t => (now, t)) texts) Hpc Hq)
      as (A1 & A2 & A3 & A4 & A5 & A6 & A7).
    set (s2 := Local.consumer_step (Local.Generated out ed_time)
                 (Local.consumer_step (Local.Generated out ed_time) s)) in *.
    destruct (IH texts s2) as (K1 & K2 & K3 & K4 & K5 & K6 & K7);
      [cbn in Hlen; lia | exact A1 | exact A2 |].
    unfold Sequential.local_samples in *. cbn [map fst snd].
    rewrite K3, K4, K5, K6, K7, A3, A4, A5, A6, A7.
    rewrite <- !app_assoc. repeat split; assumption.
Qed.

Lemma local_send_end (traces : list trace) (start_time now : Q)
    (s : Local.state) :
  Local.producer_returned s = false ->
  Local.idx s = length traces ->
  let s' := Local.producer_step traces start_time now s in
  Local.producer_returned s' = true /\
  Local.conn s' = Local.conn s ++ [Local.IS_END] /\
  Local.real_time_requests s' = Local.real_time_requests s /\
  Local.pc s' = Local.pc s /\
  Local.TTFTs s' = Local.TTFTs s /\
  Local.TPOTs s' = Local.TPOTs s /\
  Local.is_sending_end s' = Local.is_sending_end s.
Proof.
  intros Hr Hi. unfold Local.producer_step.
  rewrite Hr, Hi, (lookup_ge_None_2 traces (length traces)) by lia.
  cbn. repeat split.
Qed.

Lemma local_exit_steps (s : Local.state) (r1 r2 r3 : Local.generate_reply) :
  Local.pc s = Local.AtTop ->
  Local.real_time_requests s = [] ->
  Local.conn s = [Local.IS_END] ->
  let s' := Local.consumer_step r3
              (Local.consumer_step r2 (Local.consumer_step r1 s)) in
  Local.pc s' = Local.Returned /\
  Local.TTFTs s' = Local.TTFTs s /\
  Local.TPOTs s' = Local.TPOTs s /\
  Local.producer_returned s' = Local.producer_returned s.
Proof.
  intros Hpc Hq Hc. destruct s. cbn in Hpc, Hq, Hc. subst.
  cbn. repeat split.
Qed.

(** X10: [run_real_time] returns one sample per trace. When the producer
    appends all [n] traces (each due at the reading [now]) and signals the
    end before the consumer starts, and [generate] answers every request,
    both threads finish and the call returns [n] TTFTs and [n] TPOTs, the
    i-th pair being the sample of the i-th trace: first token time minus
    [now], and generation time per token. *)
Theorem run_real_time_returns (traces : list trace) (start_time now : Q)
    (replies : list (Local.request_output * Q)) :
  Forall (fun tr => Local.due_time tr <= now - start_time) traces ->
  length replies = length traces ->
  Local.outcome
    (Local.run traces start_time
       (Sequential.local_schedule (length traces) now replies) Local.init)
  = Some (Ok (map fst (Sequential.local_samples now replies),
              map snd (Sequential.local_samples now replies))) /\
  length (Sequential.local_samples now replies) = length traces.
Proof.
  intros Hdue Hlen. split;
    [|unfold Sequential.local_samples; now rewrite length_map].
  unfold Sequential.local_schedule.
  change (repeat (Local.Producer now) (S (length traces)))
    with (Local.Producer now :: repeat (Local.Producer now) (length traces)).
  rewrite repeat_cons, <- !app_assoc, !local_run_app.
  destruct (local_producer_burst traces start_time now Hdue
              (length traces) Local.init eq_refl eq_refl)
    as (B1 & B2 & B3 & B4 & B5 & B6 & B7 & B8).
  rewrite drop_0 in B3.
  set (s1 := Local.run traces start_time
               (repeat (Local.Producer now) (length traces)) Local.init) in *.
  change (Local.run traces start_time [Local.Producer now] s1)
    with (Local.producer_step traces start_time now s1).
  destruct (local_send_end traces start_time now s1 B2 B1)
    as (E1 & E2 & E3 & E4 & E5 & E6 & E7).
  set (s2 := Local.producer_step traces start_time now s1) in *.
  destruct (local_consumer_drain traces start_time now replies
              (map input_text traces) s2)
    as (D1 & D2 & D3 & D4 & D5 & D6 & D7).
  { now rewrite length_map. }
  { now rewrite E4, B5. }
  { rewrite E3, B3, map_map. reflexivity. }
  match goal with |- context [Local.run _ _ (repeat _ 3) ?x] =>
    set (s3 := x) in *
  end.
  change (Local.run traces start_time
            (repeat (Local.Consumer Local.GenerateRaises) 3) s3)
    with (Local.consumer_step Local.GenerateRaises
            (Local.consumer_step Local.GenerateRaises
               (Local.consumer_step Local.GenerateRaises s3))).
  destruct (local_exit_steps s3 Local.GenerateRaises Local.GenerateRaises
              Local.GenerateRaises D1 D2)
    as (F1 & F2 & F3 & F4).
  { now rewrite D5, E2, B4. }
  unfold Local.outcome. rewrite F1, F4, D6, E1, F2, F3, D3, D4, E5, E6, B6, B7.
  reflexivity.
Qed.

Lemma run_real_time_returns_witness :
  Local.outcome
    (Local.run Scenario.two_traces 0
       (Sequential.local_schedule (length Scenario.two_traces) 100
          [ (Scenario.vllm_output 100, 100 + (1 # 5));
            (Scenario.vllm_output 100, 100 + (1 # 5)) ])
       Local.init)
  = Some (Ok (map fst (Sequential.local_samples 100
                         [ (Scenario.vllm_output 100, 100 + (1 # 5));
                           (Scenario.vllm_output 100, 100 + (1 # 5)) ]),
              map snd (Sequential.local_samples 100
                         [ (Scenario.vllm_output 100, 100 + (1 # 5));
                           (Scenario.vllm_output 100, 100 + (1 # 5)) ]))).
Proof.
  apply (run_real_time_returns Scenario.two_traces 0 100).
  - repeat (constructor; [vm_compute; discriminate|]). constructor.
  - reflexivity.
Defined.

Lemma online_run_app (l1 l2 : list Online.action) `{Library}
    (s : Online.server) :
  Online.run (l1 ++ l2) s = Online.run l2 (Online.run l1 s).
Proof. unfold Online.run. now rewrite fold_left_app. Qed.

Lemma online_put_burst `{Library} (traces : list trace) (k : Z)
    (start_time now : Q) :
  k <> 0%Z ->
  Forall (fun tr => Online.scaled tr k <= now - start_time) traces ->
  forall (j i : nat) (s : Online.server),
    Online.main s = Online.Running traces k start_time i ->
    (i + j = length traces)%nat ->
    let s' := Online.run (repeat (Online.Main now) j) s in
    Online.main s' = Online.Running traces k start_time (length traces) /\
    Online.request_queue s'
    = Online.request_queue s
      ++ map (fun tr => Online.Request (input_text tr) now) (drop i traces) /\
    Online.worker s' = Online.worker s /\
    Online.metrics s' = Online.metrics s /\
    Online.outside s' = Online.outside s /\
    Online.program s' = Online.program s /\
    Online.streaming s' = Online.streaming s.
Proof.
  intros Hk Hdue j. induction j as [|j IH]; intros i s Hm Hi s'; subst s'.
  - cbn. rewrite drop_ge by lia. cbn. rewrite app_nil_r.
    assert (i = length traces) as -> by lia. repeat split. exact Hm.
  - change (Online.run (repeat (Online.Main now) (S j)) s)
      with (Online.run (repeat (Online.Main now) j) (Online.main_step now s)).
    destruct (traces !! i) as [tr|] eqn:Et;
      [|apply lookup_ge_None in Et; lia].
    assert (Hd : Qle_bool (Online.scaled tr k) (now - start_time) = true).
    { apply Qle_bool_iff. exact (Forall_lookup_1 _ _ _ _ Hdue Et). }
    assert (Hz : (k =? 0)%Z = false) by now apply Z.eqb_neq.
    assert (Es : Online.main_step now s = Online.main_step now s)
      by reflexivity.
    unfold Online.main_step at 2 in Es. rewrite Hm, Et, Hz, Hd in Es.
    set (s1 := Online.main_step now s) in *. clearbody s1.
    destruct (IH (S i) s1) as (K1 & K2 & K3 & K4 & K5 & K6 & K7).
    { rewrite Es. reflexivity. }
    { lia. }
    split; [exact K1|].
    rewrite K2, K3, K4, K5, K6, K7. rewrite Es. cbn.
    rewrite (drop_S _ _ _ Et). cbn. rewrite <- app_assoc.
    repeat split.
Qed.

Lemma online_answer_one (r : Online.reply) (s : Online.server)
    (text : string) (receive_time : Q) (rest : list Online.item) :
  Online.worker s = Online.Waiting ->
  Online.streaming s = true ->
  Online.request_queue s = Online.Request text receive_time :: rest ->
  good_reply true r ->
  let s' := Online.worker_step r (Online.worker_step r s) in
  Online.worker s' = Online.Waiting /\
  Online.request_queue s' = rest /\
  OnlineMetrics.TTFTs (Online.metrics s')
  = OnlineMetrics.TTFTs (Online.metrics s)
    ++ [Sequential.reply_ttft receive_time r] /\
  OnlineMetrics.TPOTs (Online.metrics s')
  = OnlineMetrics.TPOTs (Online.metrics s)
    ++ [Sequential.reply_tpot receive_time r] /\
  OnlineMetrics.metric_name (Online.metrics s')
  = OnlineMetrics.metric_name (Online.metrics s) /\
  OnlineMetrics.metric_dir (Online.metrics s')
  = OnlineMetrics.metric_dir (Online.metrics s) /\
  Online.main s' = Online.main s /\
  Online.program s' = Online.program s /\
  Online.outside s' = Online.outside s /\
  Online.streaming s' = true.
Proof.
  intros Hw Hs Hq Hg. destruct s. cbn in Hw, Hs, Hq. subst.
  destruct r as [|arrival events ed_time]; [contradiction|].
  destruct Hg as [Hc Hne].
  destruct events as [|[cur_time content|] events]; [congruence| |].
  2:{ inversion Hc; congruence. }
  inversion Hc as [|? ? _ Hc']; subst.
  unfold Online.worker_step. cbn [Online.worker Online.request_queue].
  cbn [Online.dequeue Online.worker Online.streaming Online.metrics].
  unfold Online.response. cbn [Online.consume_chunks].
  rewrite consume_chunks_from_float by assumption.
  cbv beta iota. rewrite add_metrics_unfold. cbn.
  repeat split.
Qed.

Lemma online_worker_drain `{Library} (now : Q) :
  forall (replies : list Online.reply) (texts : list string)
         (tail : list Online.item) (s : Online.server),
    length texts = length replies ->
    Forall (good_reply true) replies ->
    Online.worker s = Online.Waiting ->
    Online.streaming s = true ->
    Online.request_queue s
    = map (fun txt => Online.Request txt now) texts ++ tail ->
    let s' :=
      Online.run
        (flat_map (fun r => [Online.Worker r; Online.Worker r]) replies) s in
    Online.worker s' = Online.Waiting /\
    Online.request_queue s' = tail /\
    OnlineMetrics.TTFTs (Online.metrics s')
    = OnlineMetrics.TTFTs (Online.metrics s)
      ++ map (Sequential.reply_ttft now) replies /\
    OnlineMetrics.TPOTs (Online.metrics s')
    = OnlineMetrics.TPOTs (Online.metrics s)
      ++ map (Sequential.reply_tpot now) replies /\
    OnlineMetrics.metric_name (Online.metrics s')
    = OnlineMetrics.metric_name (Online.metrics s) /\
    OnlineMetrics.metric_dir (Online.metrics s')
    = OnlineMetrics.metric_dir (Online.metrics s) /\
    Online.main s' = Online.main s /\
    Online.program s' = Online.program s /\
    Online.outside s' = Online.outside s /\
    Online.streaming s' = true.
Proof.
  induction replies as [|r replies IH];
    intros texts tail s Hlen Hg Hw Hs Hq s'; subst s'.
  - destruct texts; [|discriminate]. cbn in *. rewrite !app_nil_r.
    repeat split; assumption.
  - destruct texts as [|txt texts]; [discriminate|].
    inversion Hg as [|? ? Hr Hg']; subst.
    cbn [flat_map app].
    match goal with |- context [Online.run (_ :: _ :: ?rest) s] =>
      change (Online.run (Online.Worker r :: Online.Worker r :: rest) s)
        with (Online.run rest
                (Online.worker_step r (Online.worker_step r s)))
    end.
    destruct (online_answer_one r s txt now
                (map (fun t => Online.Request t now) texts ++ tail)
                Hw Hs Hq Hr)
      as (A1 & A2 & A3 & A4 & A5 & A6 & A7 & A8 & A9 & A10).
    set (s2 := Online.worker_step r (Online.worker_step r s)) in *.
    clearbody s2.
    destruct (IH texts tail s2)
      as (K1 & K2 & K3 & K4 & K5 & K6 & K7 & K8 & K9 & K10);
      [cbn in Hlen; lia | exact Hg' | exact A1 | exact A10 | exact A2 |].
    cbn [map].
    rewrite K3, K4, K5, K6, K7, K8, K9, A3, A4, A5, A6, A7, A8, A9.
    rewrite <- !app_assoc. repeat split; assumption.
Qed.

Lemma online_start_run `{Library} (t0 : Q) (s : Online.server)
    (traces : list trace) (k : Z) (rest : list Online.call) :
  Online.main s = Online.Idle ->
  Online.program s = Online.Run traces k :: rest ->
  let s' := Online.main_step t0 s in
  Online.main s' = Online.Running traces k t0 0 /\
  Online.program s' = rest /\
  Online.request_queue s' = Online.request_queue s /\
  Online.worker s' = Online.worker s /\
  Online.metrics s' = Online.metrics s /\
  Online.outside s' = Online.outside s /\
  Online.streaming s' = Online.streaming s.
Proof.
  intros Hm Hp. unfold Online.main_step. rewrite Hm, Hp. cbn. repeat split.
Qed.

Lemma online_finish_run_and_close `{Library} (t1 t2 : Q) (s : Online.server)
    (traces : list trace) (k : Z) (start_time : Q) (rest : list Online.call) :
  Online.main s = Online.Running traces k start_time (length traces) ->
  Online.program s = Online.Close :: rest ->
  let s' := Online.main_step t2 (Online.main_step t1 s) in
  Online.main s' = Online.Joining /\
  Online.program s' = rest /\
  Online.request_queue s'
  = Online.request_queue s ++ [Online.OnlineServerEndSignal] /\
  Online.worker s' = Online.worker s /\
  Online.metrics s' = Online.metrics s /\
  Online.outside s' = Online.outside s /\
  Online.streaming s' = Online.streaming s.
Proof.
  intros Hm Hp.
  assert (E1 : Online.main_step t1 s = Online.with_main Online.Idle s).
  { unfold Online.main_step.
    now rewrite Hm, (lookup_ge_None_2 traces (length traces)) by lia. }
  cbv zeta. rewrite E1. unfold Online.main_step. cbn. rewrite Hp. cbn.
  repeat split.
Qed.

Lemma online_exit_and_save `{Library} (r : Online.reply) (now : Q)
    (s : Online.server) (name : string) :
  Online.worker s = Online.Waiting ->
  Online.request_queue s = [Online.OnlineServerEndSignal] ->
  Online.main s = Online.Joining ->
  OnlineMetrics.metric_name (Online.metrics s) = Some name ->
  OnlineMetrics.metric_dir (Online.metrics s) ∈ dirs (Online.outside s) ->
  let s' := Online.main_step now (Online.worker_step r s) in
  Online.worker s' = Online.Exited /\
  Online.main s' = Online.Idle /\
  Online.request_queue s' = [] /\
  Online.program s' = Online.program s /\
  Online.metrics s' = Online.metrics s /\
  files (Online.outside s')
  = <[os_path_join (OnlineMetrics.metric_dir (Online.metrics s)) name :=
        json_dump (OnlineMetrics.metrics_summary (Online.metrics s))]>
      (files (Online.outside s)) /\
  dirs (Online.outside s') = dirs (Online.outside s).
Proof.
  intros Hw Hq Hm Hn Hd. destruct s. cbn in Hw, Hq, Hm, Hn, Hd. subst.
  unfold Online.worker_step. cbn. unfold Online.main_step. cbn.
  rewrite (save_metrics_ok _ _ name Hn Hd). cbn. repeat split.
Qed.

Lemma online_close_again `{Library} (t1 t2 : Q) (s : Online.server)
    (name : string) (rest : list Online.call) :
  Online.worker s = Online.Exited ->
  Online.main s = Online.Idle ->
  Online.program s = Online.Del :: rest ->
  OnlineMetrics.metric_name (Online.metrics s) = Some name ->
  OnlineMetrics.metric_dir (Online.metrics s) ∈ dirs (Online.outside s) ->
  let s' := Online.main_step t2 (Online.main_step t1 s) in
  Online.worker s' = Online.Exited /\
  Online.main s' = Online.Idle /\
  Online.request_queue s'
  = Online.request_queue s ++ [Online.OnlineServerEndSignal] /\
  Online.program s' = rest /\
  Online.metrics s' = Online.metrics s /\
  files (Online.outside s')
  = <[os_path_join (OnlineMetrics.metric_dir (Online.metrics s)) name :=
        json_dump (OnlineMetrics.metrics_summary (Online.metrics s))]>
      (files (Online.outside s)).
Proof.
  intros Hw Hm Hp Hn Hd. destruct s. cbn in Hw, Hm, Hp, Hn, Hd. subst.
  unfold Online.main_step. cbn.
  rewrite (save_metrics_ok _ _ name Hn Hd). cbn. repeat split.
Qed.

(** X11: [main.py] of the remote variant runs to completion, and its
    destructor leaves a signal behind. For every trace list and scale
    factor [k <> 0], a sink that has its file name and whose directory
    exists, and replies that are all complete streams of at least one
    chunk: when [run(traces, k)] puts every trace (each due at the reading
    [now]), [close()] puts the end signal, the worker then answers the
    requests and exits, [join] returns and the metrics are saved, and
    [__del__] calls [close()] once more, then both threads have finished
    with no exception, the sink holds one TTFT and one TPOT per trace in
    trace order after those it started with, the file written is the dump
    of exactly that sink's summary, and the queue still holds the signal
    put by the second [close()], which nothing will take. *)
Theorem main_py_completes `{Library} (traces : list trace) (k : Z)
    (t0 now : Q) (replies : list Online.reply)
    (m0 : OnlineMetrics.RAGPulseMetrics) (w : world) (name : string) :
  k <> 0%Z ->
  Forall (fun tr => Online.scaled tr k <= now - t0) traces ->
  length replies = length traces ->
  Forall (good_reply true) replies ->
  OnlineMetrics.metric_name m0 = Some name ->
  OnlineMetrics.metric_dir m0 ∈ dirs w ->
  let s := Online.run
             (Sequential.online_schedule (length traces) t0 now replies)
             (Online.init true m0 w
                [Online.Run traces k; Online.Close; Online.Del]) in
  Online.worker s = Online.Exited /\
  Online.main s = Online.Idle /\
  Online.program s = [] /\
  Online.request_queue s = [Online.OnlineServerEndSignal] /\
  OnlineMetrics.TTFTs (Online.metrics s)
  = OnlineMetrics.TTFTs m0 ++ map (Sequential.reply_ttft now) replies /\
  OnlineMetrics.TPOTs (Online.metrics s)
  = OnlineMetrics.TPOTs m0 ++ map (Sequential.reply_tpot now) replies /\
  files (Online.outside s) !! os_path_join (OnlineMetrics.metric_dir m0) name
  = Some (json_dump (OnlineMetrics.metrics_summary (Online.metrics s))).
Proof.
  intros Hk Hdue Hlen Hgood Hname Hdir s. subst s.
  unfold Sequential.online_schedule.
  match goal with |- context [Online.run (Online.Main t0 :: ?l) ?s0] =>
    change (Online.run (Online.Main t0 :: l) s0)
      with (Online.run l (Online.main_step t0 s0))
  end.
  replace (S (S (length traces))) with (length traces + 2)%nat by lia.
  rewrite repeat_app, <- !app_assoc, !online_run_app.
  destruct (online_start_run t0
              (Online.init true m0 w
                 [Online.Run traces k; Online.Close; Online.Del])
              traces k [Online.Close; Online.Del] eq_refl eq_refl)
    as (S1 & S2 & S3 & S4 & S5 & S6 & S7).
  set (s1 := Online.main_step t0 _) in *. clearbody s1.
  destruct (online_put_burst traces k t0 now Hk Hdue (length traces) 0 s1 S1
              eq_refl)
    as (B1 & B2 & B3 & B4 & B5 & B6 & B7).
  rewrite drop_0 in B2.
  set (s2 := Online.run (repeat (Online.Main now) (length traces)) s1) in *.
  clearbody s2.
  change (Online.run (repeat (Online.Main now) 2) s2)
    with (Online.main_step now (Online.main_step now s2)).
  destruct (online_finish_run_and_close now now s2 traces k t0 [Online.Del] B1)
    as (C1 & C2 & C3 & C4 & C5 & C6 & C7).
  { now rewrite B6, S2. }
  set (s3 := Online.main_step now (Online.main_step now s2)) in *.
  clearbody s3.
  destruct (online_worker_drain now replies (map input_text traces)
              [Online.OnlineServerEndSignal] s3)
    as (D1 & D2 & D3 & D4 & D5 & D6 & D7 & D8 & D9 & D10).
  { now rewrite length_map. }
  { exact Hgood. }
  { now rewrite C4, B3, S4. }
  { now rewrite C7, B7, S7. }
  { rewrite C3, B2, S3, map_map. reflexivity. }
  set (s4 := Online.run (flat_map _ replies) s3) in *. clearbody s4.
  change (Online.run [Online.Worker Online.CreateRaises; Online.Main now] s4)
    with (Online.main_step now (Online.worker_step Online.CreateRaises s4)).
  assert (Hn4 : OnlineMetrics.metric_name (Online.metrics s4) = Some name).
  { now rewrite D5, C5, B4, S5. }
  assert (Hd4 : OnlineMetrics.metric_dir (Online.metrics s4)
                ∈ dirs (Online.outside s4)).
  { now rewrite D6, D9, C5, C6, B4, B5, S5, S6. }
  destruct (online_exit_and_save Online.CreateRaises now s4 name D1 D2)
    as (E1 & E2 & E3 & E4 & E5 & E6 & E7).
  { now rewrite D7, C1. }
  { exact Hn4. }
  { exact Hd4. }
  set (s5 := Online.main_step now _) in *. clearbody s5.
  change (Online.run [Online.Main now; Online.Main now] s5)
    with (Online.main_step now (Online.main_step now s5)).
  destruct (online_close_again now now s5 name [] E1 E2)
    as (F1 & F2 & F3 & F4 & F5 & F6).
  { now rewrite E4, D8, C2. }
  { now rewrite E5. }
  { now rewrite E5, E7. }
  set (s6 := Online.main_step now (Online.main_step now s5)) in *.
  clearbody s6.
  rewrite F5, E5, D3, D4, C5, B4, S5. cbn [Online.init Online.metrics].
  repeat split; try assumption.
  - now rewrite F3, E3.
  - rewrite F6, E5, D6, C5, B4, S5. cbn [Online.init Online.metrics].
    apply lookup_insert_eq.
Qed.

Lemma main_py_completes_witness :
  Online.request_queue
    (Online.run (H := Demo.library)
       (Sequential.online_schedule (length Scenario.two_traces) 0 100
          [Scenario.four_chunks 100; Scenario.four_chunks 100])
       (Online.init true Scenario.sink0 Demo.world0
          [Online.Run Scenario.two_traces 10; Online.Close; Online.Del]))
  = [Online.OnlineServerEndSignal].
Proof.
  assert (Hdue : Forall (fun tr => Online.scaled tr 10 <= 100 - 0)
                   Scenario.two_traces)
    by (repeat (constructor; [vm_compute; discriminate|]); constructor).
  assert (Hgood : Forall (good_reply true)
                    [Scenario.four_chunks 100; Scenario.four_chunks 100])
    by (repeat (constructor; [apply four_chunks_good|]); constructor).
  assert (Hdir : OnlineMetrics.metric_dir Scenario.sink0 ∈ dirs Demo.world0)
    by (vm_compute; set_solver).
  pose proof (@main_py_completes Demo.library Scenario.two_traces 10 0 100
                [Scenario.four_chunks 100; Scenario.four_chunks 100]
                Scenario.sink0 Demo.world0
                "rag_pulse_metrics_2025-01-01-00-00.json"
                ltac:(discriminate) Hdue eq_refl Hgood eq_refl Hdir) as Hx.
  cbv zeta in Hx. destruct Hx as (_ & _ & _ & Hq & _). exact Hq.
Defined.

(** ** Building the prompts *)

Lemma extend_all_app (d : gmap Z (list Z)) (l1 l2 acc : list Z) :
  Loader.extend_all d (l1 ++ l2) acc
  = match Loader.extend_all d l1 acc with
    | inl e => inl e
    | inr acc' => Loader.extend_all d l2 acc'
    end.
Proof.
  revert acc. induction l1 as [|id l1 IH]; intros acc; cbn; [reflexivity|].
  destruct (d !! id); [apply IH | reflexivity].
Qed.

Lemma gather_concat (d : gmap Z (list Z)) (lists : list (list Z))
    (acc : list Z) :
  Loader.gather d lists acc = Loader.extend_all d (concat lists) acc.
Proof.
  revert acc. induction lists as [|l lists IH]; intros acc; cbn;
    [reflexivity|].
  rewrite extend_all_app. destruct (Loader.extend_all d l acc); [reflexivity|].
  apply IH.
Qed.

Lemma extend_all_present (d : gmap Z (list Z)) (l acc : list Z) :
  (forall id, id ∈ l -> is_Some (d !! id)) ->
  Loader.extend_all d l acc
  = inr (acc ++ flat_map (fun id => default [] (d !! id)) l).
Proof.
  revert acc. induction l as [|id l IH]; intros acc Hall; cbn.
  - now rewrite app_nil_r.
  - destruct (Hall id) as [toks Ht]; [left|]. rewrite Ht. cbn.
    rewrite IH, app_assoc; [reflexivity|].
    intros x Hx. apply Hall. now right.
Qed.

Lemma extend_all_missing (d : gmap Z (list Z)) (pre post acc : list Z)
    (id : Z) :
  (forall x, x ∈ pre -> is_Some (d !! x)) ->
  d !! id = None ->
  Loader.extend_all d (pre ++ id :: post) acc = inl (Loader.KeyError id).
Proof.
  intros Hpre Hid. rewrite extend_all_app, (extend_all_present d pre acc Hpre).
  cbn. now rewrite Hid.
Qed.

(** X12: [simulate_token_lists_to_input_text] needs every hash id of the
    trace. If all of them are keys of the dictionary, the prompt is the
    decoding of their token lists concatenated in reading order (list by
    list, id by id, repeats included); otherwise the call raises
    [KeyError] for the first id, in that order, that is missing, and
    decodes nothing. *)
Theorem input_text_needs_every_hash_id (decode : list Z -> string)
    (hash_id_lists : list (list Z)) (hash_id_dict : gmap Z (list Z)) :
  ((forall id, id ∈ concat hash_id_lists -> is_Some (hash_id_dict !! id)) ->
   Loader.simulate_token_lists_to_input_text decode hash_id_lists hash_id_dict
   = inr (decode (flat_map (fun id => default [] (hash_id_dict !! id))
                    (concat hash_id_lists)))) /\
  (forall (pre post : list Z) (id : Z),
      concat hash_id_lists = pre ++ id :: post ->
      (forall x, x ∈ pre -> is_Some (hash_id_dict !! x)) ->
      hash_id_dict !! id = None ->
      Loader.simulate_token_lists_to_input_text decode hash_id_lists
        hash_id_dict
      = inl (Loader.KeyError id)).
Proof.
  unfold Loader.simulate_token_lists_to_input_text. split.
  - intros Hall. rewrite gather_concat, extend_all_present by assumption.
    reflexivity.
  - intros pre post id Hc Hpre Hid.
    rewrite gather_concat, Hc, extend_all_missing by assumption.
    reflexivity.
Qed.

Lemma input_text_needs_every_hash_id_witness :
  Loader.simulate_token_lists_to_input_text
    (fun toks => pretty (length toks)) [[1; 2]; [7; 1]]%Z
    (<[1%Z := [10; 11]%Z]> (<[2%Z := [12]%Z]> ∅))
  = inl (Loader.KeyError 7).
Proof.
  apply (proj2 (input_text_needs_every_hash_id
                  (fun toks => pretty (length toks)) [[1; 2]; [7; 1]]%Z
                  (<[1%Z := [10; 11]%Z]> (<[2%Z := [12]%Z]> ∅)))
           [1; 2]%Z [1]%Z 7%Z eq_refl).
  - intros x Hx. apply elem_of_cons in Hx as [->|Hx];
      [|apply elem_of_cons in Hx as [->|Hx]]; [eexists; reflexivity..|].
    inversion Hx.
  - reflexivity.
Defined.

(** ** Loading the hash ids *)

#[local] Set Warnings "-clear-no-such-hyp".

Section LoadFacts.
Variable rng : Type.
Variable randint : Z -> Z -> rng -> Z * rng.

Lemma two_values_inv (line : list Z) :
  Loader.two_values line \/
  (forall h n, line <> [h; n]).
Proof.
  destruct line as [|h [|n [|x rest]]].
  - right. discriminate.
  - right. discriminate.
  - left. now exists h, n.
  - right. discriminate.
Qed.

Lemma load_lines_inv (vocab_size : Z) (lines : list (list Z))
    (d d' : gmap Z (list Z)) (g g' : rng) :
  Loader.load_lines rng randint vocab_size lines d g = inr (d', g') ->
  Forall Loader.two_values lines /\
  dom d' = dom d ∪ list_to_set (flat_map (take 1) lines).
Proof.
  revert d g. induction lines as [|line lines IH]; intros d g; cbn.
  - intros [= <- <-]. split; [constructor|]. set_solver.
  - destruct line as [|h [|n [|x rest]]]; try discriminate.
    destruct (Preprocess.simulate_token_lists rng randint n vocab_size g)
      as [toks g1].
    intros Hl. destruct (IH _ _ Hl) as [Hf Hd]. split.
    + constructor; [now exists h, n | exact Hf].
    + rewrite Hd, dom_insert_L. cbn. set_solver.
Qed.


Lemma load_files_inv (logger : bool) (vocab_size : Z)
    (files : list (option (list (list Z))))
    (d d' : gmap Z (list Z)) (g g' : rng) :
  Loader.load_files rng randint logger vocab_size files d g = inr (d', g') ->
  Forall Loader.two_values (Loader.all_lines files) /\
  (logger = true \/ Forall is_Some files) /\
  dom d' = dom d ∪ list_to_set (flat_map (take 1) (Loader.all_lines files)).
Proof.
  revert d g. induction files as [|[lines|] files IH]; intros d g; cbn.
  - intros [= <- <-]. repeat split; [constructor|right; constructor|].
    set_solver.
  - destruct (Loader.load_lines rng randint vocab_size lines d g)
      as [e|[d1 g1]] eqn:El; [discriminate|].
    intros Hf. destruct (load_lines_inv _ _ _ _ _ _ El) as [Hl Hd1].
    destruct (IH _ _ Hf) as (Hr & Hlog & Hd). repeat split.
    + apply Forall_app. split; assumption.
    + destruct Hlog as [Hlog|Hall]; [now left|right].
      constructor; [now eexists | exact Hall].
    + rewrite Hd, Hd1, flat_map_app, list_to_set_app_L.
      now rewrite (assoc_L (∪)).
  - destruct logger; [|discriminate].
    intros Hf. destruct (IH _ _ Hf) as (Hr & _ & Hd).
    repeat split; [exact Hr | now left | exact Hd].
Qed.


Hypothesis randint_range :
  forall lo hi g, (lo <= hi)%Z -> (lo <= fst (randint lo hi g) <= hi)%Z.




End LoadFacts.



(** ** [preprocess] *)

Lemma py_slice_to_map {A B} (f : A -> B) (n : Z) (l : list A) :
  Loader.py_slice_to n (map f l) = map f (Loader.py_slice_to n l).
Proof.
  unfold Loader.py_slice_to. rewrite length_map.
  destruct (n <? 0)%Z; symmetry; apply fmap_take.
Qed.

Lemma py_slice_to_length {A} (n : Z) (l : list A) :
  ((0 <= n)%Z ->
   length (Loader.py_slice_to n l) = Nat.min (Z.to_nat n) (length l)) /\
  ((n < 0)%Z ->
   length (Loader.py_slice_to n l) = (length l - Z.to_nat (- n))%nat).
Proof.
  unfold Loader.py_slice_to. split; intros Hn.
  - destruct (n <? 0)%Z eqn:E; [lia|]. apply length_take.
  - destruct (n <? 0)%Z eqn:E; [|lia]. rewrite length_take. lia.
Qed.

Lemma extend_all_fails (d : gmap Z (list Z)) (l acc : list Z) (id : Z) :
  id ∈ l -> d !! id = None ->
  exists e, Loader.extend_all d l acc = inl e.
Proof.
  revert acc. induction l as [|x l IH]; intros acc Hin Hid.
  - inversion Hin.
  - cbn. destruct (d !! x) as [toks|] eqn:Ex; [|eauto].
    apply elem_of_cons in Hin as [->|Hin]; [congruence|]. now apply IH.
Qed.

Section PreprocessFacts.
Variable decode : list Z -> string.

Lemma fill_input_text_fails (d : gmap Z (list Z))
    (traces : list Loader.raw_trace) (j : nat) (tr : Loader.raw_trace)
    (id : Z) :
  traces !! j = Some tr ->
  id ∈ concat (Loader.hash_ids tr) ->
  d !! id = None ->
  exists e, Loader.fill_input_text decode d traces = inl e.
Proof.
  revert j. induction traces as [|t traces IH]; intros j Hj Hin Hid.
  - discriminate.
  - cbn. unfold Loader.simulate_token_lists_to_input_text.
    rewrite gather_concat.
    destruct j as [|j].
    + injection Hj as ->.
      destruct (extend_all_fails d _ [] id Hin Hid) as [e ->]. eauto.
    + destruct (Loader.extend_all d (concat (Loader.hash_ids t)) []);
        [eauto|].
      destruct (IH j Hj Hin Hid) as [e ->]. eauto.
Qed.

Lemma fill_input_text_timestamps (d : gmap Z (list Z))
    (traces : list Loader.raw_trace) (out : list trace) :
  Loader.fill_input_text decode d traces = inr out ->
  map timestamp out = map Loader.raw_timestamp traces.
Proof.
  revert out. induction traces as [|t traces IH]; intros out; cbn.
  - now intros [= <-].
  - destruct (Loader.simulate_token_lists_to_input_text decode _ d);
      [discriminate|].
    destruct (Loader.fill_input_text decode d traces) as [e|rest];
      [discriminate|].
    intros [= <-]. cbn. f_equal. now apply IH.
Qed.

End PreprocessFacts.

(** X14: [preprocess] fills every trace before it slices. What it
    returns are the first [use_trace_num] traces in file order, unsorted,
    with Python's slice rule (a negative number drops that many from the
    end). But a hash id that no hash-id file defines, in any trace, aborts
    the call, also when that trace lies beyond [use_trace_num]. *)
Theorem preprocess_fills_then_slices (decode : list Z -> string)
    (rng : Type) (randint : Z -> Z -> rng -> Z * rng) (logger : bool)
    (use_trace_num : Z) (traces : list Loader.raw_trace) (vocab_size : Z)
    (files : list (option (list (list Z)))) (g : rng) :
  (forall out g',
      Loader.preprocess decode rng randint logger use_trace_num traces
        vocab_size files g = inr (out, g') ->
      map timestamp out
      = Loader.py_slice_to use_trace_num (map Loader.raw_timestamp traces) /\
      ((0 <= use_trace_num)%Z ->
       length out = Nat.min (Z.to_nat use_trace_num) (length traces)) /\
      ((use_trace_num < 0)%Z ->
       length out = (length traces - Z.to_nat (- use_trace_num))%nat)) /\
  (forall (j : nat) (tr : Loader.raw_trace) (id : Z),
      traces !! j = Some tr ->
      id ∈ concat (Loader.hash_ids tr) ->
      id ∉ flat_map (take 1) (Loader.all_lines files) ->
      exists e,
        Loader.preprocess decode rng randint logger use_trace_num traces
          vocab_size files g = inl e).
Proof.
  unfold Loader.preprocess, Loader._load_hash_id_dict. split.
  - intros out g'.
    destruct (Loader.load_files rng randint logger vocab_size files ∅ g)
      as [e|[d g1]]; [discriminate|].
    destruct (Loader.fill_input_text decode d traces) as [e|all] eqn:Ef;
      [discriminate|].
    intros [= <- <-].
    pose proof (fill_input_text_timestamps decode d traces all Ef) as Ht.
    assert (Hlen : length all = length traces).
    { rewrite <- (length_map timestamp), Ht. apply length_map. }
    rewrite <- py_slice_to_map, Ht. split; [reflexivity|].
    rewrite <- Hlen. apply py_slice_to_length.
  - intros j tr id Hj Hin Hnot.
    destruct (Loader.load_files rng randint logger vocab_size files ∅ g)
      as [e|[d g1]] eqn:El; [eauto|].
    destruct (load_files_inv _ _ _ _ _ _ _ _ _ El) as (_ & _ & Hd).
    assert (Hid : d !! id = None).
    { apply not_elem_of_dom. rewrite Hd, dom_empty_L.
      rewrite (left_id_L ∅ (∪)). now rewrite elem_of_list_to_set. }
    destruct (fill_input_text_fails decode d traces j tr id Hj Hin Hid)
      as [e ->].
    eauto.
Qed.

Lemma preprocess_fills_then_slices_witness :
  exists e,
    Loader.preprocess (fun toks => pretty (length toks)) Z
      Preprocess.lcg_randint true 1
      [ {| Loader.raw_timestamp := 5; Loader.hash_ids := [[1]] |};
        {| Loader.raw_timestamp := 3; Loader.hash_ids := [[1; 9]] |} ]%Z
      50 [Some [[1; 3]]]%Z 42%Z
    = inl e.
Proof.
  apply (proj2 (preprocess_fills_then_slices
                  (fun toks => pretty (length toks)) Z
                  Preprocess.lcg_randint true 1
                  [ {| Loader.raw_timestamp := 5; Loader.hash_ids := [[1]] |};
                    {| Loader.raw_timestamp := 3;
                       Loader.hash_ids := [[1; 9]] |} ]%Z
                  50 [Some [[1; 3]]]%Z 42%Z)
           1%nat {| Loader.raw_timestamp := 3; Loader.hash_ids := [[1; 9]] |}%Z
           9%Z eq_refl).
  - cbn. right. left.
  - cbn. intros Hin. apply elem_of_cons in Hin as [Hin|Hin];
      [discriminate | inversion Hin].
Defined.

(** ** The two [simulate_token_lists] *)

Section LocalDraw.
Variable rng : Type.
Variable randint : Z -> Z -> rng -> Z * rng.

Lemma local_draw_nonempty_range (n : nat) (lo hi : Z) (g : rng) :
  (lo <= hi)%Z ->
  Loader.local_draw rng randint n lo hi g
  = inr (Preprocess.draw rng randint n lo hi g).
Proof.
  intros Hle. revert g. induction n as [|n IH]; intros g; cbn;
    [reflexivity|].
  unfold Loader.py_randint.
  destruct (hi <? lo)%Z eqn:E; [lia|].
  destruct (randint lo hi g) as [x g1]. rewrite IH.
  destruct (Preprocess.draw rng randint n lo hi g1). reflexivity.
Qed.

End LocalDraw.

(** X15: the module-level [simulate_token_lists] of the in-process
    example lacks the guard of the class method. The two agree when both
    arguments are positive (same tokens, same generator state) and when
    [token_length <= 0] (empty list, nothing drawn); for a positive
    [token_length] and [vocab_size <= 0] the in-process function raises
    [ValueError] from [random.randint(0, vocab_size - 1)], where the class
    method returns the empty list. *)
Theorem simulate_token_lists_guard (rng : Type)
    (randint : Z -> Z -> rng -> Z * rng)
    (token_length vocab_size : Z) (g : rng) :
  ((token_length <= 0)%Z ->
   Loader.local_simulate_token_lists rng randint token_length vocab_size g
   = inr ([], g)) /\
  ((0 < token_length)%Z -> (0 < vocab_size)%Z ->
   Loader.local_simulate_token_lists rng randint token_length vocab_size g
   = inr (Preprocess.simulate_token_lists rng randint
            token_length vocab_size g)) /\
  ((0 < token_length)%Z -> (vocab_size <= 0)%Z ->
   Loader.local_simulate_token_lists rng randint token_length vocab_size g
   = inl Loader.ValueError /\
   Preprocess.simulate_token_lists rng randint token_length vocab_size g
   = ([], g)).
Proof.
  unfold Loader.local_simulate_token_lists, Preprocess.simulate_token_lists.
  repeat split.
  - intros Ht. replace (Z.to_nat token_length) with 0%nat by lia. reflexivity.
  - intros Ht Hv.
    destruct (token_length <=? 0)%Z eqn:Et; [lia|].
    destruct (vocab_size <=? 0)%Z eqn:Ev; [lia|]. cbn [orb].
    apply local_draw_nonempty_range. lia.
  - destruct (Z.to_nat token_length) as [|n] eqn:En; [lia|]. cbn.
    unfold Loader.py_randint.
    destruct (vocab_size - 1 <? 0)%Z eqn:E; [reflexivity | lia].
  - destruct (token_length <=? 0)%Z eqn:Et; [reflexivity|].
    destruct (vocab_size <=? 0)%Z eqn:Ev; [reflexivity | lia].
Qed.

Lemma simulate_token_lists_guard_witness :
  Loader.local_simulate_token_lists Z Preprocess.lcg_randint 3 0 42%Z
  = inl Loader.ValueError /\
  Preprocess.simulate_token_lists Z Preprocess.lcg_randint 3 0 42%Z
  = ([], 42%Z).
Proof.
  apply (simulate_token_lists_guard Z Preprocess.lcg_randint 3 0 42%Z); lia.
Defined.

(** ** The traces the in-process example replays *)

Section SortFacts.
Context {A : Type} (key : A -> Z).

Lemma insert_by_perm (x : A) (l : list A) :
  LocalMain.insert_by key x l ≡ₚ x :: l.
Proof.
  induction l as [|y l IH]; cbn; [reflexivity|].
  destruct (key x <=? key y)%Z; [reflexivity|].
  rewrite IH. apply Permutation_swap.
Qed.

Lemma insert_by_sorted (x : A) (l : list A) :
  StronglySorted (fun a b => (key a <= key b)%Z) l ->
  StronglySorted (fun a b => (key a <= key b)%Z)
    (LocalMain.insert_by key x l).
Proof.
  induction 1 as [|y l Hs IH Hy]; cbn.
  - repeat constructor.
  - destruct (key x <=? key y)%Z eqn:E.
    + constructor; [constructor; assumption|].
      constructor; [lia|].
      eapply Forall_impl; [exact Hy|]. cbn. intros z Hz. lia.
    + constructor; [exact IH|].
      rewrite insert_by_perm. constructor; [lia | exact Hy].
Qed.

Lemma insert_by_filter (t : Z) (x : A) (l : list A) :
  filter (fun a => key a = t) (LocalMain.insert_by key x l)
  = filter (fun a => key a = t) (x :: l).
Proof.
  induction l as [|y l IH]; cbn; [reflexivity|].
  destruct (key x <=? key y)%Z eqn:E; [reflexivity|].
  rewrite filter_cons, IH, !filter_cons.
  destruct (decide (key y = t)), (decide (key x = t)); try reflexivity.
  lia.
Qed.

Lemma py_sorted_perm (l : list A) : LocalMain.py_sorted key l ≡ₚ l.
Proof.
  induction l as [|x l IH]; cbn; [reflexivity|].
  now rewrite insert_by_perm, IH.
Qed.

Lemma py_sorted_sorted (l : list A) :
  StronglySorted (fun a b => (key a <= key b)%Z) (LocalMain.py_sorted key l).
Proof.
  induction l as [|x l IH]; cbn; [constructor|]. now apply insert_by_sorted.
Qed.

Lemma py_sorted_stable (t : Z) (l : list A) :
  filter (fun a => key a = t) (LocalMain.py_sorted key l)
  = filter (fun a => key a = t) l.
Proof.
  induction l as [|x l IH]; [reflexivity|].
  change (LocalMain.py_sorted key (x :: l))
    with (LocalMain.insert_by key x (LocalMain.py_sorted key l)).
  rewrite insert_by_filter, !filter_cons, IH. reflexivity.
Qed.

End SortFacts.

(** X16: the in-process example replays the five earliest traces, in
    non-decreasing timestamp order (the order the producer's loop assumes),
    records with equal timestamps keeping their file order. The traces it
    drops are no earlier than those it keeps, and nothing is kept twice. *)
Theorem select_traces_earliest_five (traces : list Loader.raw_trace) :
  StronglySorted
    (fun a b => (Loader.raw_timestamp a <= Loader.raw_timestamp b)%Z)
    (LocalMain.select_traces traces) /\
  length (LocalMain.select_traces traces) = Nat.min 5 (length traces) /\
  (exists dropped,
      traces ≡ₚ LocalMain.select_traces traces ++ dropped /\
      forall kept late,
        kept ∈ LocalMain.select_traces traces -> late ∈ dropped ->
        (Loader.raw_timestamp kept <= Loader.raw_timestamp late)%Z) /\
  (forall t,
      filter (fun a => Loader.raw_timestamp a = t)
        (LocalMain.py_sorted Loader.raw_timestamp traces)
      = filter (fun a => Loader.raw_timestamp a = t) traces).
Proof.
  unfold LocalMain.select_traces.
  pose proof (py_sorted_sorted Loader.raw_timestamp traces) as Hs.
  pose proof (py_sorted_perm Loader.raw_timestamp traces) as Hp.
  rewrite <- (take_drop 5 (LocalMain.py_sorted Loader.raw_timestamp traces))
    in Hs, Hp.
  repeat split.
  - exact (StronglySorted_app_1_l _ _ _ Hs).
  - rewrite length_take. now rewrite (Permutation_length
      (py_sorted_perm Loader.raw_timestamp traces)).
  - exists (drop 5 (LocalMain.py_sorted Loader.raw_timestamp traces)).
    split; [now symmetry|].
    intros kept late Hk Hl.
    exact (StronglySorted_app_1_elem_of _ _ _ _ _ Hs Hk Hl).
  - intros t. apply py_sorted_stable.
Qed.

Example select_traces_run :
  map Loader.raw_timestamp
    (LocalMain.select_traces
       [ {| Loader.raw_timestamp := 7; Loader.hash_ids := [[1]] |};
         {| Loader.raw_timestamp := 3; Loader.hash_ids := [[2]] |};
         {| Loader.raw_timestamp := 9; Loader.hash_ids := [] |};
         {| Loader.raw_timestamp := 3; Loader.hash_ids := [[4]] |};
         {| Loader.raw_timestamp := 8; Loader.hash_ids := [] |};
         {| Loader.raw_timestamp := 1; Loader.hash_ids := [] |} ]%Z)
  = [1; 3; 3; 7; 8]%Z /\
  map Loader.hash_ids
    (LocalMain.select_traces
       [ {| Loader.raw_timestamp := 7; Loader.hash_ids := [[1]] |};
         {| Loader.raw_timestamp := 3; Loader.hash_ids := [[2]] |};
         {| Loader.raw_timestamp := 9; Loader.hash_ids := [] |};
         {| Loader.raw_timestamp := 3; Loader.hash_ids := [[4]] |};
         {| Loader.raw_timestamp := 8; Loader.hash_ids := [] |};
         {| Loader.raw_timestamp := 1; Loader.hash_ids := [] |} ]%Z)
  = [[]; [[2]]; [[4]]; [[1]]; []]%Z.
Proof. split; reflexivity. Qed.

(** ** The handlers of the logger *)

Lemma removeHandler_middle (h : Logger.handler)
    (pre rest : list Logger.handler) :
  h ∉ pre ->
  Logger.removeHandler h (pre ++ h :: rest) = pre ++ rest.
Proof.
  induction pre as [|x pre IH]; intros Hn; cbn.
  - now rewrite decide_True.
  - rewrite decide_False.
    + rewrite IH; [reflexivity|]. intros Hin. apply Hn. now right.
    + intros ->. apply Hn. left.
Qed.

Lemma remove_each (handlers : list Logger.handler) :
  fold_left (fun l h => Logger.removeHandler h l) handlers handlers = [].
Proof.
  induction handlers as [|h handlers IH]; cbn; [reflexivity|].
  now rewrite decide_True.
Qed.

Lemma close_loop_spec (turns : nat) :
  forall (l pre closed : list Logger.handler),
    NoDup (pre ++ l) ->
    (length l <= 2 * turns)%nat ->
    Logger.close_loop turns (length pre) (pre ++ l) closed
    = (pre ++ Logger.odds l, closed ++ Logger.evens l).
Proof.
  induction turns as [|turns IH]; intros l pre closed Hnd Hlen.
  - destruct l; [|cbn in Hlen; lia]. cbn. now rewrite !app_nil_r.
  - cbn [Logger.close_loop].
    destruct l as [|x [|y l]].
    + rewrite app_nil_r, lookup_ge_None_2 by lia. cbn. now rewrite !app_nil_r.
    + rewrite list_lookup_middle by reflexivity.
      rewrite removeHandler_middle.
      2:{ apply NoDup_app in Hnd as (_ & Hd & _). intros Hin.
          apply (Hd x Hin). left. }
      cbn [Logger.odds Logger.evens]. rewrite !app_nil_r.
      destruct turns; cbn [Logger.close_loop];
        [|rewrite lookup_ge_None_2 by lia]; reflexivity.
    + rewrite list_lookup_middle by reflexivity.
      rewrite removeHandler_middle.
      2:{ apply NoDup_app in Hnd as (_ & Hd & _). intros Hin.
          apply (Hd x Hin). left. }
      replace (pre ++ y :: l) with ((pre ++ [y]) ++ l)
        by now rewrite <- app_assoc.
      replace (S (length pre)) with (length (pre ++ [y]))
        by (rewrite length_app; cbn; lia).
      rewrite IH.
      * cbn [Logger.odds Logger.evens]. rewrite <- !app_assoc. cbn.
        destruct l; reflexivity.
      * rewrite <- app_assoc. cbn.
        apply NoDup_app in Hnd as (Hp & Hd & Hl).
        apply NoDup_app. repeat split.
        -- exact Hp.
        -- intros z Hz Hin. apply (Hd z Hz). now right.
        -- now inversion Hl.
      * cbn in Hlen. lia.
Qed.

(** X17: [_configure_handlers] leaves exactly two handlers on the logger,
    the new console handler followed by the new file handler, whatever
    handlers the logger carried before (a logger of the same name is
    shared); every earlier handler is removed and closed. *)
Theorem configure_handlers_installs_two (console file : Logger.handler)
    (handlers : list Logger.handler) :
  console <> file ->
  Logger._configure_handlers console file handlers
  = ([console; file], handlers).
Proof.
  intros Hne. unfold Logger._configure_handlers, Logger.addHandler.
  rewrite remove_each.
  destruct (decide (console ∈ [])) as [Hin|_]; [inversion Hin|].
  cbn [app].
  destruct (decide (file ∈ [console])) as [Hin|_]; [|reflexivity].
  apply list_elem_of_singleton in Hin. congruence.
Qed.

Lemma configure_handlers_installs_two_witness :
  Logger._configure_handlers 7%nat 8%nat [1; 2; 3]%nat
  = ([7; 8]%nat, [1; 2; 3]%nat).
Proof. apply configure_handlers_installs_two. discriminate. Defined.

(** X18: [close] does not close every handler. Removing from the list it
    iterates over, it closes and removes the handlers at positions 0, 2,
    4, ... and leaves those at positions 1, 3, ... attached and open. On
    a logger as constructed, the console handler is closed and the file
    handler is left; a second [close] closes that one. *)
Theorem close_skips_every_other (handlers : list Logger.handler) :
  NoDup handlers ->
  Logger.close handlers = (Logger.odds handlers, Logger.evens handlers) /\
  (forall console file old,
      console <> file ->
      Logger.close (fst (Logger._configure_handlers console file old))
      = ([file], [console]) /\
      Logger.close [file] = ([], [file])).
Proof.
  assert (Hclose : forall l, NoDup l ->
            Logger.close l = (Logger.odds l, Logger.evens l)).
  { intros l Hl. unfold Logger.close.
    apply (close_loop_spec (length l) l [] []); [exact Hl | lia]. }
  intros Hnd. split; [now apply Hclose|].
  intros console file old Hne.
  rewrite configure_handlers_installs_two by assumption. cbn [fst].
  split; rewrite Hclose; try reflexivity.
  - apply NoDup_cons. split; [|apply NoDup_singleton].
    intros Hin. apply list_elem_of_singleton in Hin. congruence.
  - apply NoDup_singleton.
Qed.

Lemma close_skips_every_other_witness :
  Logger.close [1; 2; 3; 4; 5]%nat = ([2; 4]%nat, [1; 3; 5]%nat).
Proof.
  apply (close_skips_every_other [1; 2; 3; 4; 5]%nat).
  repeat (constructor; [intros Hin; repeat (apply elem_of_cons in Hin as [Hin|Hin]; [discriminate|]); inversion Hin|]).
  constructor.
Defined.
